(** * DevOpsPilot AI engine: a shallow embedding of the model components

    The three model components of [src/ai-engine/models] are embedded here:
    - [anomaly_detection.py]  (class [AnomalyDetectionModel]),
    - [predictive_scaling.py] (class [PredictiveScalingModel]),
    - [root_cause_analysis.py] (class [RootCauseAnalysisModel]).

    Conventions of the embedding.
    - A Python float is a [float]: an exact rational or [NaN].  The two
      infinities are not modelled (a division by zero gives [NaN]).
      Arithmetic is exact, but for the two products whose rounding the
      facts below depend on, the size of the test partition and the score
      of a hypothesis: they are the library's [float_mul], the binary64
      product.
    - A method that assigns to [self] is a function in the monad [M Self]: it
      takes the object's state and returns the new state together with either
      a value or the exception that escaped.  A [try: ... except Exception:]
      block is [try_catch].
    - Calls into numpy, scipy, pandas' numeric kernels and scikit-learn are
      fields of the class [Library]; every one of them may raise.  The
      theorems hold for every implementation of that interface; the closed
      examples use the exact rational implementation [RefLib]. *)

From Stdlib Require Import QArith Qabs Qround ZArith Lia Ascii.
From stdpp Require Import gmap strings list pretty sorting.

Open Scope string_scope.
Open Scope list_scope.

(** ** Python floats *)

Inductive float := Fin (q : Q) | NaN.

Definition Qltb (x y : Q) : bool := negb (Qle_bool y x).

Definition flt (a b : float) : bool :=
  match a, b with Fin x, Fin y => Qltb x y | _, _ => false end.
Definition fle (a b : float) : bool :=
  match a, b with Fin x, Fin y => Qle_bool x y | _, _ => false end.
Definition feqb (a b : float) : bool :=
  match a, b with Fin x, Fin y => Qeq_bool x y | _, _ => false end.
Definition fgt (a b : float) : bool := flt b a.
Definition fge (a b : float) : bool := fle b a.

Definition fadd (a b : float) : float :=
  match a, b with Fin x, Fin y => Fin (x + y) | _, _ => NaN end.
Definition fsub (a b : float) : float :=
  match a, b with Fin x, Fin y => Fin (x - y) | _, _ => NaN end.
Definition fmul (a b : float) : float :=
  match a, b with Fin x, Fin y => Fin (x * y) | _, _ => NaN end.
Definition fdiv (a b : float) : float :=
  match a, b with
  | Fin x, Fin y => if Qeq_bool y 0 then NaN else Fin (x / y)
  | _, _ => NaN
  end.
Definition fabs (a : float) : float :=
  match a with Fin x => Fin (Qabs x) | NaN => NaN end.
Definition of_nat (n : nat) : float := Fin (inject_Z (Z.of_nat n)).
Definition of_Z (n : Z) : float := Fin (inject_Z n).

(** Python's builtin [min(a, b)]: [b] when [b < a], else [a]. *)
Definition py_min (a b : float) : float := if flt b a then b else a.
(** Python's builtin [max(a, b)]: [b] when [b > a], else [a]. *)
Definition py_max (a b : float) : float := if fgt b a then b else a.

Definition fsum (l : list float) : float := foldr fadd (Fin 0) l.

(** [np.mean] of a sequence; of an empty one numpy answers [nan]. *)
Definition np_mean (l : list float) : float :=
  match l with
  | [] => NaN
  | _ => fdiv (fsum l) (of_nat (length l))
  end.

(** Equality of floats up to the representation of the rational. *)
Definition feq (a b : float) : Prop :=
  match a, b with
  | Fin x, Fin y => (x == y)%Q
  | NaN, NaN => True
  | _, _ => False
  end.

(** ** Exceptions and the state-and-exception monad *)

Inductive exn :=
| KeyError (key : string)
| ValueError (msg : string)
| IndexError (msg : string)
| TypeError (msg : string)
| OSError (msg : string)
| LibraryError (msg : string).

(** [str(e)]: the message, and for a [KeyError] the key in quotes. *)
Definition str_exn (e : exn) : string :=
  match e with
  | KeyError k => "'" +:+ k +:+ "'"
  | ValueError m | IndexError m | TypeError m | OSError m | LibraryError m => m
  end.

Inductive outcome (A : Type) := Ok (a : A) | Raise (e : exn).
Arguments Ok {A} a.
Arguments Raise {A} e.

Definition M (S A : Type) : Type := S -> outcome A * S.

Definition ret {S A} (a : A) : M S A := fun s => (Ok a, s).
Definition raise {S A} (e : exn) : M S A := fun s => (Raise e, s).
Definition bind {S A B} (m : M S A) (k : A -> M S B) : M S B :=
  fun s => match m s with
           | (Ok a, s') => k a s'
           | (Raise e, s') => (Raise e, s')
           end.
Definition lift {S A} (o : outcome A) : M S A := fun s => (o, s).
Definition get {S} : M S S := fun s => (Ok s, s).
Definition gets {S A} (f : S -> A) : M S A := fun s => (Ok (f s), s).
Definition modify {S} (f : S -> S) : M S unit := fun s => (Ok tt, f s).
(** [try: body except Exception as e: handler e] *)
Definition try_catch {S A} (body : M S A) (handler : exn -> M S A) : M S A :=
  fun s => match body s with
           | (Ok a, s') => (Ok a, s')
           | (Raise e, s') => handler e s'
           end.
(** A dictionary subscript [d[k]], which raises [KeyError] on a missing key. *)
Definition subscript {S V} (d : gmap string V) (k : string) : M S V :=
  match d !! k with Some v => ret v | None => raise (KeyError k) end.

Notation "'let!' x ':=' m 'in' k" := (bind m (fun x => k))
  (at level 10, x name, m at level 100, k at level 200).
Notation "'let!' ' p ':=' m 'in' k" := (bind m (fun p => k))
  (at level 10, p pattern, m at level 100, k at level 200).
Notation "'run!' m 'in' k" := (bind m (fun _ => k))
  (at level 10, m at level 100, k at level 200).

(** A [for] loop over a list, stopping at the first exception. *)
Fixpoint for_each {S A} (l : list A) (body : A -> M S unit) : M S unit :=
  match l with
  | [] => ret tt
  | x :: rest => run! body x in for_each rest body
  end.

Definition exec {S A} (m : M S A) (s : S) : S := snd (m s).
Definition eval {S A} (m : M S A) (s : S) : outcome A := fst (m s).

(** ** pandas data frames

    A frame is a schema (column names with their dtype) and its rows.  Index
    labels are not modelled: every access of the code below is positional
    ([iloc], [.values]) or by column name.  Column names are taken to be
    distinct, as pandas frames built from metric records are. *)

Inductive Cell := CNum (x : float) | CTime (t : Z) | CStr (s : string) | CNone.
Inductive Dtype := DNumber | DDatetime | DObject.

Record DataFrame := mkDF {
  df_schema : list (string * Dtype);
  df_rows : list (list Cell)
}.

Definition matrix := list (list float).

(** [len(data)] *)
Definition len (data : DataFrame) : nat := length (df_rows data).

(** [data.copy()]: a frame is a value here, the copy is the frame. *)
Definition copy (data : DataFrame) : DataFrame := data.

Definition is_number (d : Dtype) : bool :=
  match d with DNumber => true | _ => false end.

Definition columns (data : DataFrame) : list string := map fst (df_schema data).

(** [data.select_dtypes(include=[np.number]).columns] *)
Definition numeric_columns (data : DataFrame) : list string :=
  map fst (filter (fun c => is_number (snd c) = true) (df_schema data)).

Fixpoint col_index (name : string) (schema : list (string * Dtype)) : option nat :=
  match schema with
  | [] => None
  | (n, _) :: rest =>
      if String.eqb n name then Some 0%nat else S <$> col_index name rest
  end.

Definition cell_float (c : Cell) : float :=
  match c with CNum x => x | _ => NaN end.

Definition isna (c : Cell) : bool :=
  match c with CNum NaN | CNone => true | _ => false end.

(** [data[column].values] for a column named in the frame's own schema. *)
Definition column_values (column : string) (data : DataFrame) : list float :=
  match col_index column (df_schema data) with
  | Some j => map (fun r => cell_float (nth j r CNone)) (df_rows data)
  | None => []
  end.

(** [data[mask(data[column])]]: keep the rows whose cell in [column] passes. *)
Definition filter_rows (keep : float -> bool) (column : string)
    (data : DataFrame) : DataFrame :=
  match col_index column (df_schema data) with
  | Some j =>
      mkDF (df_schema data)
           (filter (fun r => keep (cell_float (nth j r CNone)) = true) (df_rows data))
  | None => data
  end.

(** [fillna(method='ffill')] and [fillna(method='bfill')] *)
Definition fill_cell (prev cur : Cell) : Cell := if isna cur then prev else cur.

Fixpoint ffill_from (prev : list Cell) (rows : list (list Cell)) : list (list Cell) :=
  match rows with
  | [] => []
  | r :: rest => let r' := zip_with fill_cell prev r in r' :: ffill_from r' rest
  end.

Definition ffill_rows (rows : list (list Cell)) : list (list Cell) :=
  match rows with
  | [] => []
  | r :: rest => r :: ffill_from r rest
  end.

Definition fillna_ffill (data : DataFrame) : DataFrame :=
  mkDF (df_schema data) (ffill_rows (df_rows data)).
Definition fillna_bfill (data : DataFrame) : DataFrame :=
  mkDF (df_schema data) (rev (ffill_rows (rev (df_rows data)))).

(** The numeric cells of one row, in schema order. *)
Fixpoint numeric_cells (schema : list (string * Dtype)) (row : list Cell) : list float :=
  match schema, row with
  | (_, d) :: schema', c :: row' =>
      if is_number d then cell_float c :: numeric_cells schema' row'
      else numeric_cells schema' row'
  | _, _ => []
  end.

(** [data.select_dtypes(include=[np.number]).values] *)
Definition numeric_values (data : DataFrame) : matrix :=
  map (numeric_cells (df_schema data)) (df_rows data).

(** One row of [data[numerical_columns] = values]. *)
Fixpoint put_numeric_cells (schema : list (string * Dtype)) (row : list Cell)
    (vals : list float) : list Cell :=
  match schema, row with
  | (_, d) :: schema', c :: row' =>
      if is_number d then
        match vals with
        | v :: vals' => CNum v :: put_numeric_cells schema' row' vals'
        | [] => c :: put_numeric_cells schema' row' []
        end
      else c :: put_numeric_cells schema' row' vals
  | _, _ => row
  end.

Definition same_shape (data : DataFrame) (values : matrix) : bool :=
  Nat.eqb (length values) (len data)
  && forallb (fun v => Nat.eqb (length v) (length (numeric_columns data))) values.

(** [data[numerical_columns] = values]; pandas refuses an array of another
    shape with a [ValueError]. *)
Definition assign_numeric (data : DataFrame) (values : matrix) : outcome DataFrame :=
  if same_shape data values then
    Ok (mkDF (df_schema data)
             (zip_with (put_numeric_cells (df_schema data)) (df_rows data) values))
  else Raise (ValueError "shape mismatch").

(** [data.iloc[idx]] *)
Definition iloc (data : DataFrame) (idx : nat) : outcome (list Cell) :=
  match df_rows data !! idx with
  | Some r => Ok r
  | None => Raise (IndexError "single positional indexer is out-of-bounds")
  end.

(** [row.get('timestamp', None)] *)
Definition row_get (data : DataFrame) (row : list Cell) (name : string) : option Cell :=
  j ← col_index name (df_schema data); row !! j.

(** [row.to_dict()] *)
Definition to_dict (data : DataFrame) (row : list Cell) : list (string * Cell) :=
  zip (columns data) row.

(** [np.where(cond(values))[0]]: the positions whose value passes. *)
Fixpoint where_from {A} (p : A -> bool) (i : nat) (l : list A) : list nat :=
  match l with
  | [] => []
  | x :: rest => if p x then i :: where_from p (S i) rest else where_from p (S i) rest
  end.
Definition np_where {A} (p : A -> bool) (l : list A) : list nat := where_from p 0 l.

(** ** The numeric and machine-learning libraries *)

Definition datetime := Z.

Class Library := {
  (** a fitted scikit-learn estimator, a fitted scaler, a fitted encoder *)
  Estimator : Type;
  Scaler : Type;
  Encoder : Type;
  (** [IsolationForest(...).fit(X)], from the constructor's parameters *)
  isolation_forest_fit : gmap string float -> matrix -> outcome Estimator;
  (** [DBSCAN(...).fit(X)], from the constructor's parameters *)
  dbscan_fit : gmap string float -> matrix -> outcome Estimator;
  (** [model.predict(X)] *)
  predict : Estimator -> matrix -> outcome (list float);
  (** [model.fit_predict(X)]: refits the estimator object and returns its
      labels; the refitted object comes back with them *)
  fit_predict : Estimator -> matrix -> outcome (Estimator * list float);
  (** [StandardScaler().fit_transform(X)] *)
  scaler_fit_transform : matrix -> outcome (Scaler * matrix);
  (** [scaler.transform(X)] *)
  scaler_transform : Scaler -> matrix -> outcome matrix;
  (** [series.quantile(q)] *)
  pd_quantile : list float -> Q -> outcome float;
  (** [np.percentile(values, p)] *)
  np_percentile : list float -> Q -> outcome float;
  (** [stats.zscore(values)] *)
  stats_zscore : list float -> outcome (list float);
  (** [RandomForestRegressor], [GradientBoostingRegressor] and
      [LinearRegression] by name, constructed from their parameters and
      fitted on [X], [y] *)
  regressor_fit : string -> gmap string float -> matrix -> list float -> outcome Estimator;
  (** [dict(zip(X.columns, model.feature_importances_))] *)
  feature_importances : Estimator -> list string -> list (string * float);
  (** lines 173-177 of [predictive_scaling.py]: the mask
      [~(y_train.isna() | y_test.isna())], aligned by pandas on the index
      labels, applied to the four arrays *)
  select_valid : matrix -> list float -> matrix -> list float ->
                 outcome (matrix * list float * matrix * list float);
  (** [mean_squared_error], [mean_absolute_error], [r2_score], [np.sqrt] *)
  mean_squared_error : list float -> list float -> outcome float;
  mean_absolute_error : list float -> list float -> outcome float;
  r2_score : list float -> list float -> outcome float;
  np_sqrt : float -> float;
  (** [np.var] *)
  np_var : list float -> outcome float;
  (** [np.random.RandomState(seed).permutation(n)] *)
  rng_permutation : Z -> nat -> list nat;
  (** [pd.to_datetime] of one cell: a [CTime], or [CNone] for [NaT] *)
  to_datetime : Cell -> outcome Cell;
  (** the calendar fields of a timestamp, and the cyclical transforms
      [np.sin(2 * np.pi * x / period)] and [np.cos(2 * np.pi * x / period)] *)
  dt_hour : datetime -> Z;
  dt_dayofweek : datetime -> Z;
  dt_day : datetime -> Z;
  dt_month : datetime -> Z;
  cyc_sin : float -> Z -> float;
  cyc_cos : float -> Z -> float;
  (** [str] of a float, as an f-string prints it, and its [:.3f] format *)
  float_str : float -> string;
  float_fmt3 : float -> string;
  (** [LabelEncoder().fit_transform(values)] *)
  label_encoder_fit_transform : list string -> outcome (Encoder * list float);
  (** [np.std], [np.min], [np.max], [np.median] *)
  np_std : list float -> outcome float;
  np_min : list float -> outcome float;
  np_max : list float -> outcome float;
  np_median : list float -> outcome float;
  (** [stats.linregress(x, y)]: slope, r value and p value *)
  stats_linregress : list float -> list float -> outcome (float * float * float);
  (** [silhouette_score(X, labels)] and [model.score_samples(X)] *)
  silhouette_score : matrix -> list float -> outcome float;
  score_samples : Estimator -> matrix -> outcome (list float);
  (** a networkx graph over metric names, and the graph algorithms *)
  Graph : Type;
  nx_nodes : Graph -> list string;
  nx_number_of_edges : Graph -> nat;
  nx_density : Graph -> outcome float;
  nx_average_clustering : Graph -> outcome float;
  nx_degree_centrality : Graph -> outcome (list (string * float));
  nx_betweenness_centrality : Graph -> outcome (list (string * float));
  nx_greedy_modularity_communities : Graph -> outcome (list (list string));
  (** [nx.shortest_path]; [None] stands for [NetworkXNoPath] *)
  nx_shortest_path : Graph -> string -> string -> outcome (option (list string));
  (** [datetime.isoformat()] *)
  isoformat : datetime -> string;
  (** [x * y] on Python floats: the binary64 product, rounded to nearest
      with ties to even, of the doubles that [x] and [y] stand for *)
  float_mul : float -> float -> float;
}.

(** [values[idx]] on an array *)
Definition item {A} (values : list A) (idx : nat) : outcome A :=
  match values !! idx with
  | Some v => Ok v
  | None => Raise (IndexError "index out of bounds")
  end.

(** [x == -1] on an element of a label or prediction array *)
Definition is_minus_one (x : float) : bool :=
  feqb x (Fin (-1)).

(** ** The anomaly detector, [anomaly_detection.py] *)

Module AnomalyDetection.
Section Model.
Context {L : Library}.

Record Config := mkConfig {
  isolation_forest : gmap string float;
  dbscan : gmap string float;
  statistical : gmap string float;
  window_size : float;
  min_anomalies : float;
  confidence_threshold : float
}.

(** The [config] argument of the constructor: any subset of the top-level keys. *)
Record UserConfig := mkUserConfig {
  u_isolation_forest : option (gmap string float);
  u_dbscan : option (gmap string float);
  u_statistical : option (gmap string float);
  u_window_size : option float;
  u_min_anomalies : option float;
  u_confidence_threshold : option float
}.

Definition no_config : UserConfig := mkUserConfig None None None None None None.

Definition default_config : Config := {|
  isolation_forest :=
    {[ "contamination" := Fin 0.1; "random_state" := Fin 42; "n_estimators" := Fin 100 ]};
  dbscan := {[ "eps" := Fin 0.5; "min_samples" := Fin 5 ]};
  statistical := {[ "z_score_threshold" := Fin 3; "iqr_multiplier" := Fin 1.5 ]};
  window_size := Fin 24;
  min_anomalies := Fin 3;
  confidence_threshold := Fin 0.7
|}.

(** [{**self.default_config, **self.config}]: a top-level key of the user's
    configuration replaces the default's whole entry. *)
Definition merge_config (d : Config) (u : UserConfig) : Config := {|
  isolation_forest := default (isolation_forest d) (u_isolation_forest u);
  dbscan := default (dbscan d) (u_dbscan u);
  statistical := default (statistical d) (u_statistical u);
  window_size := default (window_size d) (u_window_size u);
  min_anomalies := default (min_anomalies d) (u_min_anomalies u);
  confidence_threshold := default (confidence_threshold d) (u_confidence_threshold u)
|}.

Record AnomalyDetectionModel := mkModel {
  config : Config;
  models : gmap string Estimator;
  scalers : gmap string Scaler;
  thresholds : gmap string float;
  is_trained : bool;
  last_training : option datetime
}.

(** [__init__] *)
Definition init (u : UserConfig) : AnomalyDetectionModel := {|
  config := merge_config default_config u;
  models := ∅;
  scalers := ∅;
  thresholds := ∅;
  is_trained := false;
  last_training := None
|}.

Definition set_model (k : string) (m : Estimator) (self : AnomalyDetectionModel) :=
  mkModel (config self) (<[k := m]> (models self)) (scalers self) (thresholds self)
          (is_trained self) (last_training self).
Definition set_scaler (k : string) (sc : Scaler) (self : AnomalyDetectionModel) :=
  mkModel (config self) (models self) (<[k := sc]> (scalers self)) (thresholds self)
          (is_trained self) (last_training self).
Definition set_threshold (k : string) (t : float) (self : AnomalyDetectionModel) :=
  mkModel (config self) (models self) (scalers self) (<[k := t]> (thresholds self))
          (is_trained self) (last_training self).
Definition set_is_trained (b : bool) (self : AnomalyDetectionModel) :=
  mkModel (config self) (models self) (scalers self) (thresholds self)
          b (last_training self).
Definition set_last_training (t : option datetime) (self : AnomalyDetectionModel) :=
  mkModel (config self) (models self) (scalers self) (thresholds self)
          (is_trained self) t.

(** *** [preprocess_data]

    The body of the [try] block runs on the pair of [self] and the local
    variable [data], which the method rebinds as it goes and returns from the
    [try] block and from the handler alike. *)

Definition Local : Type := AnomalyDetectionModel * DataFrame.

Definition set_data (f : DataFrame -> DataFrame) : M Local unit :=
  modify (fun s => (fst s, f (snd s))).
Definition on_self (f : AnomalyDetectionModel -> AnomalyDetectionModel) : M Local unit :=
  modify (fun s => (f (fst s), snd s)).

Definition remove_outliers (column : string) : M Local unit :=
  let! data := gets snd in
  let! Q1 := lift (pd_quantile (column_values column data) 0.25) in
  let! Q3 := lift (pd_quantile (column_values column data) 0.75) in
  let IQR := fsub Q3 Q1 in
  let! cfg := gets (fun s => config (fst s)) in
  let! multiplier := subscript (statistical cfg) "iqr_multiplier" in
  let lower_bound := fsub Q1 (fmul multiplier IQR) in
  let upper_bound := fadd Q3 (fmul multiplier IQR) in
  set_data (filter_rows (fun v => fge v lower_bound && fle v upper_bound) column).

(** [data[numerical_columns] = values], in place on the local frame *)
Definition assign_scaled (values : matrix) : M Local unit :=
  fun s =>
    match assign_numeric (snd s) values with
    | Ok data' => (Ok tt, (fst s, data'))
    | Raise e => (Raise e, s)
    end.

Definition preprocess_body : M Local unit :=
  run! set_data (fun data => fillna_bfill (fillna_ffill data)) in
  let! data0 := gets snd in
  run! for_each (numeric_columns data0) remove_outliers in
  let! data := gets snd in
  let numerical_columns := numeric_columns data in
  if (0 <? length numerical_columns)%nat then
    let! '(scaler, scaled) := lift (scaler_fit_transform (numeric_values data)) in
    run! assign_scaled scaled in
    on_self (set_scaler "standard" scaler)
  else ret tt.

Definition preprocess_data (data : DataFrame) : M AnomalyDetectionModel DataFrame :=
  fun self =>
    let '(self', data') := exec (try_catch preprocess_body (fun _ => ret tt)) (self, data) in
    (Ok data', self').

(** *** Training *)

Definition isolation_forest_key (metric_name : string) : string :=
  "isolation_forest_" +:+ metric_name.
Definition dbscan_key (metric_name : string) : string :=
  "dbscan_" +:+ metric_name.
Definition z_score_key (metric_name column : string) : string :=
  metric_name +:+ "_" +:+ column +:+ "_z_score".
Definition iqr_key (metric_name column : string) : string :=
  metric_name +:+ "_" +:+ column +:+ "_iqr".

Definition train_isolation_forest (data : DataFrame) (metric_name : string)
    : M AnomalyDetectionModel unit :=
  try_catch
    (if (len data <? 10)%nat then ret tt
     else
       let X := numeric_values data in
       let! cfg := gets config in
       let! contamination := subscript (isolation_forest cfg) "contamination" in
       let! random_state := subscript (isolation_forest cfg) "random_state" in
       let! n_estimators := subscript (isolation_forest cfg) "n_estimators" in
       let! model :=
         lift (isolation_forest_fit
                 {[ "contamination" := contamination; "random_state" := random_state;
                    "n_estimators" := n_estimators ]} X) in
       modify (set_model (isolation_forest_key metric_name) model))
    (fun _ => ret tt).

Definition train_dbscan (data : DataFrame) (metric_name : string)
    : M AnomalyDetectionModel unit :=
  try_catch
    (if (len data <? 10)%nat then ret tt
     else
       let X := numeric_values data in
       let! cfg := gets config in
       let! eps := subscript (dbscan cfg) "eps" in
       let! min_samples := subscript (dbscan cfg) "min_samples" in
       let! model :=
         lift (dbscan_fit {[ "eps" := eps; "min_samples" := min_samples ]} X) in
       modify (set_model (dbscan_key metric_name) model))
    (fun _ => ret tt).

Definition _calculate_statistical_thresholds (data : DataFrame) (metric_name : string)
    : M AnomalyDetectionModel unit :=
  try_catch
    (for_each (numeric_columns data) (fun column =>
       let values := column_values column data in
       let! z := lift (stats_zscore values) in
       let z_scores := map fabs z in
       let! z_threshold := lift (np_percentile z_scores 95) in
       let! Q1 := lift (np_percentile values 25) in
       let! Q3 := lift (np_percentile values 75) in
       let IQR := fsub Q3 Q1 in
       let! cfg := gets config in
       let! multiplier := subscript (statistical cfg) "iqr_multiplier" in
       let iqr_threshold := fadd Q3 (fmul multiplier IQR) in
       run! modify (set_threshold (z_score_key metric_name column) z_threshold) in
       modify (set_threshold (iqr_key metric_name column) iqr_threshold)))
    (fun _ => ret tt).

Definition train_metric (entry : string * DataFrame) : M AnomalyDetectionModel unit :=
  let '(metric_name, data) := entry in
  if (0 <? len data)%nat then
    let! processed_data := preprocess_data (copy data) in
    run! train_isolation_forest processed_data metric_name in
    run! train_dbscan processed_data metric_name in
    _calculate_statistical_thresholds processed_data metric_name
  else ret tt.

(** [train_models]; [training_data] is the dictionary's items in iteration
    order and [now] is what [datetime.now()] answers. *)
Definition train_models (training_data : list (string * DataFrame)) (now : datetime)
    : M AnomalyDetectionModel unit :=
  try_catch
    (run! for_each training_data train_metric in
     run! modify (set_is_trained true) in
     modify (set_last_training (Some now)))
    (fun _ => modify (set_is_trained false)).

(** *** Detection *)

Record AnomalyDetails := mkDetails {
  d_column : string;
  d_value : float;
  d_z_score : option float;
  d_threshold : float
}.

Record Anomaly := mkAnomaly {
  a_index : nat;
  a_timestamp : option Cell;
  a_method : string;
  a_confidence : float;
  a_metric_values : list (string * Cell);
  a_details : option AnomalyDetails
}.

Record DetectionResult := mkResult {
  r_anomalies : list Anomaly;
  r_confidence : float;
  r_method : string;
  r_error : option string;
  r_total_detected : option nat;
  r_filtered_count : option nat
}.

(** [any(a['index'] == idx for a in anomalies)] *)
Definition already_detected (idx : nat) (anomalies : list Anomaly) : bool :=
  existsb (fun a => Nat.eqb (a_index a) idx) anomalies.

(** [_detect_statistical_anomalies]: the [try] block runs on the local list
    [anomalies], which the method returns whether or not the block raised. *)
Definition statistical_column (self : AnomalyDetectionModel) (data : DataFrame)
    (metric_name column : string) : M (list Anomaly) unit :=
  if String.eqb column "timestamp" then ret tt
  else
    let values := column_values column data in
    let! z := lift (stats_zscore values) in
    let z_scores := map fabs z in
    let z_threshold := default (Fin 3) (thresholds self !! z_score_key metric_name column) in
    let z_anomalies := np_where (fun z => fgt z z_threshold) z_scores in
    run! for_each z_anomalies (fun idx =>
      let! row := lift (iloc data idx) in
      let! z_idx := lift (item z_scores idx) in
      let! value := lift (item values idx) in
      modify (fun anomalies => anomalies ++ [
        {| a_index := idx;
           a_timestamp := row_get data row "timestamp";
           a_method := "z_score";
           a_confidence := py_min (Fin 0.9) (fdiv z_idx z_threshold);
           a_metric_values := to_dict data row;
           a_details := Some (mkDetails column value (Some z_idx) z_threshold) |} ])) in
    let! Q1 := lift (np_percentile values 25) in
    let! Q3 := lift (np_percentile values 75) in
    let IQR := fsub Q3 Q1 in
    let! multiplier := subscript (statistical (config self)) "iqr_multiplier" in
    let iqr_threshold := fadd Q3 (fmul multiplier IQR) in
    let iqr_anomalies := np_where (fun v => fgt v iqr_threshold) values in
    for_each iqr_anomalies (fun idx =>
      let! anomalies := get in
      if already_detected idx anomalies then ret tt
      else
        let! row := lift (iloc data idx) in
        let! value := lift (item values idx) in
        modify (fun anomalies => anomalies ++ [
          {| a_index := idx;
             a_timestamp := row_get data row "timestamp";
             a_method := "iqr";
             a_confidence := Fin 0.75;
             a_metric_values := to_dict data row;
             a_details := Some (mkDetails column value None iqr_threshold) |} ])).

Definition _detect_statistical_anomalies (self : AnomalyDetectionModel)
    (data : DataFrame) (metric_name : string) : list Anomaly :=
  exec (try_catch
          (for_each (numeric_columns data) (statistical_column self data metric_name))
          (fun _ => ret tt)) [].

(** The two model loops of [detect_anomalies] append to the local lists
    [anomalies] and [confidence_scores]; an exception leaves the [try] block
    of [detect_anomalies], so the lists are only needed on success. *)
Definition Found : Type := list Anomaly * list float.

Fixpoint report (data : DataFrame) (method : string) (confidence : float)
    (dedupe : bool) (indices : list nat) (found : Found) : outcome Found :=
  match indices with
  | [] => Ok found
  | idx :: rest =>
      if dedupe && already_detected idx (fst found) then
        report data method confidence dedupe rest found
      else
        match iloc data idx with
        | Raise e => Raise e
        | Ok row =>
            report data method confidence dedupe rest
              (fst found ++ [ {| a_index := idx;
                                 a_timestamp := row_get data row "timestamp";
                                 a_method := method;
                                 a_confidence := confidence;
                                 a_metric_values := to_dict data row;
                                 a_details := None |} ],
               snd found ++ [confidence])
        end
  end.

(** The loop over [statistical_anomalies] *)
Fixpoint merge_statistical (statistical_anomalies : list Anomaly) (found : Found) : Found :=
  match statistical_anomalies with
  | [] => found
  | anomaly :: rest =>
      if already_detected (a_index anomaly) (fst found) then merge_statistical rest found
      else merge_statistical rest (fst found ++ [anomaly], snd found ++ [a_confidence anomaly])
  end.

Definition not_trained_result : DetectionResult := {|
  r_anomalies := [];
  r_confidence := Fin 0;
  r_method := "none";
  r_error := Some "Models not trained";
  r_total_detected := None;
  r_filtered_count := None
|}.

Definition error_result (e : exn) : DetectionResult := {|
  r_anomalies := [];
  r_confidence := Fin 0;
  r_method := "error";
  r_error := Some (str_exn e);
  r_total_detected := None;
  r_filtered_count := None
|}.

Definition detect_isolation_forest (data : DataFrame) (X : matrix) (metric_name : string)
    (found : Found) : M AnomalyDetectionModel Found :=
  let! ms := gets models in
  match ms !! isolation_forest_key metric_name with
  | Some model =>
      let! predictions := lift (predict model X) in
      let anomaly_indices := np_where is_minus_one predictions in
      lift (report data "isolation_forest" (Fin 0.8) false anomaly_indices found)
  | None => ret found
  end.

(** [model.fit_predict(X)] refits the estimator object held in [self.models]:
    the dictionary entry is that same object, so it holds the refitted one. *)
Definition detect_dbscan (data : DataFrame) (X : matrix) (metric_name : string)
    (found : Found) : M AnomalyDetectionModel Found :=
  let! ms := gets models in
  match ms !! dbscan_key metric_name with
  | Some model =>
      let! '(model', labels) := lift (fit_predict model X) in
      run! modify (set_model (dbscan_key metric_name) model') in
      let noise_indices := np_where is_minus_one labels in
      lift (report data "dbscan" (Fin 0.7) true noise_indices found)
  | None => ret found
  end.

Definition detect_body (data : DataFrame) (metric_name : string)
    : M AnomalyDetectionModel DetectionResult :=
  let! processed_data := preprocess_data (copy data) in
  let X := numeric_values processed_data in
  let! found1 := detect_isolation_forest data X metric_name ([], []) in
  let! found2 := detect_dbscan data X metric_name found1 in
  let! self := get in
  let statistical_anomalies := _detect_statistical_anomalies self data metric_name in
  let '(anomalies, confidence_scores) := merge_statistical statistical_anomalies found2 in
  let overall_confidence :=
    match confidence_scores with [] => Fin 0 | _ => np_mean confidence_scores end in
  let filtered_anomalies :=
    filter (fun a => fge (a_confidence a) (confidence_threshold (config self)) = true)
           anomalies in
  ret {| r_anomalies := filtered_anomalies;
         r_confidence := overall_confidence;
         r_method := "ensemble";
         r_error := None;
         r_total_detected := Some (length anomalies);
         r_filtered_count := Some (length filtered_anomalies) |}.

Definition detect_anomalies (data : DataFrame) (metric_name : string)
    : M AnomalyDetectionModel DetectionResult :=
  let! trained := gets is_trained in
  if negb trained then ret not_trained_result
  else try_catch (detect_body data metric_name) (fun e => ret (error_result e)).

(** *** Status *)

Record ModelStatus := mkStatus {
  st_is_trained : bool;
  st_last_training : option string;
  st_models_count : nat;
  st_scalers_count : nat;
  st_thresholds_count : nat;
  st_config : Config
}.

Definition get_model_status (self : AnomalyDetectionModel) : ModelStatus := {|
  st_is_trained := is_trained self;
  st_last_training := isoformat <$> last_training self;
  st_models_count := size (models self);
  st_scalers_count := size (scalers self);
  st_thresholds_count := size (thresholds self);
  st_config := config self
|}.

End Model.
End AnomalyDetection.

(** ** More of pandas and Python, for the feature tables *)

Definition column_cells (column : string) (data : DataFrame) : list Cell :=
  match col_index column (df_schema data) with
  | Some j => map (fun r => nth j r CNone) (df_rows data)
  | None => []
  end.

(** [data[name] = values]: overwrite the column of that name or append one. *)
Definition set_column (name : string) (dtype : Dtype) (values : list Cell)
    (data : DataFrame) : DataFrame :=
  match col_index name (df_schema data) with
  | Some j =>
      mkDF (<[j := (name, dtype)]> (df_schema data))
           (zip_with (fun r v => <[j := v]> r) (df_rows data) values)
  | None =>
      mkDF (df_schema data ++ [(name, dtype)])
           (zip_with (fun r v => r ++ [v]) (df_rows data) values)
  end.

Definition set_numeric (name : string) (values : list float) (data : DataFrame) : DataFrame :=
  set_column name DNumber (map CNum values) data.

(** [series.shift(k)] *)
Definition shift (k : nat) (l : list float) : list float :=
  firstn (length l) (repeat NaN k ++ l).

Definition is_nan (x : float) : bool := match x with NaN => true | Fin _ => false end.

(** [series.rolling(window=w).agg()]: [NaN] until the window is full, and
    wherever the window holds a [NaN]. *)
Definition rolling (w : nat) (agg : list float -> float) (l : list float) : list float :=
  imap (fun i _ =>
          if (w <=? S i)%nat then
            let win := firstn w (skipn (S i - w) l) in
            if existsb is_nan win then NaN else agg win
          else NaN) l.

Definition list_min (l : list float) : float :=
  match l with [] => NaN | x :: rest => fold_left py_min rest x end.
Definition list_max (l : list float) : float :=
  match l with [] => NaN | x :: rest => fold_left py_max rest x end.

(** [data.sort_values('timestamp')], as a stable sort; [NaT] sorts last. *)
Definition time_le (a b : Cell) : bool :=
  match a, b with
  | CTime x, CTime y => (x <=? y)%Z
  | CTime _, _ => true
  | _, CTime _ => false
  | _, _ => true
  end.

Fixpoint insert_row (j : nat) (r : list Cell) (sorted : list (list Cell)) : list (list Cell) :=
  match sorted with
  | [] => [r]
  | r' :: rest =>
      if time_le (nth j r CNone) (nth j r' CNone) then r :: sorted
      else r' :: insert_row j r rest
  end.

Definition sort_values (column : string) (data : DataFrame) : DataFrame :=
  match col_index column (df_schema data) with
  | Some j => mkDF (df_schema data) (foldr (insert_row j) [] (df_rows data))
  | None => data
  end.

(** [data.dropna()] *)
Definition dropna (data : DataFrame) : DataFrame :=
  mkDF (df_schema data)
       (filter (fun r => forallb (fun c => negb (isna c)) r = true) (df_rows data)).

(** [data[names]] for a list of column names; the [KeyError] carries the
    first missing name, where the message of pandas lists all of them. *)
Fixpoint select_indices (names : list string) (schema : list (string * Dtype))
    : outcome (list (nat * (string * Dtype))) :=
  match names with
  | [] => Ok []
  | n :: rest =>
      match col_index n schema, select_indices rest schema with
      | Some j, Ok js => Ok ((j, (n, default DObject (snd <$> schema !! j))) :: js)
      | None, _ => Raise (KeyError n)
      | _, Raise e => Raise e
      end
  end.

Definition select (names : list string) (data : DataFrame) : outcome DataFrame :=
  match select_indices names (df_schema data) with
  | Ok js =>
      Ok (mkDF (map snd js)
               (map (fun r => map (fun j => nth (fst j) r CNone) js) (df_rows data)))
  | Raise e => Raise e
  end.

(** The float array scikit-learn makes of a frame; text does not convert. *)
Definition cell_to_float (c : Cell) : outcome float :=
  match c with
  | CNum x => Ok x
  | CNone => Ok NaN
  | CStr _ => Raise (ValueError "could not convert string to float")
  | CTime _ => Raise (TypeError "invalid type promotion")
  end.

Fixpoint traverse {A B} (f : A -> outcome B) (l : list A) : outcome (list B) :=
  match l with
  | [] => Ok []
  | x :: rest =>
      match f x, traverse f rest with
      | Ok y, Ok ys => Ok (y :: ys)
      | Raise e, _ => Raise e
      | _, Raise e => Raise e
      end
  end.

Definition frame_matrix (data : DataFrame) : outcome matrix :=
  traverse (traverse cell_to_float) (df_rows data).

(** [s.split('_')[0]] *)
Fixpoint split_head (s : string) : string :=
  match s with
  | EmptyString => EmptyString
  | String c rest => if Ascii.eqb c "_"%char then EmptyString else String c (split_head rest)
  end.

(** [values[:stop]] *)
Definition slice_to {A} (stop : Z) (values : list A) : list A :=
  if (0 <=? stop)%Z then firstn (Z.to_nat stop) values
  else firstn (length values - Z.to_nat (- stop)) values.

(** [sklearn.model_selection.train_test_split(X, y, test_size, random_state)]
    with a fractional [test_size]: [ShuffleSplit] draws one permutation of
    the row positions, the first [ceil(test_size * n)] of them are the test
    rows and the others the training rows. *)
Definition take_rows {A} (rows : list A) (indices : list nat) : outcome (list A) :=
  traverse (item rows) indices.

Section Split.
Context {L : Library}.

(** The sizes: [n_test = ceil(test_size * n_samples)], the product being a
    product of floats, and [n_train = n_samples - n_test]. *)
Definition split_sizes (test_size : float) (n : nat) : outcome (nat * nat) :=
  match test_size with
  | Fin q =>
      if Qltb 0 q && Qltb q 1 then
        match float_mul test_size (of_nat n) with
        | Fin product =>
            let n_test := Z.to_nat (Qceiling product) in
            let n_train := (n - n_test)%nat in
            if (n =? 0)%nat || (n_train =? 0)%nat then
              Raise (ValueError "the resulting train set will be empty")
            else Ok (n_train, n_test)
        | NaN => Raise (ValueError "cannot convert float NaN to integer")
        end
      else Raise (ValueError "test_size should be in the (0, 1) range")
  | NaN => Raise (ValueError "test_size should be in the (0, 1) range")
  end.

Definition split_indices (n : nat) (test_size : float) (random_state : Z)
    : outcome (list nat * list nat) :=
  match split_sizes test_size n with
  | Ok (n_train, n_test) =>
      let permutation := rng_permutation random_state n in
      let ind_test := firstn n_test permutation in
      let ind_train := firstn n_train (skipn n_test permutation) in
      Ok (ind_train, ind_test)
  | Raise e => Raise e
  end.

Definition train_test_split (X y : DataFrame) (test_size : float) (random_state : Z)
    : outcome (DataFrame * DataFrame * DataFrame * DataFrame) :=
  if negb (len X =? len y)%nat then
    Raise (ValueError "Found input variables with inconsistent numbers of samples")
  else
    match split_indices (len X) test_size random_state with
    | Raise e => Raise e
    | Ok (ind_train, ind_test) =>
        match take_rows (df_rows X) ind_train, take_rows (df_rows X) ind_test,
              take_rows (df_rows y) ind_train, take_rows (df_rows y) ind_test with
        | Ok X_train, Ok X_test, Ok y_train, Ok y_test =>
            Ok (mkDF (df_schema X) X_train, mkDF (df_schema X) X_test,
                mkDF (df_schema y) y_train, mkDF (df_schema y) y_test)
        | Raise e, _, _, _ | _, Raise e, _, _ | _, _, Raise e, _ | _, _, _, Raise e =>
            Raise e
        end
    end.

End Split.

(** A monadic left fold, the accumulating [for] loop. *)
Fixpoint fold_m {S A B} (f : B -> A -> M S B) (l : list A) (acc : B) : M S B :=
  match l with
  | [] => ret acc
  | x :: rest => let! acc' := f acc x in fold_m f rest acc'
  end.

Definition has_column (name : string) (data : DataFrame) : bool :=
  existsb (String.eqb name) (columns data).

(** [enumerate(values)] *)
Definition enumerate {A} (values : list A) : list (nat * A) := imap pair values.

(** ** The predictive scaler, [predictive_scaling.py] *)

Module PredictiveScaling.
Section Model.
Context {L : Library}.

Record Config := mkConfig {
  prediction_horizon : Z;
  feature_window : Z;
  min_training_samples : float;
  test_size : float;
  random_state : Z;
  model_params : gmap string (gmap string float);
  scaling_thresholds : gmap string float
}.

Record UserConfig := mkUserConfig {
  u_prediction_horizon : option Z;
  u_feature_window : option Z;
  u_min_training_samples : option float;
  u_test_size : option float;
  u_random_state : option Z;
  u_model_params : option (gmap string (gmap string float));
  u_scaling_thresholds : option (gmap string float)
}.

Definition no_config : UserConfig := mkUserConfig None None None None None None None.

Definition default_config : Config := {|
  prediction_horizon := 24;
  feature_window := 168;
  min_training_samples := Fin 100;
  test_size := Fin 0.2;
  random_state := 42;
  model_params :=
    {[ "random_forest" :=
         {[ "n_estimators" := Fin 100; "max_depth" := Fin 10; "random_state" := Fin 42 ]};
       "gradient_boosting" :=
         {[ "n_estimators" := Fin 100; "max_depth" := Fin 6;
            "learning_rate" := Fin 0.1; "random_state" := Fin 42 ]};
       "linear_regression" := {[ "fit_intercept" := Fin 1 ]} ]};
  scaling_thresholds :=
    {[ "cpu_high" := Fin 80; "cpu_low" := Fin 20;
       "memory_high" := Fin 85; "memory_low" := Fin 25;
       "response_time_high" := Fin 1000; "response_time_low" := Fin 100;
       "throughput_low" := Fin 100 ]}
|}.

Definition merge_config (d : Config) (u : UserConfig) : Config := {|
  prediction_horizon := default (prediction_horizon d) (u_prediction_horizon u);
  feature_window := default (feature_window d) (u_feature_window u);
  min_training_samples := default (min_training_samples d) (u_min_training_samples u);
  test_size := default (test_size d) (u_test_size u);
  random_state := default (random_state d) (u_random_state u);
  model_params := default (model_params d) (u_model_params u);
  scaling_thresholds := default (scaling_thresholds d) (u_scaling_thresholds u)
|}.

Record Metrics := mkMetrics { mse : float; mae : float; r2 : float; rmse : float }.

Record PredictiveScalingModel := mkModel {
  config : Config;
  models : gmap string Estimator;
  scalers : gmap string Scaler;
  feature_importance : gmap string (list (string * list (string * float)));
  is_trained : bool;
  last_training : option datetime;
  performance_metrics : gmap string (list (string * Metrics))
}.

Definition init (u : UserConfig) : PredictiveScalingModel := {|
  config := merge_config default_config u;
  models := ∅;
  scalers := ∅;
  feature_importance := ∅;
  is_trained := false;
  last_training := None;
  performance_metrics := ∅
|}.

Definition set_model (k : string) (m : Estimator) (self : PredictiveScalingModel) :=
  mkModel (config self) (<[k := m]> (models self)) (scalers self)
          (feature_importance self) (is_trained self) (last_training self)
          (performance_metrics self).
Definition set_scaler (k : string) (sc : Scaler) (self : PredictiveScalingModel) :=
  mkModel (config self) (models self) (<[k := sc]> (scalers self))
          (feature_importance self) (is_trained self) (last_training self)
          (performance_metrics self).
Definition set_feature_importance (k : string) (v : list (string * list (string * float)))
    (self : PredictiveScalingModel) :=
  mkModel (config self) (models self) (scalers self)
          (<[k := v]> (feature_importance self)) (is_trained self) (last_training self)
          (performance_metrics self).
Definition set_is_trained (b : bool) (self : PredictiveScalingModel) :=
  mkModel (config self) (models self) (scalers self)
          (feature_importance self) b (last_training self)
          (performance_metrics self).
Definition set_last_training (t : option datetime) (self : PredictiveScalingModel) :=
  mkModel (config self) (models self) (scalers self)
          (feature_importance self) (is_trained self) t
          (performance_metrics self).
Definition set_performance (k : string) (v : list (string * Metrics))
    (self : PredictiveScalingModel) :=
  mkModel (config self) (models self) (scalers self)
          (feature_importance self) (is_trained self) (last_training self)
          (<[k := v]> (performance_metrics self)).

(** *** [prepare_features] *)

Definition lag_features : list string :=
  ["cpu_usage"; "memory_usage"; "response_time"; "throughput"].

Definition time_field (f : datetime -> Z) (c : Cell) : float :=
  match c with CTime t => of_Z (f t) | _ => NaN end.

Definition flag (b : bool) : float := if b then Fin 1 else Fin 0.

Definition add_time_features (data : DataFrame) : DataFrame :=
  let ts := column_cells "timestamp" data in
  let data := set_numeric "hour" (map (time_field dt_hour) ts) data in
  let data := set_numeric "day_of_week" (map (time_field dt_dayofweek) ts) data in
  let data := set_numeric "day_of_month" (map (time_field dt_day) ts) data in
  let data := set_numeric "month" (map (time_field dt_month) ts) data in
  let data :=
    set_numeric "is_weekend"
      (map (fun c => let d := time_field dt_dayofweek c in
                     flag (feqb d (Fin 5) || feqb d (Fin 6)))
           ts) data in
  set_numeric "is_business_hour"
    (map (fun c => let h := time_field dt_hour c in flag (fge h (Fin 9) && fle h (Fin 17)))
         ts) data.

Definition add_lags (data : DataFrame) (feature : string) : DataFrame :=
  if has_column feature data then
    foldl (fun d lag =>
             set_numeric (feature +:+ "_lag_" +:+ snd lag +:+ "h")
                         (shift (fst lag) (column_values feature d)) d)
          data
          [(1, "1"); (2, "2"); (3, "3"); (6, "6"); (12, "12"); (24, "24")]%nat
  else data.

(** [rolling(...).std()], the sample standard deviation *)
Definition sample_std (win : list float) : float :=
  let mean := np_mean win in
  np_sqrt (fdiv (fsum (map (fun x => fmul (fsub x mean) (fsub x mean)) win))
                (of_nat (length win - 1))).

Definition add_rolling (data : DataFrame) (feature : string) : DataFrame :=
  if has_column feature data then
    let data := set_numeric (feature +:+ "_rolling_1h_mean")
                  (rolling 4 np_mean (column_values feature data)) data in
    let data := set_numeric (feature +:+ "_rolling_6h_mean")
                  (rolling 24 np_mean (column_values feature data)) data in
    let data := set_numeric (feature +:+ "_rolling_24h_mean")
                  (rolling 96 np_mean (column_values feature data)) data in
    let data := set_numeric (feature +:+ "_rolling_6h_std")
                  (rolling 24 sample_std (column_values feature data)) data in
    let data := set_numeric (feature +:+ "_rolling_24h_std")
                  (rolling 96 sample_std (column_values feature data)) data in
    let data := set_numeric (feature +:+ "_rolling_6h_min")
                  (rolling 24 list_min (column_values feature data)) data in
    set_numeric (feature +:+ "_rolling_6h_max")
      (rolling 24 list_max (column_values feature data)) data
  else data.

Definition add_trends (data : DataFrame) (feature : string) : DataFrame :=
  if has_column feature data then
    let data := set_numeric (feature +:+ "_trend_6h")
                  (zip_with fsub (column_values feature data)
                                 (shift 24 (column_values feature data))) data in
    set_numeric (feature +:+ "_trend_24h")
      (zip_with fsub (column_values feature data)
                     (shift 96 (column_values feature data))) data
  else data.

Definition add_cyclical (data : DataFrame) : DataFrame :=
  let data := set_numeric "hour_sin"
                (map (fun x => cyc_sin x 24) (column_values "hour" data)) data in
  let data := set_numeric "hour_cos"
                (map (fun x => cyc_cos x 24) (column_values "hour" data)) data in
  let data := set_numeric "day_sin"
                (map (fun x => cyc_sin x 7) (column_values "day_of_week" data)) data in
  let data := set_numeric "day_cos"
                (map (fun x => cyc_cos x 7) (column_values "day_of_week" data)) data in
  let data := set_numeric "month_sin"
                (map (fun x => cyc_sin x 12) (column_values "month" data)) data in
  set_numeric "month_cos"
    (map (fun x => cyc_cos x 12) (column_values "month" data)) data.

(** Lines 70-124: the frame after [dropna], before it is cut into [X] and [y]. *)
Definition engineer_features (data : DataFrame) : outcome DataFrame :=
  if negb (has_column "timestamp" data) then
    Raise (ValueError "Data must contain 'timestamp' column")
  else
    match traverse to_datetime (column_cells "timestamp" data) with
    | Raise e => Raise e
    | Ok ts =>
        let data := set_column "timestamp" DDatetime ts data in
        let data := sort_values "timestamp" data in
        let data := add_time_features data in
        let data := foldl add_lags data lag_features in
        let data := foldl add_rolling data lag_features in
        let data := foldl add_trends data lag_features in
        let data := add_cyclical data in
        Ok (dropna data)
    end.

Definition feature_columns (data : DataFrame) : list string :=
  filter (fun col => existsb (String.eqb col) ("timestamp" :: lag_features) = false)
         (columns data).

(** [prepare_features]; its handler logs and raises again. *)
Definition prepare_features (data : DataFrame) : outcome (DataFrame * DataFrame) :=
  match engineer_features data with
  | Raise e => Raise e
  | Ok data =>
      match select (feature_columns data) data, select lag_features data with
      | Ok X, Ok y => Ok (X, y)
      | Raise e, _ | _, Raise e => Raise e
      end
  end.

(** *** Training *)

(** [_evaluate_models]: clears the target's metrics, then scores the three
    models in turn; an exception ends the scoring. *)
Definition evaluate_one (target : string) (X_test : matrix) (y_test : list float)
    (entry : string * Estimator) : M PredictiveScalingModel unit :=
  let '(name, model) := entry in
  let! y_pred := lift (predict model X_test) in
  let! mse := lift (mean_squared_error y_test y_pred) in
  let! mae := lift (mean_absolute_error y_test y_pred) in
  let! r2 := lift (r2_score y_test y_pred) in
  let! pm := gets performance_metrics in
  let! of_target := subscript pm target in
  modify (set_performance target
            (of_target ++ [(name, mkMetrics mse mae r2 (np_sqrt mse))])).

Definition _evaluate_models (target : string) (X_test : matrix) (y_test : list float)
    (rf_model gb_model lr_model : Estimator) : M PredictiveScalingModel unit :=
  try_catch
    (run! modify (set_performance target []) in
     for_each [("random_forest", rf_model); ("gradient_boosting", gb_model);
               ("linear_regression", lr_model)]
              (evaluate_one target X_test y_test))
    (fun _ => ret tt).

Definition train_target (X_columns : list string) (X_train_scaled X_test_scaled : matrix)
    (y_train y_test : DataFrame) (target : string) : M PredictiveScalingModel unit :=
  let y_train_target := column_values target y_train in
  let y_test_target := column_values target y_test in
  let! '(X_train_valid, y_train_valid, X_test_valid, y_test_valid) :=
    lift (select_valid X_train_scaled y_train_target X_test_scaled y_test_target) in
  if (length X_train_valid =? 0)%nat then ret tt
  else
    let! cfg := gets config in
    let! rf_params := subscript (model_params cfg) "random_forest" in
    let! rf_model :=
      lift (regressor_fit "random_forest" rf_params X_train_valid y_train_valid) in
    run! modify (set_model ("random_forest_" +:+ target) rf_model) in
    let! gb_params := subscript (model_params cfg) "gradient_boosting" in
    let! gb_model :=
      lift (regressor_fit "gradient_boosting" gb_params X_train_valid y_train_valid) in
    run! modify (set_model ("gradient_boosting_" +:+ target) gb_model) in
    let! lr_params := subscript (model_params cfg) "linear_regression" in
    let! lr_model :=
      lift (regressor_fit "linear_regression" lr_params X_train_valid y_train_valid) in
    run! modify (set_model ("linear_regression_" +:+ target) lr_model) in
    run! _evaluate_models target X_test_valid y_test_valid rf_model gb_model lr_model in
    modify (set_feature_importance target
              [("random_forest", feature_importances rf_model X_columns);
               ("gradient_boosting", feature_importances gb_model X_columns)]).

(** Lines 146-156: the size check, the features and the split. *)
Definition training_split (cfg : Config) (training_data : DataFrame)
    : outcome (DataFrame * DataFrame * DataFrame * DataFrame * list string * list string) :=
  if flt (of_nat (len training_data)) (min_training_samples cfg) then
    Raise (ValueError "Insufficient training data")
  else
    match prepare_features training_data with
    | Raise e => Raise e
    | Ok (X, y) =>
        match train_test_split X y (test_size cfg) (random_state cfg) with
        | Raise e => Raise e
        | Ok (X_train, X_test, y_train, y_test) =>
            Ok (X_train, X_test, y_train, y_test, columns X, columns y)
        end
    end.

(** Lines 158-161: one scaler, fitted on the training rows. *)
Definition fit_feature_scaler (X_train X_test : DataFrame)
    : outcome (Scaler * matrix * matrix) :=
  match frame_matrix X_train with
  | Raise e => Raise e
  | Ok train =>
      match scaler_fit_transform train with
      | Raise e => Raise e
      | Ok (scaler, X_train_scaled) =>
          match frame_matrix X_test with
          | Raise e => Raise e
          | Ok test =>
              match scaler_transform scaler test with
              | Raise e => Raise e
              | Ok X_test_scaled => Ok (scaler, X_train_scaled, X_test_scaled)
              end
          end
      end
  end.

(** [train_models]; the handler clears the flag and raises again. *)
Definition train_models (training_data : DataFrame) (now : datetime)
    : M PredictiveScalingModel unit :=
  try_catch
    (let! cfg := gets config in
     let! '(X_train, X_test, y_train, y_test, X_columns, y_columns) :=
       lift (training_split cfg training_data) in
     let! '(scaler, X_train_scaled, X_test_scaled) :=
       lift (fit_feature_scaler X_train X_test) in
     run! modify (set_scaler "feature_scaler" scaler) in
     run! for_each y_columns
            (train_target X_columns X_train_scaled X_test_scaled y_train y_test) in
     run! modify (set_is_trained true) in
     modify (set_last_training (Some now)))
    (fun e => run! modify (set_is_trained false) in raise e).

(** *** Recommendations *)

Record Recommendation := mkRecommendation {
  rec_target : string;
  rec_hour : nat;
  rec_predicted_value : float;
  rec_threshold : option float;
  rec_action : option string;
  rec_priority : string;
  rec_reasoning : list string
}.

Definition decide_action (action priority : string) (threshold : float) (reason : string)
    (r : Recommendation) : Recommendation :=
  mkRecommendation (rec_target r) (rec_hour r) (rec_predicted_value r)
                   (Some threshold) (Some action) priority (rec_reasoning r ++ [reason]).

(** One turn of the loop of [_generate_scaling_recommendations], on the local
    list [recommendations]. *)
Definition recommend (self : PredictiveScalingModel) (target : string)
    (entry : nat * float) : M (list Recommendation) unit :=
  let '(i, pred_value) := entry in
  let thresholds := scaling_thresholds (config self) in
  let hour := S i in
  let recommendation := mkRecommendation target hour pred_value None None "low" [] in
  let! recommendation :=
    if String.eqb target "cpu_usage" then
      let! high := subscript thresholds "cpu_high" in
      if fgt pred_value high then
        ret (decide_action "scale_up" "high" high
               ("CPU usage predicted to exceed " +:+ float_str high +:+ "%") recommendation)
      else
        let! low := subscript thresholds "cpu_low" in
        if flt pred_value low then
          ret (decide_action "scale_down" "medium" low
                 ("CPU usage predicted to be below " +:+ float_str low +:+ "%")
                 recommendation)
        else ret recommendation
    else if String.eqb target "memory_usage" then
      let! high := subscript thresholds "memory_high" in
      if fgt pred_value high then
        ret (decide_action "scale_up" "high" high
               ("Memory usage predicted to exceed " +:+ float_str high +:+ "%")
               recommendation)
      else
        let! low := subscript thresholds "memory_low" in
        if flt pred_value low then
          ret (decide_action "scale_down" "medium" low
                 ("Memory usage predicted to be below " +:+ float_str low +:+ "%")
                 recommendation)
        else ret recommendation
    else if String.eqb target "response_time" then
      let! high := subscript thresholds "response_time_high" in
      if fgt pred_value high then
        ret (decide_action "scale_up" "high" high
               ("Response time predicted to exceed " +:+ float_str high +:+ "ms")
               recommendation)
      else
        let! low := subscript thresholds "response_time_low" in
        if flt pred_value low then
          ret (decide_action "scale_down" "low" low
                 ("Response time predicted to be below " +:+ float_str low +:+ "ms")
                 recommendation)
        else ret recommendation
    else if String.eqb target "throughput" then
      let! low := subscript thresholds "throughput_low" in
      if flt pred_value low then
        ret (decide_action "scale_up" "medium" low
               ("Throughput predicted to be below " +:+ float_str low +:+ " req/sec")
               recommendation)
      else ret recommendation
    else ret recommendation in
  match rec_action recommendation with
  | Some _ => modify (fun recommendations => recommendations ++ [recommendation])
  | None => ret tt
  end.

Definition _generate_scaling_recommendations (self : PredictiveScalingModel)
    (target : string) (predictions : list float) (horizon : Z) : list Recommendation :=
  exec (try_catch
          (for_each (enumerate (slice_to horizon predictions)) (recommend self target))
          (fun _ => ret tt)) [].

(** *** Prediction *)

Record Prediction := mkPrediction {
  p_predictions : list (string * list float);
  p_scaling_recommendations : list Recommendation;
  p_confidence : float;
  p_prediction_horizon : option Z;
  p_timestamp : option string;
  p_error : option string
}.

Definition not_trained_result : Prediction :=
  mkPrediction [] [] (Fin 0) None None (Some "Models not trained").

Definition error_result (e : exn) : Prediction :=
  mkPrediction [] [] (Fin 0) None None (Some (str_exn e)).

(** [np.mean(target_predictions, axis=0)] over arrays of one length *)
Definition ensemble_mean (target_predictions : list (list float)) : outcome (list float) :=
  match target_predictions with
  | [] => Ok []
  | first :: _ =>
      if forallb (fun p => Nat.eqb (length p) (length first)) target_predictions then
        Ok (imap (fun i _ => np_mean (map (fun p => nth i p NaN) target_predictions)) first)
      else Raise (ValueError "inhomogeneous shape")
  end.

(** Lines 276-282: the features of the window, through the stored scaler. *)
Definition inference_features (current_data : DataFrame)
    : M PredictiveScalingModel matrix :=
  let! '(X_pred, _) := lift (prepare_features current_data) in
  let! X := lift (frame_matrix X_pred) in
  let! scs := gets scalers in
  match scs !! "feature_scaler" with
  | Some scaler => lift (scaler_transform scaler X)
  | None => ret X
  end.

Definition model_predictions (X_pred_scaled : matrix) (target : string)
    : M PredictiveScalingModel (list (list float)) :=
  fold_m (fun target_predictions model_name =>
            let! ms := gets models in
            match ms !! (model_name +:+ "_" +:+ target) with
            | Some model =>
                let! pred := lift (predict model X_pred_scaled) in
                ret (target_predictions ++ [pred])
            | None => ret target_predictions
            end)
         ["random_forest"; "gradient_boosting"; "linear_regression"] [].

Definition predict_target (current_data : DataFrame) (X_pred_scaled : matrix)
    (prediction_horizon : Z)
    (acc : list (string * list float) * list Recommendation) (target : string)
    : M PredictiveScalingModel (list (string * list float) * list Recommendation) :=
  if negb (existsb (String.eqb target) (map split_head (columns current_data))) then ret acc
  else
    let! target_predictions := model_predictions X_pred_scaled target in
    match target_predictions with
    | [] => ret acc
    | _ =>
        let! ensemble_pred := lift (ensemble_mean target_predictions) in
        let! self := get in
        let recommendations :=
          _generate_scaling_recommendations self target ensemble_pred prediction_horizon in
        ret (fst acc ++ [(target, ensemble_pred)], snd acc ++ recommendations)
    end.

(** [_calculate_prediction_confidence], on the local list [confidence_scores];
    any exception makes the answer 0.0. *)
Definition best_r2 (metrics : list (string * Metrics)) : outcome float :=
  match map (fun m => r2 (snd m)) metrics with
  | [] => Raise (ValueError "max() arg is an empty sequence")
  | x :: rest => Ok (fold_left py_max rest x)
  end.

Definition confidence_of (self : PredictiveScalingModel)
    (scores : list float) (entry : string * list float) : outcome (list float) :=
  let '(target, pred_values) := entry in
  match (match performance_metrics self !! target with
         | Some metrics =>
             match best_r2 metrics with
             | Ok b => Ok (scores ++ [b])
             | Raise e => Raise e
             end
         | None => Ok scores
         end) with
  | Raise e => Raise e
  | Ok scores =>
      if (1 <? length pred_values)%nat then
        match np_var pred_values with
        | Raise e => Raise e
        | Ok variance =>
            let consistency_score :=
              py_max (Fin 0) (fsub (Fin 1) (fdiv variance (Fin 100))) in
            Ok (scores ++ [consistency_score])
        end
      else Ok scores
  end.

Fixpoint confidence_scores (self : PredictiveScalingModel)
    (predictions : list (string * list float)) (scores : list float) : outcome (list float) :=
  match predictions with
  | [] => Ok scores
  | entry :: rest =>
      match confidence_of self scores entry with
      | Ok scores' => confidence_scores self rest scores'
      | Raise e => Raise e
      end
  end.

Definition _calculate_prediction_confidence (self : PredictiveScalingModel)
    (predictions : list (string * list float)) : float :=
  match predictions with
  | [] => Fin 0
  | _ =>
      match confidence_scores self predictions [] with
      | Ok [] => Fin 0
      | Ok scores => np_mean scores
      | Raise _ => Fin 0
      end
  end.

(** [self.config['prediction_horizon']] *)
Definition configured_horizon (self : PredictiveScalingModel) : Z :=
  prediction_horizon (config self).

Definition predict_body (current_data : DataFrame) (prediction_horizon : option Z)
    (now : datetime) : M PredictiveScalingModel Prediction :=
  let! configured := gets configured_horizon in
  let horizon := default configured prediction_horizon in
  let! X_pred_scaled := inference_features current_data in
  let! '(predictions, scaling_recommendations) :=
    fold_m (predict_target current_data X_pred_scaled horizon)
           ["cpu_usage"; "memory_usage"; "response_time"; "throughput"] ([], []) in
  let! self := get in
  let confidence := _calculate_prediction_confidence self predictions in
  ret (mkPrediction predictions scaling_recommendations confidence
                    (Some horizon) (Some (isoformat now)) None).

Definition predict_scaling_needs (current_data : DataFrame) (prediction_horizon : option Z)
    (now : datetime) : M PredictiveScalingModel Prediction :=
  let! trained := gets is_trained in
  if negb trained then ret not_trained_result
  else try_catch (predict_body current_data prediction_horizon now)
                 (fun e => ret (error_result e)).

(** *** Status *)

Record ModelStatus := mkStatus {
  st_is_trained : bool;
  st_last_training : option string;
  st_models_count : nat;
  st_scalers_count : nat;
  st_performance_metrics : gmap string (list (string * Metrics));
  st_feature_importance : gmap string (list (string * list (string * float)));
  st_config : Config
}.

Definition get_model_status (self : PredictiveScalingModel) : ModelStatus := {|
  st_is_trained := is_trained self;
  st_last_training := isoformat <$> last_training self;
  st_models_count := size (models self);
  st_scalers_count := size (scalers self);
  st_performance_metrics := performance_metrics self;
  st_feature_importance := feature_importance self;
  st_config := config self
|}.

End Model.
End PredictiveScaling.

(** [sorted(items, key=key, reverse=True)] for keys that are numbers:
    descending and stable, an item moves behind another only when its key is
    strictly smaller.  Where a key is [NaN] the order that Python leaves
    depends on the runs its sort merges; the facts on rankings below are
    stated for keys that are numbers. *)
Fixpoint insert_desc {A} (key : A -> float) (x : A) (sorted : list A) : list A :=
  match sorted with
  | [] => [x]
  | y :: rest => if flt (key x) (key y) then y :: insert_desc key x rest else x :: sorted
  end.

Definition sorted_desc {A} (key : A -> float) (items : list A) : list A :=
  foldr (insert_desc key) [] items.

(** [len(np.unique(values))] *)
Fixpoint unique_values (values : list float) : list float :=
  match values with
  | [] => []
  | x :: rest =>
      if existsb (feqb x) rest then unique_values rest else x :: unique_values rest
  end.

(** ** The root-cause analyzer, [root_cause_analysis.py] *)

Module RootCauseAnalysis.
Section Model.
Context {L : Library}.

Record Config := mkConfig {
  correlation_threshold : float;
  min_cluster_size : float;
  max_clusters : float;
  anomaly_contamination : float;
  feature_importance_threshold : float;
  temporal_window : float;
  confidence_threshold : float;
  max_root_causes : Z;
  analysis_depth : Z
}.

Record UserConfig := mkUserConfig {
  u_correlation_threshold : option float;
  u_min_cluster_size : option float;
  u_max_clusters : option float;
  u_anomaly_contamination : option float;
  u_feature_importance_threshold : option float;
  u_temporal_window : option float;
  u_confidence_threshold : option float;
  u_max_root_causes : option Z;
  u_analysis_depth : option Z
}.

Definition no_config : UserConfig :=
  mkUserConfig None None None None None None None None None.

Definition default_config : Config := {|
  correlation_threshold := Fin 0.7;
  min_cluster_size := Fin 3;
  max_clusters := Fin 10;
  anomaly_contamination := Fin 0.1;
  feature_importance_threshold := Fin 0.05;
  temporal_window := Fin 24;
  confidence_threshold := Fin 0.6;
  max_root_causes := 5;
  analysis_depth := 3
|}.

Definition merge_config (d : Config) (u : UserConfig) : Config := {|
  correlation_threshold := default (correlation_threshold d) (u_correlation_threshold u);
  min_cluster_size := default (min_cluster_size d) (u_min_cluster_size u);
  max_clusters := default (max_clusters d) (u_max_clusters u);
  anomaly_contamination := default (anomaly_contamination d) (u_anomaly_contamination u);
  feature_importance_threshold :=
    default (feature_importance_threshold d) (u_feature_importance_threshold u);
  temporal_window := default (temporal_window d) (u_temporal_window u);
  confidence_threshold := default (confidence_threshold d) (u_confidence_threshold u);
  max_root_causes := default (max_root_causes d) (u_max_root_causes u);
  analysis_depth := default (analysis_depth d) (u_analysis_depth u)
|}.

(** A hypothesis dictionary; [weighted_score] is absent until the ranking
    writes it. *)
Record RootCauseHypothesis := mkHypothesis {
  h_type : string;
  h_metric : string;
  h_confidence : float;
  h_evidence : string;
  h_severity : string;
  h_weighted_score : option float
}.

(** The [incident_metrics] argument; only [affected_metrics] is read. *)
Record IncidentMetrics := mkIncident {
  affected_metrics : option (list string);
  other_fields : list (string * string)
}.

Record AnalysisRecord := mkRecord {
  rec_timestamp : string;
  rec_incident_metrics : IncidentMetrics;
  rec_root_causes : list RootCauseHypothesis;
  rec_analysis_path : list string
}.

Record RootCauseAnalysisModel := mkModel {
  config : Config;
  models : gmap string Estimator;
  scalers : gmap string Scaler;
  encoders : gmap string Encoder;
  correlation_graph : option Graph;
  is_trained : bool;
  last_training : option datetime;
  analysis_history : list AnalysisRecord
}.

Definition init (u : UserConfig) : RootCauseAnalysisModel := {|
  config := merge_config default_config u;
  models := ∅;
  scalers := ∅;
  encoders := ∅;
  correlation_graph := None;
  is_trained := false;
  last_training := None;
  analysis_history := []
|}.

Definition set_model (k : string) (m : Estimator) (self : RootCauseAnalysisModel) :=
  mkModel (config self) (<[k := m]> (models self)) (scalers self) (encoders self)
          (correlation_graph self) (is_trained self) (last_training self)
          (analysis_history self).
Definition set_encoder (k : string) (e : Encoder) (self : RootCauseAnalysisModel) :=
  mkModel (config self) (models self) (scalers self) (<[k := e]> (encoders self))
          (correlation_graph self) (is_trained self) (last_training self)
          (analysis_history self).
Definition set_is_trained (b : bool) (self : RootCauseAnalysisModel) :=
  mkModel (config self) (models self) (scalers self) (encoders self)
          (correlation_graph self) b (last_training self)
          (analysis_history self).
Definition append_history (r : AnalysisRecord) (self : RootCauseAnalysisModel) :=
  mkModel (config self) (models self) (scalers self) (encoders self)
          (correlation_graph self) (is_trained self) (last_training self)
          (analysis_history self ++ [r]).

(** *** The results of the three analysis levels *)

Record Trend := mkTrend { slope : float; r_squared : float; p_value : float }.

Record ColumnStats := mkStats {
  cs_mean : float; cs_std : float; cs_min : float; cs_max : float;
  cs_median : float; cs_iqr : float;
  outliers_count : option nat;
  outlier_indices : option (list nat);
  trend : option Trend
}.

Record KMeansClusters := mkKMeans {
  km_labels : list float; km_n_clusters : nat; silhouette : float
}.
Record DbscanClusters := mkDbscan {
  db_labels : list float; db_n_clusters : nat; noise_points : nat
}.
Record AnomalyDetection := mkAnomalies {
  scores : list float; predictions : list float; anomaly_count : nat
}.

Record Level2 := mkLevel2 {
  kmeans_clusters : option KMeansClusters;
  dbscan_clusters : option DbscanClusters;
  anomaly_detection : option AnomalyDetection
}.

Record GraphAnalysis := mkGraphAnalysis {
  nodes_count : nat; edges_count : nat; density : float; average_clustering : float
}.
Record CentralMetrics := mkCentral {
  by_degree : list (string * float);
  by_betweenness : list (string * float)
}.

Record Level3 := mkLevel3 {
  graph_analysis : option GraphAnalysis;
  central_metrics : option CentralMetrics;
  communities : option (nat * list nat);
  path_analysis : option (list (string * list (string * (list string * nat))))
}.

Record AnalysisResults := mkResults {
  level_1 : list (string * ColumnStats);
  level_2 : Level2;
  level_3 : Level3;
  analysis_path : list string
}.

(** *** [_generate_root_cause_hypotheses]

    Every subscript of the [try] block reads a key that the level which wrote
    the dictionary always writes, so the block cannot raise on the results of
    [_perform_multi_level_analysis]; it is the concatenation of the three
    parts. *)

Definition statistical_hypotheses (entry : string * ColumnStats) : list RootCauseHypothesis :=
  let '(metric, stats) := entry in
  (if (0 <? default 0 (outliers_count stats))%nat then
     [ mkHypothesis "statistical_outlier" metric
         (py_min (Fin 0.8) (fdiv (of_nat (default 0%nat (outliers_count stats))) (Fin 10)))
         ("Found " +:+ pretty (default 0%nat (outliers_count stats))
            +:+ " outliers in " +:+ metric)
         "medium" None ]
   else [])
  ++
  (match trend stats with
   | Some t =>
       if flt (p_value t) (Fin 0.05) then
         [ mkHypothesis "trend_anomaly" metric
             (py_min (Fin 0.7) (fabs (slope t)))
             ("Significant trend detected in " +:+ metric)
             "low" None ]
       else []
   | None => []
   end).

Definition pattern_hypotheses (level2 : Level2) : list RootCauseHypothesis :=
  (match anomaly_detection level2 with
   | Some a =>
       if (0 <? anomaly_count a)%nat then
         [ mkHypothesis "ai_anomaly" "multiple"
             (py_min (Fin 0.9) (fdiv (of_nat (anomaly_count a)) (Fin 20)))
             ("AI detected " +:+ pretty (anomaly_count a) +:+ " anomalies")
             "high" None ]
       else []
   | None => []
   end)
  ++
  (match kmeans_clusters level2 with
   | Some cluster_info =>
       if flt (silhouette cluster_info) (Fin 0.3) then
         [ mkHypothesis "pattern_instability" "clustering" (Fin 0.6)
             "Low clustering stability detected" "medium" None ]
       else []
   | None => []
   end).

Definition bottleneck_hypothesis (entry : string * float) : list RootCauseHypothesis :=
  let '(metric, centrality) := entry in
  if fgt centrality (Fin 0.8) then
    [ mkHypothesis "dependency_bottleneck" metric
        (py_min (Fin 0.8) centrality)
        ("High dependency on " +:+ metric +:+ " (centrality: "
           +:+ float_fmt3 centrality +:+ ")")
        "high" None ]
  else [].

Definition dependency_hypotheses (level3 : Level3) : list RootCauseHypothesis :=
  match central_metrics level3 with
  | Some c => concat (map bottleneck_hypothesis (firstn 3 (by_degree c)))
  | None => []
  end.

Definition _generate_root_cause_hypotheses (analysis_results : AnalysisResults)
    : list RootCauseHypothesis :=
  concat (map statistical_hypotheses (level_1 analysis_results))
  ++ pattern_hypotheses (level_2 analysis_results)
  ++ dependency_hypotheses (level_3 analysis_results).

(** *** [_rank_root_causes] *)

(** [severity_weights.get(severity, 2.0)] *)
Definition severity_weight (severity : string) : float :=
  if String.eqb severity "high" then Fin 3
  else if String.eqb severity "medium" then Fin 2
  else if String.eqb severity "low" then Fin 1
  else Fin 2.

Definition score (cause : RootCauseHypothesis) : RootCauseHypothesis :=
  mkHypothesis (h_type cause) (h_metric cause) (h_confidence cause) (h_evidence cause)
               (h_severity cause)
               (Some (float_mul (h_confidence cause) (severity_weight (h_severity cause)))).

Definition weighted_score (cause : RootCauseHypothesis) : float :=
  default NaN (h_weighted_score cause).

Definition _rank_root_causes (root_causes : list RootCauseHypothesis) : list RootCauseHypothesis :=
  sorted_desc weighted_score (map score root_causes).

(** *** [preprocess_incident_data]

    As in the anomaly detector, the [try] block runs on [self] and the local
    variable [data], and the method returns [data] from the block and from
    the handler alike. *)

Definition Local : Type := RootCauseAnalysisModel * DataFrame.

Definition set_data (f : DataFrame -> DataFrame) : M Local unit :=
  modify (fun s => (fst s, f (snd s))).
Definition on_self (f : RootCauseAnalysisModel -> RootCauseAnalysisModel) : M Local unit :=
  modify (fun s => (f (fst s), snd s)).

(** [data[col].astype(str)] *)
Definition cell_str (c : Cell) : string :=
  match c with
  | CStr s => s
  | CNum x => float_str x
  | CTime t => isoformat t
  | CNone => "None"
  end.

Definition object_columns (data : DataFrame) : list string :=
  map fst (filter (fun c => match snd c with DObject => true | _ => false end = true)
                  (df_schema data)).

Definition encode_column (col : string) : M Local unit :=
  if String.eqb col "timestamp" then ret tt
  else
    let! data := gets snd in
    let! '(le, codes) :=
      lift (label_encoder_fit_transform (map cell_str (column_cells col data))) in
    run! set_data (set_numeric (col +:+ "_encoded") codes) in
    on_self (set_encoder col le).

Definition add_temporal : M Local unit :=
  let! data := gets snd in
  if has_column "timestamp" data then
    let! ts := lift (traverse to_datetime (column_cells "timestamp" data)) in
    run! set_data (set_column "timestamp" DDatetime ts) in
    run! set_data (set_numeric "hour" (map (PredictiveScaling.time_field dt_hour) ts)) in
    run! set_data (set_numeric "day_of_week"
                     (map (PredictiveScaling.time_field dt_dayofweek) ts)) in
    set_data (set_numeric "is_business_hour"
                (map (fun c => let h := PredictiveScaling.time_field dt_hour c in
                               PredictiveScaling.flag (fge h (Fin 9) && fle h (Fin 17)))
                     ts))
  else ret tt.

Definition add_lags (data : DataFrame) (feature : string) : DataFrame :=
  foldl (fun d lag =>
           set_numeric (feature +:+ "_lag_" +:+ snd lag +:+ "h")
                       (shift (fst lag) (column_values feature d)) d)
        data
        [(1, "1"); (2, "2"); (3, "3"); (6, "6"); (12, "12")]%nat.

Definition add_rolling (data : DataFrame) (feature : string) : DataFrame :=
  let data := set_numeric (feature +:+ "_rolling_1h_mean")
                (rolling 4 np_mean (column_values feature data)) data in
  let data := set_numeric (feature +:+ "_rolling_6h_mean")
                (rolling 24 np_mean (column_values feature data)) data in
  let data := set_numeric (feature +:+ "_rolling_1h_std")
                (rolling 4 PredictiveScaling.sample_std (column_values feature data)) data in
  set_numeric (feature +:+ "_rolling_6h_std")
    (rolling 24 PredictiveScaling.sample_std (column_values feature data)) data.

Definition preprocess_body : M Local unit :=
  run! set_data (fun data => fillna_bfill (fillna_ffill data)) in
  let! data := gets snd in
  run! for_each (object_columns data) encode_column in
  run! add_temporal in
  let! data := gets snd in
  let lag_features :=
    filter (fun col => existsb (String.eqb col) ["hour"; "day_of_week"; "is_business_hour"]
                       = false)
           (numeric_columns data) in
  run! set_data (fun data => foldl add_lags data lag_features) in
  run! set_data (fun data => foldl add_rolling data lag_features) in
  set_data dropna.

Definition preprocess_incident_data (data : DataFrame)
    : M RootCauseAnalysisModel DataFrame :=
  fun self =>
    let '(self', data') := exec (try_catch preprocess_body (fun _ => ret tt)) (self, data) in
    (Ok data', self').

(** *** Level 1, [_statistical_analysis]: the block runs on the local
    dictionary [results]. *)

Definition update_last {A} (f : A -> A) (l : list (string * A)) : list (string * A) :=
  match reverse l with
  | (k, v) :: before => reverse before ++ [(k, f v)]
  | [] => []
  end.

Definition statistics_of (data : DataFrame) (col : string)
    : M (list (string * ColumnStats)) unit :=
  let values := column_values col data in
  let! std := lift (np_std values) in
  let! min := lift (np_min values) in
  let! max := lift (np_max values) in
  let! median := lift (np_median values) in
  let! q75 := lift (np_percentile values 75) in
  let! q25 := lift (np_percentile values 25) in
  run! modify (fun results =>
         results ++ [(col, mkStats (np_mean values) std min max median (fsub q75 q25)
                                   None None None)]) in
  let! z := lift (stats_zscore values) in
  let z_scores := map fabs z in
  let outliers := np_where (fun z => fgt z (Fin 3)) z_scores in
  run! modify (update_last (fun st =>
         mkStats (cs_mean st) (cs_std st) (cs_min st) (cs_max st) (cs_median st)
                 (cs_iqr st) (Some (length outliers)) (Some outliers) (trend st))) in
  if (10 <? length values)%nat then
    let x := map of_nat (seq 0 (length values)) in
    let! '(slope, r_value, p_value) := lift (stats_linregress x values) in
    modify (update_last (fun st =>
      mkStats (cs_mean st) (cs_std st) (cs_min st) (cs_max st) (cs_median st)
              (cs_iqr st) (outliers_count st) (outlier_indices st)
              (Some (mkTrend slope (fmul r_value r_value) p_value))))
  else ret tt.

Definition _statistical_analysis (data : DataFrame) (incident_metrics : IncidentMetrics)
    : list (string * ColumnStats) :=
  exec (try_catch (for_each (numeric_columns data) (statistics_of data))
                  (fun _ => ret tt)) [].

(** *** Level 2, [_pattern_recognition]: the block runs on [self] (the
    density model is refitted by [fit_predict]) and the local [results]. *)

Definition Local2 : Type := RootCauseAnalysisModel * Level2.

Definition count_minus_one (labels : list float) : nat :=
  length (filter (fun x => is_minus_one x = true) labels).

Definition pattern_body (data : DataFrame) : M Local2 unit :=
  let X := numeric_values data in
  let! scs := gets (fun s => scalers (fst s)) in
  match scs !! "feature_scaler" with
  | Some scaler =>
      if (0 <? length X)%nat then
        let! X_scaled := lift (scaler_transform scaler X) in
        let! ms := gets (fun s => models (fst s)) in
        run! (match ms !! "kmeans" with
              | Some kmeans =>
                  let! kmeans_labels := lift (predict kmeans X_scaled) in
                  let! sil := lift (silhouette_score X_scaled kmeans_labels) in
                  modify (fun s : Local2 =>
                    (fst s, mkLevel2 (Some (mkKMeans kmeans_labels
                                              (length (unique_values kmeans_labels)) sil))
                                     (dbscan_clusters (snd s)) (anomaly_detection (snd s))))
              | None => ret tt
              end) in
        run! (match ms !! "dbscan" with
              | Some dbscan =>
                  let! '(dbscan', dbscan_labels) := lift (fit_predict dbscan X_scaled) in
                  run! modify (fun s : Local2 => (set_model "dbscan" dbscan' (fst s), snd s)) in
                  modify (fun s : Local2 =>
                    (fst s, mkLevel2 (kmeans_clusters (snd s))
                              (Some (mkDbscan dbscan_labels
                                       (length (unique_values
                                          (filter (fun x => is_minus_one x = false)
                                                  dbscan_labels)))
                                       (count_minus_one dbscan_labels)))
                              (anomaly_detection (snd s))))
              | None => ret tt
              end) in
        (match ms !! "isolation_forest" with
         | Some forest =>
             let! anomaly_scores := lift (score_samples forest X_scaled) in
             let! anomaly_predictions := lift (predict forest X_scaled) in
             modify (fun s : Local2 =>
               (fst s, mkLevel2 (kmeans_clusters (snd s)) (dbscan_clusters (snd s))
                         (Some (mkAnomalies anomaly_scores anomaly_predictions
                                  (count_minus_one anomaly_predictions)))))
         | None => ret tt
         end)
      else ret tt
  | None => ret tt
  end.

Definition _pattern_recognition (data : DataFrame) (incident_metrics : IncidentMetrics)
    : M RootCauseAnalysisModel Level2 :=
  fun self =>
    let '(self', results) :=
      exec (try_catch (pattern_body data) (fun _ => ret tt))
           (self, mkLevel2 None None None) in
    (Ok results, self').

(** *** Level 3, [_dependency_analysis], on the local [results]. *)

Definition paths_from (G : Graph) (metric : string)
    : outcome (list (string * (list string * nat))) :=
  foldl (fun acc other_metric =>
           match acc with
           | Raise e => Raise e
           | Ok paths =>
               if String.eqb other_metric metric then Ok paths
               else
                 match nx_shortest_path G metric other_metric with
                 | Raise e => Raise e
                 | Ok (Some path) => Ok (paths ++ [(other_metric, (path, length path - 1))])
                 | Ok None => Ok paths
                 end
           end)
        (Ok []) (nx_nodes G).

Definition dependency_body (G : Graph) (incident_metrics : IncidentMetrics)
    : M Level3 unit :=
  let! density := lift (nx_density G) in
  let! clustering := lift (nx_average_clustering G) in
  run! modify (fun r => mkLevel3
         (Some (mkGraphAnalysis (length (nx_nodes G)) (nx_number_of_edges G)
                                density clustering))
         (central_metrics r) (communities r) (path_analysis r)) in
  let! degree_centrality := lift (nx_degree_centrality G) in
  let! betweenness_centrality := lift (nx_betweenness_centrality G) in
  let sorted_degree := sorted_desc snd degree_centrality in
  let sorted_betweenness := sorted_desc snd betweenness_centrality in
  run! modify (fun r => mkLevel3 (graph_analysis r)
         (Some (mkCentral (firstn 5 sorted_degree) (firstn 5 sorted_betweenness)))
         (communities r) (path_analysis r)) in
  let! found := lift (nx_greedy_modularity_communities G) in
  run! modify (fun r => mkLevel3 (graph_analysis r) (central_metrics r)
         (Some (length found, map length found)) (path_analysis r)) in
  match affected_metrics incident_metrics with
  | Some affected =>
      let! analysis :=
        fold_m (fun path_analysis metric =>
                  if existsb (String.eqb metric) (nx_nodes G) then
                    let! paths := lift (paths_from G metric) in
                    ret (path_analysis ++ [(metric, paths)])
                  else ret path_analysis)
               affected [] in
      modify (fun r => mkLevel3 (graph_analysis r) (central_metrics r) (communities r)
                                (Some analysis))
  | None => ret tt
  end.

Definition _dependency_analysis (self : RootCauseAnalysisModel)
    (data : DataFrame) (incident_metrics : IncidentMetrics) : Level3 :=
  match correlation_graph self with
  | None => mkLevel3 None None None None
  | Some G =>
      exec (try_catch (dependency_body G incident_metrics) (fun _ => ret tt))
           (mkLevel3 None None None None)
  end.

(** [_perform_multi_level_analysis]: each level catches its own exceptions,
    so the three run in order and each leaves its name on the path. *)
Definition _perform_multi_level_analysis (data : DataFrame)
    (incident_metrics : IncidentMetrics) : M RootCauseAnalysisModel AnalysisResults :=
  let level1 := _statistical_analysis data incident_metrics in
  let! level2 := _pattern_recognition data incident_metrics in
  let! self := get in
  let level3 := _dependency_analysis self data incident_metrics in
  ret (mkResults level1 level2 level3
         ["statistical_analysis"; "pattern_recognition"; "dependency_analysis"]).

(** *** [analyze_root_cause] *)

Record Analysis := mkAnalysis {
  root_causes : list RootCauseHypothesis;
  confidence : float;
  result_path : list string;
  result_timestamp : option string;
  result_error : option string
}.

Definition not_trained_result : Analysis :=
  mkAnalysis [] (Fin 0) [] None (Some "Models not trained").

Definition error_result (e : exn) : Analysis :=
  mkAnalysis [] (Fin 0) [] None (Some (str_exn e)).

(** [now] and [later] are the two readings of [datetime.now()]. *)
Definition analyze_body (incident_data : DataFrame) (incident_metrics : IncidentMetrics)
    (now later : datetime) : M RootCauseAnalysisModel Analysis :=
  let! processed_data := preprocess_incident_data (copy incident_data) in
  let! analysis_results := _perform_multi_level_analysis processed_data incident_metrics in
  let root_causes := _generate_root_cause_hypotheses analysis_results in
  let ranked_causes := _rank_root_causes root_causes in
  run! modify (append_history
         (mkRecord (isoformat now) incident_metrics ranked_causes
                   (analysis_path analysis_results))) in
  let! cfg := gets config in
  ret (mkAnalysis (slice_to (max_root_causes cfg) ranked_causes)
                  (np_mean (map h_confidence ranked_causes))
                  (analysis_path analysis_results)
                  (Some (isoformat later)) None).

Definition analyze_root_cause (incident_data : DataFrame)
    (incident_metrics : IncidentMetrics) (now later : datetime)
    : M RootCauseAnalysisModel Analysis :=
  let! trained := gets is_trained in
  if negb trained then ret not_trained_result
  else try_catch (analyze_body incident_data incident_metrics now later)
                 (fun e => ret (error_result e)).

(** *** Status *)

Record ModelStatus := mkStatus {
  st_is_trained : bool;
  st_last_training : option string;
  st_models_count : nat;
  st_scalers_count : nat;
  st_encoders_count : nat;
  st_correlation_graph_nodes : nat;
  st_analysis_history_count : nat;
  st_config : Config
}.

Definition get_model_status (self : RootCauseAnalysisModel) : ModelStatus := {|
  st_is_trained := is_trained self;
  st_last_training := isoformat <$> last_training self;
  st_models_count := size (models self);
  st_scalers_count := size (scalers self);
  st_encoders_count := size (encoders self);
  st_correlation_graph_nodes :=
    match correlation_graph self with Some G => length (nx_nodes G) | None => 0 end;
  st_analysis_history_count := length (analysis_history self);
  st_config := config self
|}.

End Model.
End RootCauseAnalysis.

(** ** [save_models] and [load_models]

    [joblib.dump] writes the dictionary that [save_models] builds, which has
    one entry per attribute of the object: a file holds the attributes of an
    anomaly detector, of a predictive scaler or of a root-cause analyzer, or
    something [joblib.load] cannot read back.  A path that cannot be written
    makes [joblib.dump] raise. *)

Module Persistence.
Section Model.
Context {L : Library}.

Inductive FileContent :=
| AnomalyBundle (model_data : AnomalyDetection.AnomalyDetectionModel)
| ScalingBundle (model_data : PredictiveScaling.PredictiveScalingModel)
| RootCauseBundle (model_data : RootCauseAnalysis.RootCauseAnalysisModel)
| Unreadable.

Record FileSystem := mkFS {
  files : gmap string FileContent;
  unwritable : gset string
}.

Definition joblib_dump (model_data : FileContent) (filepath : string) : M FileSystem unit :=
  fun fs =>
    if decide (filepath ∈ unwritable fs) then
      (Raise (OSError "cannot write"), fs)
    else (Ok tt, mkFS (<[filepath := model_data]> (files fs)) (unwritable fs)).

Definition joblib_load (fs : FileSystem) (filepath : string) : outcome FileContent :=
  match files fs !! filepath with
  | None => Raise (OSError "No such file or directory")
  | Some Unreadable => Raise (ValueError "cannot unpickle")
  | Some model_data => Ok model_data
  end.

(** The entries [models] and [scalers], which every bundle has. *)
Definition bundle_models (model_data : FileContent) : gmap string Estimator :=
  match model_data with
  | AnomalyBundle b => AnomalyDetection.models b
  | ScalingBundle b => PredictiveScaling.models b
  | RootCauseBundle b => RootCauseAnalysis.models b
  | Unreadable => ∅
  end.
Definition bundle_scalers (model_data : FileContent) : gmap string Scaler :=
  match model_data with
  | AnomalyBundle b => AnomalyDetection.scalers b
  | ScalingBundle b => PredictiveScaling.scalers b
  | RootCauseBundle b => RootCauseAnalysis.scalers b
  | Unreadable => ∅
  end.

End Model.

Module Anomaly.
Section Model.
Context {L : Library}.
Import AnomalyDetection.

Definition save_models (self : AnomalyDetectionModel) (filepath : string)
    : M FileSystem unit :=
  try_catch (joblib_dump (AnomalyBundle self) filepath) (fun _ => ret tt).

Definition put_models (v : gmap string Estimator) (self : AnomalyDetectionModel) :=
  mkModel (config self) v (scalers self) (thresholds self)
          (is_trained self) (last_training self).
Definition put_scalers (v : gmap string Scaler) (self : AnomalyDetectionModel) :=
  mkModel (config self) (models self) v (thresholds self)
          (is_trained self) (last_training self).
Definition put_thresholds (v : gmap string float) (self : AnomalyDetectionModel) :=
  mkModel (config self) (models self) (scalers self) v
          (is_trained self) (last_training self).
Definition put_config (v : Config) (self : AnomalyDetectionModel) :=
  mkModel v (models self) (scalers self) (thresholds self)
          (is_trained self) (last_training self).

(** The assignments of [load_models], in the order of the source. *)
Definition load_body (fs : FileSystem) (filepath : string) : M AnomalyDetectionModel unit :=
  let! model_data := lift (joblib_load fs filepath) in
  run! modify (put_models (bundle_models model_data)) in
  run! modify (put_scalers (bundle_scalers model_data)) in
  match model_data with
  | AnomalyBundle b =>
      run! modify (put_thresholds (thresholds b)) in
      run! modify (put_config (config b)) in
      run! modify (set_is_trained (is_trained b)) in
      modify (set_last_training (last_training b))
  | _ => raise (KeyError "thresholds")
  end.

Definition load_models (fs : FileSystem) (filepath : string) : M AnomalyDetectionModel unit :=
  try_catch (load_body fs filepath) (fun _ => modify (set_is_trained false)).

End Model.
End Anomaly.

Module Scaling.
Section Model.
Context {L : Library}.
Import PredictiveScaling.

Definition save_models (self : PredictiveScalingModel) (filepath : string)
    : M FileSystem unit :=
  try_catch (joblib_dump (ScalingBundle self) filepath) (fun _ => ret tt).

Definition put_models (v : gmap string Estimator) (self : PredictiveScalingModel) :=
  mkModel (config self) v (scalers self) (feature_importance self)
          (is_trained self) (last_training self) (performance_metrics self).
Definition put_scalers (v : gmap string Scaler) (self : PredictiveScalingModel) :=
  mkModel (config self) (models self) v (feature_importance self)
          (is_trained self) (last_training self) (performance_metrics self).

Definition load_body (fs : FileSystem) (filepath : string) : M PredictiveScalingModel unit :=
  let! model_data := lift (joblib_load fs filepath) in
  run! modify (put_models (bundle_models model_data)) in
  run! modify (put_scalers (bundle_scalers model_data)) in
  match model_data with
  | ScalingBundle b =>
      run! modify (fun self =>
             mkModel (config self) (models self) (scalers self) (feature_importance b)
                     (is_trained self) (last_training self) (performance_metrics self)) in
      run! modify (fun self =>
             mkModel (config self) (models self) (scalers self) (feature_importance self)
                     (is_trained self) (last_training self) (performance_metrics b)) in
      run! modify (fun self =>
             mkModel (config b) (models self) (scalers self) (feature_importance self)
                     (is_trained self) (last_training self) (performance_metrics self)) in
      run! modify (set_is_trained (is_trained b)) in
      modify (set_last_training (last_training b))
  | _ => raise (KeyError "feature_importance")
  end.

Definition load_models (fs : FileSystem) (filepath : string) : M PredictiveScalingModel unit :=
  try_catch (load_body fs filepath) (fun _ => modify (set_is_trained false)).

End Model.
End Scaling.

Module RootCause.
Section Model.
Context {L : Library}.
Import RootCauseAnalysis.

Definition save_models (self : RootCauseAnalysisModel) (filepath : string)
    : M FileSystem unit :=
  try_catch (joblib_dump (RootCauseBundle self) filepath) (fun _ => ret tt).

Definition put_models (v : gmap string Estimator) (self : RootCauseAnalysisModel) :=
  mkModel (config self) v (scalers self) (encoders self) (correlation_graph self)
          (is_trained self) (last_training self) (analysis_history self).
Definition put_scalers (v : gmap string Scaler) (self : RootCauseAnalysisModel) :=
  mkModel (config self) (models self) v (encoders self) (correlation_graph self)
          (is_trained self) (last_training self) (analysis_history self).

Definition load_body (fs : FileSystem) (filepath : string) : M RootCauseAnalysisModel unit :=
  let! model_data := lift (joblib_load fs filepath) in
  run! modify (put_models (bundle_models model_data)) in
  run! modify (put_scalers (bundle_scalers model_data)) in
  match model_data with
  | RootCauseBundle b =>
      run! modify (fun self =>
             mkModel (config self) (models self) (scalers self) (encoders b)
                     (correlation_graph self) (is_trained self) (last_training self)
                     (analysis_history self)) in
      run! modify (fun self =>
             mkModel (config self) (models self) (scalers self) (encoders self)
                     (correlation_graph b) (is_trained self) (last_training self)
                     (analysis_history self)) in
      run! modify (fun self =>
             mkModel (config b) (models self) (scalers self) (encoders self)
                     (correlation_graph self) (is_trained self) (last_training self)
                     (analysis_history self)) in
      run! modify (set_is_trained (is_trained b)) in
      run! modify (fun self =>
             mkModel (config self) (models self) (scalers self) (encoders self)
                     (correlation_graph self) (is_trained self) (last_training b)
                     (analysis_history self)) in
      modify (fun self =>
             mkModel (config self) (models self) (scalers self) (encoders self)
                     (correlation_graph self) (is_trained self) (last_training self)
                     (analysis_history b))
  | _ => raise (KeyError "encoders")
  end.

Definition load_models (fs : FileSystem) (filepath : string) : M RootCauseAnalysisModel unit :=
  try_catch (load_body fs filepath) (fun _ => modify (set_is_trained false)).

End Model.
End RootCause.
End Persistence.

(** ** The service, [ai-engine/main.py]: the callers of the three components

    Of [main.py] the parts that drive the components are embedded: the load
    and save loops of [lifespan], the endpoint [reload_models] and the
    background training tasks.  Each loop runs over a literal list of the
    three component names and is written out turn by turn.  The frames that
    the endpoints build from the request are taken as given. *)

Module Engine.
Section Model.
Context {L : Library}.
Import Persistence.

(** The entries of [ai_models] that hold the three components. *)
Record AIModels := mkModels {
  anomaly_detection : AnomalyDetection.AnomalyDetectionModel;
  predictive_scaling : PredictiveScaling.PredictiveScalingModel;
  root_cause_analysis : RootCauseAnalysis.RootCauseAnalysisModel
}.

(** A method call on one entry of [ai_models]. *)
Definition on_anomaly_detection {A} (m : M AnomalyDetection.AnomalyDetectionModel A)
    : M AIModels A :=
  fun models =>
    let '(o, self) := m (anomaly_detection models) in
    (o, mkModels self (predictive_scaling models) (root_cause_analysis models)).
Definition on_predictive_scaling {A} (m : M PredictiveScaling.PredictiveScalingModel A)
    : M AIModels A :=
  fun models =>
    let '(o, self) := m (predictive_scaling models) in
    (o, mkModels (anomaly_detection models) self (root_cause_analysis models)).
Definition on_root_cause_analysis {A} (m : M RootCauseAnalysis.RootCauseAnalysisModel A)
    : M AIModels A :=
  fun models =>
    let '(o, self) := m (root_cause_analysis models) in
    (o, mkModels (anomaly_detection models) (predictive_scaling models) self).

(** [os.path.join(a, b)], as [posixpath] defines it *)
Definition starts_with_slash (b : string) : bool :=
  match b with
  | String c _ => Ascii.eqb c "/"%char
  | EmptyString => false
  end.

Fixpoint ends_with_slash (a : string) : bool :=
  match a with
  | EmptyString => false
  | String c EmptyString => Ascii.eqb c "/"%char
  | String _ rest => ends_with_slash rest
  end.

Definition path_join (a b : string) : string :=
  if starts_with_slash b then b
  else if String.eqb a "" || ends_with_slash a then a +:+ b
  else a +:+ "/" +:+ b.

(** [os.path.join(config.MODEL_STORAGE_PATH, f"{model_name}.joblib")] *)
Definition model_path (storage model_name : string) : string :=
  path_join storage (model_name +:+ ".joblib").

(** [os.path.exists(model_path)] *)
Definition path_exists (fs : FileSystem) (path : string) : bool :=
  match files fs !! path with Some _ => true | None => false end.

(** *** [lifespan]: start-up *)

(** The components as [lifespan] constructs them. *)
Definition constructed : AIModels :=
  mkModels (AnomalyDetection.init AnomalyDetection.no_config)
           (PredictiveScaling.init PredictiveScaling.no_config)
           (RootCauseAnalysis.init RootCauseAnalysis.no_config).

Definition load_pretrained (storage : string) (fs : FileSystem) : M AIModels unit :=
  try_catch
    (run! (let model_path := model_path storage "anomaly_detection" in
           if path_exists fs model_path then
             on_anomaly_detection (Anomaly.load_models fs model_path)
           else ret tt) in
     run! (let model_path := model_path storage "predictive_scaling" in
           if path_exists fs model_path then
             on_predictive_scaling (Scaling.load_models fs model_path)
           else ret tt) in
     (let model_path := model_path storage "root_cause_analysis" in
      if path_exists fs model_path then
        on_root_cause_analysis (RootCause.load_models fs model_path)
      else ret tt))
    (fun _ => ret tt).

Definition startup (storage : string) (fs : FileSystem) : AIModels :=
  exec (load_pretrained storage fs) constructed.

(** *** [lifespan]: shutdown *)

Definition shutdown (storage : string) (models : AIModels) : M FileSystem unit :=
  try_catch
    (run! (if AnomalyDetection.is_trained (anomaly_detection models) then
             Anomaly.save_models (anomaly_detection models)
               (model_path storage "anomaly_detection")
           else ret tt) in
     run! (if PredictiveScaling.is_trained (predictive_scaling models) then
             Scaling.save_models (predictive_scaling models)
               (model_path storage "predictive_scaling")
           else ret tt) in
     (if RootCauseAnalysis.is_trained (root_cause_analysis models) then
        RootCause.save_models (root_cause_analysis models)
          (model_path storage "root_cause_analysis")
      else ret tt))
    (fun _ => ret tt).

(** *** The endpoint [reload_models] *)

(** What an endpoint answers: a body, or the [HTTPException] it raised. *)
Inductive Response (A : Type) :=
| Respond (body : A)
| HTTPException (status_code : Z) (detail : string).
#[global] Arguments Respond {A} body.
#[global] Arguments HTTPException {A} status_code detail.

Record Reloaded := mkReloaded {
  reloaded : list string;
  failed : list string;
  timestamp : string
}.

(** One turn of the loop, on the local lists [reloaded] and [failed]. *)
Definition reload_one (fs : FileSystem) (storage model_name : string)
    (load_models : string -> M AIModels unit) (lists : list string * list string)
    : M AIModels (list string * list string) :=
  try_catch
    (let model_path := model_path storage model_name in
     if path_exists fs model_path then
       run! load_models model_path in
       ret (fst lists ++ [model_name], snd lists)
     else ret (fst lists, snd lists ++ [model_name +:+ ": No saved model found"]))
    (fun e => ret (fst lists, snd lists ++ [model_name +:+ ": " +:+ str_exn e])).

Definition reload_models (storage : string) (fs : FileSystem) (utcnow : datetime)
    : AIModels -> Response Reloaded * AIModels :=
  fun models =>
    match
      (let! lists :=
         reload_one fs storage "anomaly_detection"
           (fun path => on_anomaly_detection (Anomaly.load_models fs path)) ([], []) in
       let! lists :=
         reload_one fs storage "predictive_scaling"
           (fun path => on_predictive_scaling (Scaling.load_models fs path)) lists in
       let! lists :=
         reload_one fs storage "root_cause_analysis"
           (fun path => on_root_cause_analysis (RootCause.load_models fs path)) lists in
       ret (mkReloaded (fst lists) (snd lists) (isoformat utcnow))) models
    with
    | (Ok body, models') => (Respond body, models')
    | (Raise e, models') =>
        (HTTPException 500 ("Model reload failed: " +:+ str_exn e), models')
    end.

(** *** The background training tasks *)

(** The dictionary that [train_anomaly_detection] builds from the frame of
    the request: one entry for each of four metric names that is a column,
    each holding the whole frame. *)
Definition training_data_of (training_df : DataFrame) : list (string * DataFrame) :=
  omap (fun metric_name =>
          if has_column metric_name training_df then Some (metric_name, training_df)
          else None)
       ["cpu_usage"; "memory_usage"; "disk_usage"; "response_time"].

(** [train_model] of [train_anomaly_detection] *)
Definition train_anomaly_task (training_df : DataFrame) (now : datetime) : M AIModels unit :=
  try_catch
    (on_anomaly_detection
       (AnomalyDetection.train_models (training_data_of training_df) now))
    (fun _ => ret tt).

(** [train_model] of [train_predictive_scaling] *)
Definition train_scaling_task (training_df : DataFrame) (now : datetime) : M AIModels unit :=
  try_catch
    (on_predictive_scaling (PredictiveScaling.train_models training_df now))
    (fun _ => ret tt).

End Model.
End Engine.

(** ** A reference library

    [RefLib] implements the interface [Library] over exact rationals, for
    evaluating the model on concrete inputs:
    - the statistics ([quantile], [percentile], [zscore], standard deviation,
      variance, the standard scaler, the regression scores) by their
      textbook formulas; a square root is exact when it is rational and
      otherwise correct to twelve decimal digits;
    - [RandomState(seed).permutation(n)] by the Mersenne Twister MT19937 and
      numpy's shuffle loop;
    - timestamps as seconds since 1970-01-01 00:00, with the proleptic
      Gregorian calendar;
    - fitting an estimator records its parameters and its training data;
    - a product of floats is the binary64 product, correctly rounded;
    - the graphs are the complete graphs, whose measures are known in closed
      form.
    Model inference, the p-value of a regression and text-to-date parsing
    are not implemented (they raise [LibraryError]); no example below
    evaluates them. *)

Module RefLib.

Definition unavailable {A} : outcome A :=
  Raise (LibraryError "not part of the reference library").

(** *** Square roots *)

Definition Qsqrt (q : Q) : Q :=
  let n := Qnum q in
  let d := Z.pos (Qden q) in
  if (n <=? 0)%Z then 0%Q
  else
    let p := (n * d)%Z in
    let r := Z.sqrt p in
    if (r * r =? p)%Z then Qred (r # Qden q)
    else Qred (Z.sqrt (p * 10 ^ 24) # (Qden q * 10 ^ 12)).

Definition fred (x : float) : float :=
  match x with Fin q => Fin (Qred q) | NaN => NaN end.

Definition sqrt (x : float) : float :=
  match x with
  | Fin q => if Qltb q 0 then NaN else Fin (Qsqrt q)
  | NaN => NaN
  end.

(** *** Order statistics *)

Fixpoint insert_asc (x : Q) (sorted : list Q) : list Q :=
  match sorted with
  | [] => [x]
  | y :: rest => if Qle_bool x y then x :: sorted else y :: insert_asc x rest
  end.

Definition finite_values (values : list float) : list Q :=
  omap (fun x => match x with Fin q => Some q | NaN => None end) values.

(** The value at the fractional position [pos] of the sorted sample. *)
Definition interpolate (sorted : list Q) (pos : Q) : float :=
  let lo := Z.to_nat (Qfloor pos) in
  let frac := (pos - inject_Z (Qfloor pos))%Q in
  match sorted !! lo with
  | None => NaN
  | Some a =>
      match sorted !! S lo with
      | Some b => Fin (Qred (a + (b - a) * frac))
      | None => Fin (Qred a)
      end
  end.

(** [np.percentile(values, p)], linear interpolation *)
Definition percentile (values : list float) (p : Q) : outcome float :=
  match values with
  | [] => Raise (IndexError "index -1 is out of bounds for axis 0 with size 0")
  | _ =>
      if existsb is_nan values then Ok NaN
      else
        let sorted := foldr insert_asc [] (finite_values values) in
        Ok (interpolate sorted (p / 100 * inject_Z (Z.of_nat (length sorted - 1))))
  end.

(** [series.quantile(q)]: missing values are skipped *)
Definition quantile (values : list float) (q : Q) : outcome float :=
  let sorted := foldr insert_asc [] (finite_values values) in
  match sorted with
  | [] => Ok NaN
  | _ => Ok (interpolate sorted (q * inject_Z (Z.of_nat (length sorted - 1))))
  end.

Definition median (values : list float) : outcome float :=
  match values with
  | [] => Ok NaN
  | _ => percentile values 50
  end.

(** *** Moments *)

Definition variance (values : list float) : float :=
  let mean := np_mean values in
  fred (np_mean (map (fun x => fmul (fsub x mean) (fsub x mean)) values)).

Definition std (values : list float) : float := sqrt (variance values).

(** [stats.zscore(values)] *)
Definition zscore (values : list float) : outcome (list float) :=
  let mean := np_mean values in
  let sd := std values in
  Ok (map (fun x => fred (fdiv (fsub x mean) sd)) values).

Definition minimum (values : list float) : outcome float :=
  match values with
  | [] => Raise (ValueError "zero-size array to reduction operation minimum")
  | _ => Ok (if existsb is_nan values then NaN else list_min values)
  end.
Definition maximum (values : list float) : outcome float :=
  match values with
  | [] => Raise (ValueError "zero-size array to reduction operation maximum")
  | _ => Ok (if existsb is_nan values then NaN else list_max values)
  end.

(** *** The standard scaler: per column, the mean and the scale *)

Fixpoint transpose (width : nat) (X : matrix) : matrix :=
  match width with
  | O => []
  | S w => transpose w X ++ [map (fun row => nth w row NaN) X]
  end.

Definition scale_of (column : list float) : float :=
  match std column with
  | Fin q => if Qeq_bool q 0 then Fin 1 else Fin q
  | NaN => NaN
  end.

Definition standardize (scaler : list (float * float)) (row : list float) : list float :=
  zip_with (fun x ms => fred (fdiv (fsub x (fst ms)) (snd ms))) row scaler.

Definition transform (scaler : list (float * float)) (X : matrix) : outcome matrix :=
  if forallb (fun row => Nat.eqb (length row) (length scaler)) X then
    Ok (map (standardize scaler) X)
  else Raise (ValueError "X has a different number of features").

Definition fit_transform (X : matrix) : outcome (list (float * float) * matrix) :=
  match X with
  | [] => Raise (ValueError "Found array with 0 sample(s)")
  | first :: _ =>
      if forallb (fun row => Nat.eqb (length row) (length first)) X then
        let scaler :=
          map (fun column => (fred (np_mean column), scale_of column))
              (transpose (length first) X) in
        Ok (scaler, map (standardize scaler) X)
      else Raise (ValueError "inhomogeneous shape")
  end.

(** *** Fitted estimators, symbolically *)

Record Fitted := mkFitted {
  kind : string;
  params : gmap string float;
  fitted_X : matrix;
  fitted_y : list float
}.

Definition fit (kind : string) (params : gmap string float) (X : matrix) (y : list float)
    : outcome Fitted :=
  match X with
  | [] => Raise (ValueError "Found array with 0 sample(s)")
  | _ => Ok (mkFitted kind params X y)
  end.

(** *** Regression scores *)

Definition squared_errors (y_true y_pred : list float) : list float :=
  zip_with (fun a b => fmul (fsub a b) (fsub a b)) y_true y_pred.

Definition checked {A} (y_true y_pred : list float) (v : A) : outcome A :=
  if Nat.eqb (length y_true) (length y_pred) && negb (Nat.eqb (length y_true) 0) then Ok v
  else Raise (ValueError "Found input variables with inconsistent numbers of samples").

Definition mse (y_true y_pred : list float) : outcome float :=
  checked y_true y_pred (fred (np_mean (squared_errors y_true y_pred))).
Definition mae (y_true y_pred : list float) : outcome float :=
  checked y_true y_pred
    (fred (np_mean (zip_with (fun a b => fabs (fsub a b)) y_true y_pred))).
Definition r2 (y_true y_pred : list float) : outcome float :=
  let mean := np_mean y_true in
  checked y_true y_pred
    (fred (fsub (Fin 1)
                (fdiv (fsum (squared_errors y_true y_pred))
                      (fsum (map (fun a => fmul (fsub a mean) (fsub a mean)) y_true))))).

(** The mask of lines 173-177 is as long as both target series together,
    and numpy refuses a mask of another length than the array. *)
Definition masked (X_train : matrix) (y_train : list float) (X_test : matrix)
    (y_test : list float) : outcome (matrix * list float * matrix * list float) :=
  if Nat.eqb (length y_train + length y_test) (length X_train)
     && Nat.eqb (length y_train + length y_test) (length X_test) then
    Ok (X_train, y_train, X_test, y_test)
  else Raise (IndexError "boolean index did not match indexed array along axis 0").

(** *** The Mersenne Twister and numpy's shuffle *)

Definition w32 (x : Z) : Z := Z.land x 4294967295.

Fixpoint init_tail (prev i : Z) (count : nat) : list Z :=
  match count with
  | O => []
  | S count' =>
      let next := w32 (1812433253 * Z.lxor prev (Z.shiftr prev 30) + i) in
      next :: init_tail next (i + 1) count'
  end.

Definition init_genrand (seed : Z) : list Z :=
  let s := w32 seed in s :: init_tail s 1 623.

Definition twist_at (mt : list Z) (kk : nat) : list Z :=
  let a := default 0%Z (mt !! kk) in
  let b := default 0%Z (mt !! ((kk + 1) mod 624)%nat) in
  let c := default 0%Z (mt !! ((kk + 397) mod 624)%nat) in
  let y := Z.lor (Z.land a 2147483648) (Z.land b 2147483647) in
  let mag := if Z.odd y then 2567483615%Z else 0%Z in
  <[kk := Z.lxor (Z.lxor c (Z.shiftr y 1)) mag]> mt.

Definition twist (mt : list Z) : list Z := fold_left twist_at (seq 0 624) mt.

Definition temper (y : Z) : Z :=
  let y := Z.lxor y (Z.shiftr y 11) in
  let y := Z.lxor y (Z.land (Z.shiftl y 7) 2636928640) in
  let y := Z.lxor y (Z.land (Z.shiftl y 15) 4022730752) in
  Z.lxor y (Z.shiftr y 18).

Definition generator : Type := list Z * nat.

Definition seeded (seed : Z) : generator := (init_genrand seed, 624%nat).

Definition next_uint32 (g : generator) : Z * generator :=
  let '(mt, pos) := g in
  let '(mt, pos) := if (624 <=? pos)%nat then (twist mt, 0%nat) else (mt, pos) in
  (temper (default 0%Z (mt !! pos)), (mt, S pos)).

(** The smallest mask of ones that covers [m]. *)
Fixpoint bit_mask (bits : nat) (m : Z) : Z :=
  match bits with
  | O => m
  | S bits' =>
      if (m =? 0)%Z then 0%Z
      else Z.lor 1 (Z.shiftl (bit_mask bits' (Z.shiftr m 1)) 1)
  end.

(** [random_interval]: masked draws until one is at most [max]. *)
Fixpoint random_interval (tries : nat) (max mask : Z) (g : generator) : Z * generator :=
  match tries with
  | O => (0%Z, g)
  | S tries' =>
      let '(v, g') := next_uint32 g in
      let value := Z.land v mask in
      if (value <=? max)%Z then (value, g') else random_interval tries' max mask g'
  end.

Definition swap (x : list nat) (i j : nat) : list nat :=
  let xi := default 0%nat (x !! i) in
  let xj := default 0%nat (x !! j) in
  <[j := xi]> (<[i := xj]> x).

Fixpoint shuffle (i : nat) (x : list nat) (g : generator) : list nat :=
  match i with
  | O => x
  | S i' =>
      let '(j, g') := random_interval 4096 (Z.of_nat i) (bit_mask 64 (Z.of_nat i)) g in
      shuffle i' (swap x i (Z.to_nat j)) g'
  end.

Definition permutation (seed : Z) (n : nat) : list nat :=
  shuffle (n - 1) (seq 0 n) (seeded seed).

(** *** Calendar *)

Definition civil (days : Z) : Z * Z * Z :=
  let z := (days + 719468)%Z in
  let era := (z / 146097)%Z in
  let doe := (z - era * 146097)%Z in
  let yoe := ((doe - doe / 1460 + doe / 36524 - doe / 146096) / 365)%Z in
  let doy := (doe - (365 * yoe + yoe / 4 - yoe / 100))%Z in
  let mp := ((5 * doy + 2) / 153)%Z in
  let d := (doy - (153 * mp + 2) / 5 + 1)%Z in
  let m := (if (mp <? 10)%Z then mp + 3 else mp - 9)%Z in
  let y := (yoe + era * 400 + (if (m <=? 2)%Z then 1 else 0))%Z in
  (y, m, d).

Definition hour (t : datetime) : Z := ((t / 3600) mod 24)%Z.
Definition dayofweek (t : datetime) : Z := ((t / 86400 + 3) mod 7)%Z.
Definition day (t : datetime) : Z := snd (civil (t / 86400)).
Definition month (t : datetime) : Z := snd (fst (civil (t / 86400))).
Definition year (t : datetime) : Z := fst (fst (civil (t / 86400))).

Definition two_digits (n : Z) : string :=
  if (n <? 10)%Z then "0" +:+ pretty n else pretty n.

Definition iso (t : datetime) : string :=
  pretty (year t) +:+ "-" +:+ two_digits (month t) +:+ "-" +:+ two_digits (day t)
  +:+ "T" +:+ two_digits (hour t) +:+ ":" +:+ two_digits ((t / 60) mod 60)%Z
  +:+ ":" +:+ two_digits (t mod 60)%Z.

(** [sin] and [cos] of [2 * pi * x / period] by Bhaskara's rational formula
    (within 0.002 of the true value). *)
Definition sin_turn (f : Q) : Q :=
  let g := (f - inject_Z (Qfloor f))%Q in
  let half (h : Q) := (32 * h * (1 - 2 * h) / (5 - 8 * h * (1 - 2 * h)))%Q in
  if Qle_bool g (1 # 2) then Qred (half g) else Qred (- half (g - (1 # 2)))%Q.

Definition sin_cycle (x : float) (period : Z) : float :=
  match x with Fin q => Fin (sin_turn (q / inject_Z period)) | NaN => NaN end.
Definition cos_cycle (x : float) (period : Z) : float :=
  match x with Fin q => Fin (sin_turn (q / inject_Z period + (1 # 4))) | NaN => NaN end.

(** *** Binary64 rounding and products

    [mul64 x y] is the double nearest to the product of the doubles nearest
    to [x] and [y], ties going to the even significand.  The subnormal
    spacing [2^-1074] is kept; the exponent is not bounded above. *)

Definition pow2 (e : Z) : Q :=
  if (0 <=? e)%Z then inject_Z (2 ^ e) else 1 # Z.to_pos (2 ^ (- e)).

(** The [e] with [2^e <= q < 2^(e+1)], for a positive [q]. *)
Definition binade (q : Q) : Z :=
  let e := (Z.log2 (Qnum q) - Z.log2 (Z.pos (Qden q)))%Z in
  if Qle_bool (pow2 e) q then e else (e - 1)%Z.

Definition half_even (q : Q) : Z :=
  let f := Qfloor q in
  match Qcompare (q - inject_Z f) (1 # 2) with
  | Lt => f
  | Gt => (f + 1)%Z
  | Eq => if Z.even f then f else (f + 1)%Z
  end.

Definition round64 (q : Q) : Q :=
  let q := Qred q in
  if Qeq_bool q 0 then 0%Q
  else
    let a := Qabs q in
    let spacing := pow2 (Z.max (binade a) (-1022) - 52) in
    let m := (inject_Z (half_even (a / spacing)) * spacing)%Q in
    Qred (if Qltb q 0 then - m else m)%Q.

Definition mul64 (x y : float) : float :=
  match x, y with
  | Fin a, Fin b => Fin (round64 (round64 a * round64 b))
  | _, _ => NaN
  end.

(** *** Printing floats *)

Fixpoint digits (count : nat) (num den : Z) : string :=
  match count with
  | O => ""
  | S count' =>
      if (num =? 0)%Z then ""
      else pretty (10 * num / den)%Z +:+ digits count' ((10 * num) mod den)%Z den
  end.

(** [str(x)] in positional notation, for the values that print so in
    Python (from [0.0001] up to sixteen digits before the point), with up
    to twelve decimals. *)
Definition print_float (x : float) : string :=
  match x with
  | NaN => "nan"
  | Fin q =>
      let a := Qabs q in
      let whole := Qfloor a in
      let rest := (Qnum a - whole * Z.pos (Qden a))%Z in
      (if Qltb q 0 then "-" else "")
      +:+ pretty whole +:+ "."
      +:+ (if (rest =? 0)%Z then "0" else digits 12 rest (Z.pos (Qden a)))
  end.

Definition three_digits (n : Z) : string :=
  if (n <? 10)%Z then "00" +:+ pretty n
  else if (n <? 100)%Z then "0" +:+ pretty n else pretty n.

(** [f"{x:.3f}"]: the double that [x] stands for, to three decimals, a tie
    going to the even digit. *)
Definition print_fmt3 (x : float) : string :=
  match x with
  | NaN => "nan"
  | Fin q =>
      let thousandths := half_even (Qabs (round64 q) * 1000) in
      (if Qltb q 0 then "-" else "")
      +:+ pretty (thousandths / 1000)%Z +:+ "." +:+ three_digits (thousandths mod 1000)%Z
  end.

(** *** Complete graphs

    The graphs of the reference library are the complete graphs, given by
    their nodes (distinct names): every two nodes are adjacent, so that every
    degree centrality is 1, no node lies between two others, and the greedy
    merging of communities ends with one community. *)

Definition complete_density (G : list string) : outcome float :=
  Ok (if (length G <=? 1)%nat then Fin 0 else Fin 1).

Definition complete_clustering (G : list string) : outcome float :=
  match G with
  | [] => Raise (ValueError "division by zero")
  | _ => Ok (if (length G <=? 2)%nat then Fin 0 else Fin 1)
  end.

Definition complete_communities (G : list string) : outcome (list (list string)) :=
  if (length G <=? 1)%nat then Raise (ValueError "division by zero") else Ok [G].

Definition complete_path (G : list string) (source target : string)
    : outcome (option (list string)) :=
  if existsb (String.eqb source) G && existsb (String.eqb target) G then
    Ok (Some (if String.eqb source target then [source] else [source; target]))
  else Raise (KeyError "node not in graph").

(** *** The label encoder: the sorted distinct classes *)

Fixpoint insert_class (s : string) (sorted : list string) : list string :=
  match sorted with
  | [] => [s]
  | c :: rest =>
      if String.eqb s c then sorted
      else if String.ltb s c then s :: sorted
      else c :: insert_class s rest
  end.

Fixpoint class_index (s : string) (classes : list string) : nat :=
  match classes with
  | [] => 0
  | c :: rest => if String.eqb s c then 0 else S (class_index s rest)
  end.

Definition encode (values : list string) : outcome (list string * list float) :=
  let classes := foldr insert_class [] values in
  Ok (classes, map (fun v => of_nat (class_index v classes)) values).

Definition as_datetime (c : Cell) : outcome Cell :=
  match c with
  | CTime t => Ok (CTime t)
  | CNone => Ok CNone
  | CNum NaN => Ok CNone
  | _ => unavailable
  end.

Definition library : Library := {|
  Estimator := Fitted;
  Scaler := list (float * float);
  Encoder := list string;
  isolation_forest_fit := fun p X => fit "IsolationForest" p X [];
  dbscan_fit := fun p X => fit "DBSCAN" p X [];
  predict := fun _ _ => unavailable;
  fit_predict := fun _ _ => unavailable;
  scaler_fit_transform := fit_transform;
  scaler_transform := transform;
  pd_quantile := quantile;
  np_percentile := percentile;
  stats_zscore := zscore;
  regressor_fit := fit;
  feature_importances := fun _ _ => [];
  select_valid := masked;
  mean_squared_error := mse;
  mean_absolute_error := mae;
  r2_score := r2;
  np_sqrt := sqrt;
  np_var := fun values => Ok (variance values);
  rng_permutation := permutation;
  to_datetime := as_datetime;
  dt_hour := hour;
  dt_dayofweek := dayofweek;
  dt_day := day;
  dt_month := month;
  cyc_sin := sin_cycle;
  cyc_cos := cos_cycle;
  float_str := print_float;
  float_fmt3 := print_fmt3;
  isoformat := iso;
  label_encoder_fit_transform := encode;
  np_std := fun values => Ok (std values);
  np_min := minimum;
  np_max := maximum;
  np_median := median;
  stats_linregress := fun _ _ => unavailable;
  silhouette_score := fun _ _ => unavailable;
  score_samples := fun _ _ => unavailable;
  Graph := list string;
  nx_nodes := fun G => G;
  nx_number_of_edges := fun G => (length G * (length G - 1) / 2)%nat;
  nx_density := complete_density;
  nx_average_clustering := complete_clustering;
  nx_degree_centrality := fun G => Ok (map (fun node => (node, Fin 1)) G);
  nx_betweenness_centrality := fun G => Ok (map (fun node => (node, Fin 0)) G);
  nx_greedy_modularity_communities := complete_communities;
  nx_shortest_path := complete_path;
  float_mul := mul64
|}.

End RefLib.

(** * Properties

    The vocabulary of the statements: what a computation preserves, what
    it returns, and the expected results the theorems compare the code to. *)

(** ** Computations *)

Section MonadProperties.
Context {S : Type}.

(** [preserves R m]: running [m] relates the state before to the state after,
    whether it returns or raises. *)
Definition preserves {A} (R : relation S) (m : M S A) : Prop :=
  forall s, R s (exec m s).

(** [no_raise m]: [m] always returns. *)
Definition no_raise {A} (m : M S A) : Prop :=
  forall s, exists a, eval m s = Ok a.

(** [returns P m]: whatever [m] returns satisfies [P]. *)
Definition returns {A} (P : A -> Prop) (m : M S A) : Prop :=
  forall s a, eval m s = Ok a -> P a.

(** [agree R m]: from states related by [R], [m] has the same outcome and
    leaves states related by [R]. *)
Definition agree {A} (R : relation S) (m : M S A) : Prop :=
  forall s1 s2, R s1 s2 -> eval m s1 = eval m s2 /\ R (exec m s1) (exec m s2).

(** [unchanged f]: the field [f] of the state is what it was. *)
Definition unchanged {A} (f : S -> A) : relation S := fun s s' => f s' = f s.

End MonadProperties.

(** A relation on the object, lifted to the object paired with a local. *)
Definition on_fst {A B} (R : relation A) : relation (A * B) :=
  fun p p' => R (fst p) (fst p').

(** ** The anomaly detector *)

Module AnomalyProperties.
Section Properties.
Context {L : Library}.
Import AnomalyDetection.

(** What inference on [metric_name] may change: the scaler stored under
    ["standard"] and the density model of the metric, which stays present. *)
Definition inference_frame (metric_name : string) : relation AnomalyDetectionModel :=
  fun s s' =>
    config s' = config s /\
    thresholds s' = thresholds s /\
    is_trained s' = is_trained s /\
    last_training s' = last_training s /\
    (forall k, k <> "standard" -> scalers s' !! k = scalers s !! k) /\
    (forall k, k <> dbscan_key metric_name -> models s' !! k = models s !! k) /\
    (is_Some (models s' !! dbscan_key metric_name)
       <-> is_Some (models s !! dbscan_key metric_name)).

(** [preprocess_data] returns the local frame and keeps the local [self]. *)
Definition preprocess_run (data : DataFrame) (s : AnomalyDetectionModel) : Local :=
  exec (try_catch preprocess_body (fun _ => ret tt)) (s, data).

(** The answer of the [try] block, from the merged findings. *)
Definition ensemble_result (cfg : Config) (found : Found) : DetectionResult :=
  let filtered_anomalies :=
    filter (fun a => fge (a_confidence a) (confidence_threshold cfg) = true) (fst found) in
  {| r_anomalies := filtered_anomalies;
     r_confidence := match snd found with [] => Fin 0 | _ => np_mean (snd found) end;
     r_method := "ensemble";
     r_error := None;
     r_total_detected := Some (length (fst found));
     r_filtered_count := Some (length filtered_anomalies) |}.

(** A z-score finding carries the threshold stored for its column, or 3.0
    where none is stored; the other statistical findings are IQR findings. *)
Definition statistical_finding (s : AnomalyDetectionModel) (m : string) (a : Anomaly) : Prop :=
  (a_method a = "z_score" /\
   exists column value z,
     a_details a =
     Some (mkDetails column value (Some z)
             (default (Fin 3) (thresholds s !! z_score_key m column)))) \/
  (a_method a = "iqr" /\ a_confidence a = Fin 0.75).

Definition keeps (P : Anomaly -> Prop) : relation (list Anomaly) :=
  fun acc acc' => Forall P acc -> Forall P acc'.

Definition shrinks : relation Local :=
  fun p p' => (len (snd p') <= len (snd p))%nat.

Definition same_input : relation Local :=
  fun p p' => config (fst p) = config (fst p') /\ snd p = snd p'.

(** The frame [preprocess_data] makes of [data] under a configuration. *)
Definition preprocessed (cfg : Config) (data : DataFrame) : DataFrame :=
  snd (preprocess_run data (mkModel cfg ∅ ∅ ∅ false None)).

(** The constructor arguments are configured and the fit succeeds. *)
Definition isolation_forest_fitted (cfg : Config) (X : matrix) (est : Estimator) : Prop :=
  exists contamination random_state n_estimators,
    isolation_forest cfg !! "contamination" = Some contamination /\
    isolation_forest cfg !! "random_state" = Some random_state /\
    isolation_forest cfg !! "n_estimators" = Some n_estimators /\
    isolation_forest_fit
      {[ "contamination" := contamination; "random_state" := random_state;
         "n_estimators" := n_estimators ]} X = Ok est.

Definition dbscan_fitted (cfg : Config) (X : matrix) (est : Estimator) : Prop :=
  exists eps min_samples,
    dbscan cfg !! "eps" = Some eps /\
    dbscan cfg !! "min_samples" = Some min_samples /\
    dbscan_fit {[ "eps" := eps; "min_samples" := min_samples ]} X = Ok est.

End Properties.
End AnomalyProperties.

(** ** The predictive scaler *)

Module ScalingProperties.
Section Properties.
Context {L : Library}.
Import PredictiveScaling.

(** The seven thresholds, [NaN] standing for one that is not configured. *)
Definition threshold (self : PredictiveScalingModel) (key : string) : float :=
  default NaN (scaling_thresholds (config self) !! key).

Definition thresholds_configured (self : PredictiveScalingModel) : Prop :=
  forall key,
    key ∈ ["cpu_high"; "cpu_low"; "memory_high"; "memory_low";
           "response_time_high"; "response_time_low"; "throughput_low"] ->
    is_Some (scaling_thresholds (config self) !! key).

(** Above the high threshold: scale up; below the low one: scale down;
    otherwise nothing. *)
Definition band (high low pred_value : float) : option string :=
  if fgt pred_value high then Some "scale_up"
  else if flt pred_value low then Some "scale_down"
  else None.

(** Throughput has the low threshold only, and scales up below it. *)
Definition floor_only (low pred_value : float) : option string :=
  if flt pred_value low then Some "scale_up" else None.

Definition expected_action (self : PredictiveScalingModel) (target : string)
    (pred_value : float) : option string :=
  if String.eqb target "cpu_usage" then
    band (threshold self "cpu_high") (threshold self "cpu_low") pred_value
  else if String.eqb target "memory_usage" then
    band (threshold self "memory_high") (threshold self "memory_low") pred_value
  else if String.eqb target "response_time" then
    band (threshold self "response_time_high") (threshold self "response_time_low") pred_value
  else if String.eqb target "throughput" then
    floor_only (threshold self "throughput_low") pred_value
  else None.

(** What a recommendation says, without its wording. *)
Definition outline (r : Recommendation) : nat * float * option string :=
  (rec_hour r, rec_predicted_value r, rec_action r).

Definition expected_outline (self : PredictiveScalingModel) (target : string)
    (entry : nat * float) : option (nat * float * option string) :=
  (fun action => (S (fst entry), snd entry, Some action))
    <$> expected_action self target (snd entry).

(** The timestamps of the training rows and of the test rows: the split of
    the engineered frame, which still has its [timestamp] column. *)
Definition partition_times (cfg : Config) (data : DataFrame)
    : outcome (list Cell * list Cell) :=
  match engineer_features data with
  | Raise e => Raise e
  | Ok engineered =>
      match train_test_split engineered engineered (test_size cfg) (random_state cfg) with
      | Raise e => Raise e
      | Ok (train, test, _, _) =>
          Ok (column_cells "timestamp" train, column_cells "timestamp" test)
      end
  end.

Definition time_ordered (times : list Cell * list Cell) : Prop :=
  forall t t', CTime t ∈ fst times -> CTime t' ∈ snd times -> (t <= t')%Z.

(** The estimators held for a target, in the order in which
    [predict_scaling_needs] asks them. *)
Definition stored_models (self : PredictiveScalingModel) (target : string)
    : list Estimator :=
  omap (fun model_name => models self !! (model_name +:+ "_" +:+ target))
       ["random_forest"; "gradient_boosting"; "linear_regression"].

(** [values] is the mean, position by position, of what the estimators held
    for [target] predict from the matrix [X]. *)
Definition predicted_from (self : PredictiveScalingModel) (X : matrix)
    (target : string) (values : list float) : Prop :=
  exists forecasts,
    Forall2 (fun model forecast => predict model X = Ok forecast)
            (stored_models self target) forecasts /\
    ensemble_mean forecasts = Ok values.

End Properties.
End ScalingProperties.

(** ** The root-cause analyzer *)

Module RootCauseProperties.
Section Properties.
Context {L : Library}.
Import RootCauseAnalysis.

Definition finite (x : float) : Prop := exists q, x = Fin q.

(** [b] does not come before [a] in descending order. *)
Definition not_below {A} (key : A -> float) (a b : A) : Prop := fle (key b) (key a) = true.

Definition preprocess_run (data : DataFrame) (s : RootCauseAnalysisModel)
    : RootCauseAnalysisModel * DataFrame :=
  exec (try_catch preprocess_body (fun _ => ret tt)) (s, data).

Definition pattern_run (data : DataFrame) (s : RootCauseAnalysisModel)
    : RootCauseAnalysisModel * Level2 :=
  exec (try_catch (pattern_body data) (fun _ => ret tt)) (s, mkLevel2 None None None).

(** The first two steps of [analyze_root_cause]: the incident data
    preprocessed and analysed on the three levels. *)
Definition analysed (incident_data : DataFrame) (incident_metrics : IncidentMetrics)
    : M RootCauseAnalysisModel AnalysisResults :=
  let! processed_data := preprocess_incident_data (copy incident_data) in
  _perform_multi_level_analysis processed_data incident_metrics.

(** The product of a confidence between 0 and 1 and a severity weight is a
    number: it does not overflow. *)
Definition scores_are_numbers : Prop :=
  forall c, (0 <= c)%Q -> (c <= 1)%Q ->
    finite (float_mul (Fin c) (Fin 1)) /\
    finite (float_mul (Fin c) (Fin 2)) /\
    finite (float_mul (Fin c) (Fin 3)).

(** The product is that of the number [c], whatever fraction stands for
    it. *)
Definition product_of_value : Prop :=
  forall c1 c2 w, (c1 == c2)%Q -> float_mul (Fin c1) w = float_mul (Fin c2) w.

(** The three weights give three different scores to the confidence [c], in
    the order of the weights; binary64 products do so for every positive
    confidence. *)
Definition separates (c : float) : Prop :=
  flt (float_mul c (Fin 1)) (float_mul c (Fin 2)) = true /\
  flt (float_mul c (Fin 2)) (float_mul c (Fin 3)) = true.

End Properties.
End RootCauseProperties.

(** ** Persistence *)

Module PersistenceProperties.
Section Properties.
Context {L : Library}.
Import Persistence.

(** What [load_models] leaves in an anomaly detector, by what the file
    holds. *)
Definition anomaly_loaded (fs : FileSystem) (filepath : string)
    (self : AnomalyDetection.AnomalyDetectionModel) : AnomalyDetection.AnomalyDetectionModel :=
  match joblib_load fs filepath with
  | Raise _ => AnomalyDetection.set_is_trained false self
  | Ok (AnomalyBundle b) => b
  | Ok other =>
      AnomalyDetection.set_is_trained false
        (Anomaly.put_scalers (bundle_scalers other)
           (Anomaly.put_models (bundle_models other) self))
  end.

Definition scaling_loaded (fs : FileSystem) (filepath : string)
    (self : PredictiveScaling.PredictiveScalingModel)
    : PredictiveScaling.PredictiveScalingModel :=
  match joblib_load fs filepath with
  | Raise _ => PredictiveScaling.set_is_trained false self
  | Ok (ScalingBundle b) => b
  | Ok other =>
      PredictiveScaling.set_is_trained false
        (Scaling.put_scalers (bundle_scalers other)
           (Scaling.put_models (bundle_models other) self))
  end.

Definition root_cause_loaded (fs : FileSystem) (filepath : string)
    (self : RootCauseAnalysis.RootCauseAnalysisModel)
    : RootCauseAnalysis.RootCauseAnalysisModel :=
  match joblib_load fs filepath with
  | Raise _ => RootCauseAnalysis.set_is_trained false self
  | Ok (RootCauseBundle b) => b
  | Ok other =>
      RootCauseAnalysis.set_is_trained false
        (RootCause.put_scalers (bundle_scalers other)
           (RootCause.put_models (bundle_models other) self))
  end.

End Properties.
End PersistenceProperties.

Module AnomalyResultProperties.
Section Properties.
Context {L : Library}.
Import AnomalyDetection.

(** The four detectors of the ensemble. *)
Definition methods : list string := ["isolation_forest"; "dbscan"; "z_score"; "iqr"].

(** A finding names a row of the batch, carries that row's timestamp and
    values, comes from one of the four detectors and has a confidence of at
    most 0.9. *)
Definition finding_of (data : DataFrame) (a : Anomaly) : Prop :=
  exists row,
    df_rows data !! a_index a = Some row /\
    a_timestamp a = row_get data row "timestamp" /\
    a_metric_values a = to_dict data row /\
    fle (a_confidence a) (Fin 0.9) = true /\
    a_method a ∈ methods.

End Properties.
End AnomalyResultProperties.

Module AnomalyTrainingProperties.
Section Properties.
Context {L : Library}.
Import AnomalyDetection.

(** The configuration is what it was and no entry of the three dictionaries
    has gone. *)
Definition grows : relation AnomalyDetectionModel :=
  fun s s' =>
    config s' = config s /\
    dom (models s) ⊆ dom (models s') /\
    dom (scalers s) ⊆ dom (scalers s') /\
    dom (thresholds s) ⊆ dom (thresholds s').

(** The local frame has the columns it had and no more rows. *)
Definition narrows : relation Local :=
  fun p p' =>
    df_schema (snd p') = df_schema (snd p) /\ (len (snd p') <= len (snd p))%nat.

End Properties.
End AnomalyTrainingProperties.

Module ScalingMoreProperties.
Section Properties.
Context {L : Library}.
Import PredictiveScaling.

(** The priority that goes with an action, by target. *)
Definition priority_of (target action : string) : string :=
  if String.eqb action "scale_up" then
    if String.eqb target "throughput" then "medium" else "high"
  else if String.eqb target "response_time" then "low" else "medium".

(** The key of the threshold that decides an action for a target. *)
Definition threshold_key (target action : string) : string :=
  if String.eqb target "cpu_usage" then
    if String.eqb action "scale_up" then "cpu_high" else "cpu_low"
  else if String.eqb target "memory_usage" then
    if String.eqb action "scale_up" then "memory_high" else "memory_low"
  else if String.eqb target "response_time" then
    if String.eqb action "scale_up" then "response_time_high" else "response_time_low"
  else "throughput_low".

(** The comparison that decides an action: a value above the high threshold
    scales up, a value below the low threshold scales down; for throughput
    a value below the low threshold scales up. *)
Definition passes (target action : string) (value threshold : float) : bool :=
  if String.eqb action "scale_up" && negb (String.eqb target "throughput")
  then fgt value threshold
  else flt value threshold.

(** What [recommend] says of the entry of hour [hour] with value [value]:
    the target, the hour and the value, an action with its priority, the
    threshold configured under the key of the action, which the value
    passed, and one line of reasoning; throughput is never scaled down. *)
Definition made_from (self : PredictiveScalingModel) (target : string)
    (hour : nat) (value : float) (r : Recommendation) : Prop :=
  rec_target r = target /\
  rec_hour r = hour /\
  rec_predicted_value r = value /\
  (exists action,
     rec_action r = Some action /\
     (action = "scale_up" \/ action = "scale_down" /\ target <> "throughput") /\
     rec_priority r = priority_of target action) /\
  (exists action threshold,
     rec_action r = Some action /\
     rec_threshold r = Some threshold /\
     scaling_thresholds (config self) !! threshold_key target action = Some threshold /\
     passes target action value threshold = true) /\
  length (rec_reasoning r) = 1%nat /\
  target ∈ ["cpu_usage"; "memory_usage"; "response_time"; "throughput"].

(** A recommendation made for [target] from the forecast [values]: it is for
    one of the hours, with the value forecast for that hour, an action, the
    threshold that the value passed, the priority of the action and one line
    of reasoning; throughput is never scaled down. *)
Definition recommendation_of (self : PredictiveScalingModel) (target : string)
    (values : list float) (r : Recommendation) : Prop :=
  rec_target r = target /\
  (1 <= rec_hour r <= length values)%nat /\
  values !! (rec_hour r - 1)%nat = Some (rec_predicted_value r) /\
  (exists action,
     rec_action r = Some action /\
     (action = "scale_up" \/ action = "scale_down" /\ target <> "throughput") /\
     rec_priority r = priority_of target action) /\
  (exists action threshold,
     rec_action r = Some action /\
     rec_threshold r = Some threshold /\
     scaling_thresholds (config self) !! threshold_key target action = Some threshold /\
     passes target action (rec_predicted_value r) threshold = true) /\
  length (rec_reasoning r) = 1%nat /\
  target ∈ ["cpu_usage"; "memory_usage"; "response_time"; "throughput"].

(** The hours of a list of recommendations go up strictly. *)
Definition hours_increase (recommendations : list Recommendation) : Prop :=
  StronglySorted lt (map rec_hour recommendations).

Definition all_keep {A} (P : A -> Prop) : relation (list A) :=
  fun acc acc' => Forall P acc -> Forall P acc'.

(** Whether a name has an underscore in it. *)
Fixpoint has_underscore (s : string) : bool :=
  match s with
  | EmptyString => false
  | String c rest => Ascii.eqb c "_"%char || has_underscore rest
  end.

End Properties.
End ScalingMoreProperties.

Module ScalingEvaluationProperties.
Section Properties.
Context {L : Library}.
Import PredictiveScaling.

(** The four scores of one model on the test rows. *)
Definition score_of (X_test : matrix) (y_test : list float) (model : Estimator)
    : outcome Metrics :=
  match predict model X_test with
  | Raise e => Raise e
  | Ok y_pred =>
      match mean_squared_error y_test y_pred with
      | Raise e => Raise e
      | Ok mse =>
          match mean_absolute_error y_test y_pred with
          | Raise e => Raise e
          | Ok mae =>
              match r2_score y_test y_pred with
              | Raise e => Raise e
              | Ok r2 => Ok (mkMetrics mse mae r2 (np_sqrt mse))
              end
          end
      end
  end.

(** The scores of the models in turn, up to the first that cannot be
    scored. *)
Fixpoint scored (X_test : matrix) (y_test : list float)
    (entries : list (string * Estimator)) : list (string * Metrics) :=
  match entries with
  | [] => []
  | (name, model) :: rest =>
      match score_of X_test y_test model with
      | Ok metrics => (name, metrics) :: scored X_test y_test rest
      | Raise _ => []
      end
  end.

End Properties.
End ScalingEvaluationProperties.

Module RootCauseMoreProperties.
Section Properties.
Context {L : Library}.
Import RootCauseAnalysis.

(** The names that [_perform_multi_level_analysis] leaves on the path. *)
Definition levels : list string :=
  ["statistical_analysis"; "pattern_recognition"; "dependency_analysis"].

(** The five kinds of hypothesis: the type fixes the severity and bounds the
    confidence. *)
Definition hypothesis_kind (h : RootCauseHypothesis) : Prop :=
  h_weighted_score h = None /\
  ((h_type h = "statistical_outlier" /\ h_severity h = "medium" /\
    fle (h_confidence h) (Fin 0.8) = true) \/
   (h_type h = "trend_anomaly" /\ h_severity h = "low" /\
    fle (h_confidence h) (Fin 0.7) = true) \/
   (h_type h = "ai_anomaly" /\ h_metric h = "multiple" /\ h_severity h = "high" /\
    fle (h_confidence h) (Fin 0.9) = true) \/
   (h_type h = "pattern_instability" /\ h_metric h = "clustering" /\
    h_severity h = "medium" /\ h_confidence h = Fin 0.6) \/
   (h_type h = "dependency_bottleneck" /\ h_severity h = "high" /\
    h_confidence h = Fin 0.8)).

(** No item is followed by one of a strictly greater key. *)
Fixpoint descending {A} (key : A -> float) (items : list A) : Prop :=
  match items with
  | [] => True
  | x :: rest =>
      match rest with
      | [] => True
      | y :: _ => flt (key x) (key y) = false
      end /\ descending key rest
  end.

End Properties.
End RootCauseMoreProperties.

Module FeatureProperties.
Section Properties.
Context {L : Library}.
Import PredictiveScaling.

(** Every row has one cell for each column, as in any pandas frame. *)
Definition rectangular (data : DataFrame) : Prop :=
  Forall (fun row => length row = length (df_schema data)) (df_rows data).

(** A frame after assignments [data[name] = values] to columns named in
    [names]. *)
Inductive assigned (names : list string) (data : DataFrame) : DataFrame -> Prop :=
| assigned_refl : assigned names data data
| assigned_step data' name dtype values :
    assigned names data data' ->
    existsb (String.eqb name) names = true ->
    assigned names data (set_column name dtype values data').

(** The rows before position [k] hold [NaN] in the column [name]. *)
Definition nan_until (k : nat) (name : string) (data : DataFrame) : Prop :=
  exists j,
    col_index name (df_schema data) = Some j /\
    forall i row, (i < k)%nat -> df_rows data !! i = Some row -> row !! j = Some (CNum NaN).

(** The columns that [prepare_features] adds. *)
Definition cyclical_names : list string :=
  ["hour_sin"; "hour_cos"; "day_sin"; "day_cos"; "month_sin"; "month_cos"].

Definition engineered_names : list string :=
  ["hour"; "day_of_week"; "day_of_month"; "month"; "is_weekend"; "is_business_hour"]
  ++ flat_map (fun feature =>
                 map (String.append feature)
                     ["_lag_1h"; "_lag_2h"; "_lag_3h"; "_lag_6h"; "_lag_12h"; "_lag_24h";
                      "_rolling_1h_mean"; "_rolling_6h_mean"; "_rolling_24h_mean";
                      "_rolling_6h_std"; "_rolling_24h_std"; "_rolling_6h_min";
                      "_rolling_6h_max"; "_trend_6h"; "_trend_24h"])
              lag_features
  ++ cyclical_names.

(** The frame of [prepare_features] before [dropna], from the parsed
    timestamps. *)
Definition engineered_from (ts : list Cell) (data : DataFrame) : DataFrame :=
  add_cyclical
    (foldl add_trends
       (foldl add_rolling
          (foldl add_lags
             (add_time_features
                (sort_values "timestamp" (set_column "timestamp" DDatetime ts data)))
             lag_features)
          lag_features)
       lag_features).

End Properties.
End FeatureProperties.

Module EngineProperties.
Section Properties.
Context {L : Library}.
Import Persistence PersistenceProperties Engine.

(** The names of the components, in the order of every loop over them. *)
Definition model_names : list string :=
  ["anomaly_detection"; "predictive_scaling"; "root_cause_analysis"].

(** Whether the storage directory has a file for a component. *)
Definition saved (storage : string) (fs : FileSystem) (model_name : string) : bool :=
  path_exists fs (model_path storage model_name).

(** The components after each one whose file exists has loaded it. *)
Definition loaded_from (storage : string) (fs : FileSystem) (models : AIModels) : AIModels :=
  mkModels
    (if saved storage fs "anomaly_detection" then
       anomaly_loaded fs (model_path storage "anomaly_detection") (anomaly_detection models)
     else anomaly_detection models)
    (if saved storage fs "predictive_scaling" then
       scaling_loaded fs (model_path storage "predictive_scaling") (predictive_scaling models)
     else predictive_scaling models)
    (if saved storage fs "root_cause_analysis" then
       root_cause_loaded fs (model_path storage "root_cause_analysis")
         (root_cause_analysis models)
     else root_cause_analysis models).

End Properties.
End EngineProperties.

(** * Examples

    Concrete inputs, evaluated with the reference library. *)

Module AnomalyExamples.
Import AnomalyDetection.

(** A frame with one numeric column. *)
Definition series (column : string) (values : list Q) : DataFrame :=
  mkDF [(column, DNumber)] (map (fun q => [CNum (Fin q)]) values).

Definition short_series : DataFrame := series "cpu_usage" [1; 3]%Q.
Definition long_series : DataFrame :=
  series "memory_usage" [1; 3; 1; 3; 1; 3; 1; 3; 1; 3; 1; 3]%Q.
Definition batch (column : string) : DataFrame := series column [0; 0; 0; 0; 10]%Q.

Definition t0 : datetime := 1700000000%Z.

Definition fresh : AnomalyDetectionModel := init (L := RefLib.library) no_config.

(** Trained on two rows of [cpu_usage]. *)
Definition trained_short : AnomalyDetectionModel :=
  exec (train_models (L := RefLib.library) [("cpu_usage", short_series)] t0) fresh.

(** Trained on twelve rows of [memory_usage]. *)
Definition trained_long : AnomalyDetectionModel :=
  exec (train_models (L := RefLib.library) [("memory_usage", long_series)] t0) fresh.

End AnomalyExamples.

Module ScalingExamples.
Import PredictiveScaling.

(** One sample per hour from 2024-01-01 00:00. *)
Definition hourly_row (i : nat) : list Cell :=
  [ CTime (1704067200 + 3600 * Z.of_nat i);
    CNum (Fin (inject_Z (40 + Z.of_nat (i mod 5))));
    CNum (Fin 60);
    CNum (Fin 200);
    CNum (Fin (inject_Z (150 + Z.of_nat i))) ].

Definition hourly (n : nat) : DataFrame :=
  mkDF [("timestamp", DDatetime); ("cpu_usage", DNumber); ("memory_usage", DNumber);
        ("response_time", DNumber); ("throughput", DNumber)]
       (map hourly_row (seq 0 n)).

Definition fresh : PredictiveScalingModel := init (L := RefLib.library) no_config.

(** The split that [train_models] makes of 101 hourly samples. *)
Definition split_101 :=
  match training_split (L := RefLib.library) (config fresh) (hourly 101) with
  | Ok parts => parts
  | Raise _ => (mkDF [] [], mkDF [] [], mkDF [] [], mkDF [] [], [], [])
  end.

End ScalingExamples.

Module RootCauseExamples.
Import RootCauseAnalysis.

(** Level 3 over a complete graph on four metrics: every degree centrality
    is 1. *)
Definition complete_graph_results : AnalysisResults :=
  mkResults [] (mkLevel2 None None None)
    (mkLevel3 None
       (Some (mkCentral [("cpu_usage", Fin 1); ("memory_usage", Fin 1);
                         ("response_time", Fin 1); ("throughput", Fin 1)] []))
       None None)
    ["statistical_analysis"; "pattern_recognition"; "dependency_analysis"].

(** An analyzer whose bundle says it is trained. *)
Definition loaded : RootCauseAnalysisModel :=
  set_is_trained true (init (L := RefLib.library) no_config).

(** Three hypotheses as they are generated, without a score: an outlier of
    confidence 0.3, the model's anomalies of confidence 0.2 and a trend of
    confidence 0.5. *)
Definition unranked : list RootCauseHypothesis :=
  [ mkHypothesis "statistical_outlier" "cpu_usage" (Fin 0.3)
      "3 outliers detected" "medium" None;
    mkHypothesis "ai_anomaly" "multiple" (Fin 0.2)
      "2 AI-detected anomalies" "high" None;
    mkHypothesis "trend_anomaly" "memory_usage" (Fin 0.5)
      "Strong trend detected" "low" None ].

(** A trained analyzer that returns two root causes at most and holds the
    complete correlation graph on four metrics. *)
Definition correlated : RootCauseAnalysisModel := {|
  config := merge_config default_config
              (mkUserConfig None None None None None None None (Some 2%Z) None);
  models := ∅;
  scalers := ∅;
  encoders := ∅;
  correlation_graph :=
    Some (["cpu_usage"; "memory_usage"; "response_time"; "throughput"]
          : Graph (Library := RefLib.library));
  is_trained := true;
  last_training := Some 1700000000%Z;
  analysis_history := []
|}.

End RootCauseExamples.

Module PersistenceExamples.
Import Persistence.

(** A disk with no file, where every path can be written. *)
Definition empty_disk : FileSystem (L := RefLib.library) := mkFS ∅ ∅.


(** The file the detector trained on twelve rows writes. *)
Definition anomaly_file : FileSystem :=
  exec (Anomaly.save_models (L := RefLib.library) AnomalyExamples.trained_long
          "anomaly.joblib")
       empty_disk.

End PersistenceExamples.

Module AnomalyTrainingExamples.
Import AnomalyDetection AnomalyExamples.

(** A detector configured with a z-score threshold only: the user's
    [statistical] entry replaces the default one, multiplier included. *)
Definition without_multiplier : AnomalyDetectionModel :=
  init (L := RefLib.library)
    (mkUserConfig None None (Some {[ "z_score_threshold" := Fin 2 ]}) None None None).

Definition no_rows : DataFrame := series "cpu_usage" [].

End AnomalyTrainingExamples.

Module ScalingMoreExamples.
Import PredictiveScaling ScalingExamples.

(** Hourly samples without their [timestamp] column. *)
Definition untimed : DataFrame :=
  mkDF [("cpu_usage", DNumber)] [[CNum (Fin 40)]; [CNum (Fin 41)]].

(** A scaler whose bundle says it is trained. *)
Definition loaded : PredictiveScalingModel := set_is_trained true fresh.

End ScalingMoreExamples.

Module EngineExamples.
Import Persistence Engine.

(** A storage directory whose only file, the anomaly detector's, cannot be
    unpickled. *)
Definition damaged_disk : FileSystem (L := RefLib.library) :=
  mkFS {[ "/app/models/storage/anomaly_detection.joblib" := Unreadable ]} ∅.

End EngineExamples.

(** * Facts *)

(** ** Reasoning about monadic code *)

Section MonadFacts.
Context {S : Type}.

Lemma exec_bind {A B} (m : M S A) (k : A -> M S B) s :
  exec (bind m k) s =
  match eval m s with
  | Ok a => exec (k a) (exec m s)
  | Raise _ => exec m s
  end.
Proof. unfold exec, eval, bind. destruct (m s) as [[a|e] s']; reflexivity. Qed.

Lemma eval_bind {A B} (m : M S A) (k : A -> M S B) s :
  eval (bind m k) s =
  match eval m s with
  | Ok a => eval (k a) (exec m s)
  | Raise e => Raise e
  end.
Proof. unfold exec, eval, bind. destruct (m s) as [[a|e] s']; reflexivity. Qed.

Lemma exec_try_catch {A} (m : M S A) (h : exn -> M S A) s :
  exec (try_catch m h) s =
  match eval m s with
  | Ok _ => exec m s
  | Raise e => exec (h e) (exec m s)
  end.
Proof. unfold exec, eval, try_catch. destruct (m s) as [[a|e] s']; reflexivity. Qed.

Lemma eval_try_catch {A} (m : M S A) (h : exn -> M S A) s :
  eval (try_catch m h) s =
  match eval m s with
  | Ok a => Ok a
  | Raise e => eval (h e) (exec m s)
  end.
Proof. unfold exec, eval, try_catch. destruct (m s) as [[a|e] s']; reflexivity. Qed.

Section Preserves.
Context (R : relation S) `{!PreOrder R}.

Lemma preserves_ret {A} (a : A) : preserves R (ret a).
Proof. intros s. reflexivity. Qed.

Lemma preserves_raise {A} e : preserves R (@raise S A e).
Proof. intros s. reflexivity. Qed.

Lemma preserves_lift {A} (o : outcome A) : preserves R (lift o).
Proof. intros s. reflexivity. Qed.

Lemma preserves_get : preserves R get.
Proof. intros s. reflexivity. Qed.

Lemma preserves_gets {A} (f : S -> A) : preserves R (gets f).
Proof. intros s. reflexivity. Qed.

Lemma preserves_subscript {V} (d : gmap string V) k : preserves R (subscript d k).
Proof. intros s. unfold subscript. destruct (d !! k); reflexivity. Qed.

Lemma preserves_modify (f : S -> S) : (forall s, R s (f s)) -> preserves R (modify f).
Proof. intros H s. apply H. Qed.

Lemma preserves_bind {A B} (m : M S A) (k : A -> M S B) :
  preserves R m -> (forall a, preserves R (k a)) -> preserves R (bind m k).
Proof.
  intros Hm Hk s. rewrite exec_bind. destruct (eval m s) as [a|e].
  - etransitivity; [apply Hm | apply Hk].
  - apply Hm.
Qed.

Lemma preserves_try_catch {A} (m : M S A) (h : exn -> M S A) :
  preserves R m -> (forall e, preserves R (h e)) -> preserves R (try_catch m h).
Proof.
  intros Hm Hh s. rewrite exec_try_catch. destruct (eval m s) as [a|e].
  - apply Hm.
  - etransitivity; [apply Hm | apply Hh].
Qed.

Lemma preserves_for_each {A} (l : list A) (body : A -> M S unit) :
  (forall x, x ∈ l -> preserves R (body x)) -> preserves R (for_each l body).
Proof.
  induction l as [|x l IH]; intros H; simpl.
  - apply preserves_ret.
  - apply preserves_bind.
    + apply H. left.
    + intros _. apply IH. intros y Hy. apply H. right. exact Hy.
Qed.

Lemma preserves_fold_m {A B} (f : B -> A -> M S B) (l : list A) (acc : B) :
  (forall b x, preserves R (f b x)) -> preserves R (fold_m f l acc).
Proof.
  intros H. revert acc. induction l as [|x l IH]; intros acc; simpl.
  - apply preserves_ret.
  - apply preserves_bind; [apply H | intros b; apply IH].
Qed.

End Preserves.

Lemma no_raise_ret {A} (a : A) : no_raise (@ret S A a).
Proof. intros s. eexists. reflexivity. Qed.

Lemma no_raise_gets {A} (f : S -> A) : no_raise (gets f).
Proof. intros s. eexists. reflexivity. Qed.

Lemma no_raise_modify (f : S -> S) : no_raise (modify f).
Proof. intros s. eexists. reflexivity. Qed.

Lemma no_raise_bind {A B} (m : M S A) (k : A -> M S B) :
  no_raise m -> (forall a, no_raise (k a)) -> no_raise (bind m k).
Proof.
  intros Hm Hk s. rewrite eval_bind. destruct (Hm s) as [a ->]. apply Hk.
Qed.

Lemma no_raise_try_catch {A} (m : M S A) (h : exn -> M S A) :
  (forall e, no_raise (h e)) -> no_raise (try_catch m h).
Proof.
  intros Hh s. rewrite eval_try_catch. destruct (eval m s) as [a|e].
  - eexists. reflexivity.
  - apply Hh.
Qed.

Lemma no_raise_for_each {A} (l : list A) (body : A -> M S unit) :
  (forall x, no_raise (body x)) -> no_raise (for_each l body).
Proof.
  intros H. induction l as [|x l IH]; simpl.
  - apply no_raise_ret.
  - apply no_raise_bind; [apply H | intros _; apply IH].
Qed.

End MonadFacts.

Global Instance on_fst_preorder {A B} (R : relation A) `{!PreOrder R} :
  PreOrder (@on_fst A B R).
Proof.
  split.
  - intros p. unfold on_fst. reflexivity.
  - intros p q r. unfold on_fst. intros. etransitivity; eauto.
Qed.

(** Breaks a goal about a [preserves] down to its state-changing leaves. *)
Ltac frame_step :=
  lazymatch goal with
  | |- PreOrder _ => typeclasses eauto
  | |- preserves _ (bind _ _) => apply preserves_bind; [| | intros ?]
  | |- preserves _ (try_catch _ _) => apply preserves_try_catch; [| | intros ?]
  | |- preserves _ (ret _) => apply preserves_ret
  | |- preserves _ (raise _) => apply preserves_raise
  | |- preserves _ (lift _) => apply preserves_lift
  | |- preserves _ (gets _) => apply preserves_gets
  | |- preserves _ get => apply preserves_get
  | |- preserves _ (subscript _ _) => apply preserves_subscript
  | |- preserves _ (for_each _ _) => apply preserves_for_each; [| intros ? ?]
  | |- preserves _ (fold_m _ _ _) => apply preserves_fold_m; [| intros ? ?]
  | |- preserves _ (if ?b then _ else _) => destruct b
  | |- preserves _ (match ?x with _ => _ end) => destruct x
  end.

Ltac frame := repeat frame_step.

(** ** What a computation returns, and runs that agree *)

Section MoreMonadFacts.
Context {S : Type}.

Lemma returns_ret {A} (P : A -> Prop) a : P a -> returns P (@ret S A a).
Proof. intros H s b E. unfold eval, ret in E. simpl in E. congruence. Qed.

Lemma returns_raise {A} (P : A -> Prop) e : returns P (@raise S A e).
Proof. intros s b E. discriminate. Qed.

Lemma returns_bind {A B} (P : B -> Prop) (m : M S A) (k : A -> M S B) :
  (forall a, returns P (k a)) -> returns P (bind m k).
Proof.
  intros H s b E. rewrite eval_bind in E. destruct (eval m s) as [a|e]; [|discriminate].
  eapply H, E.
Qed.

Lemma returns_try_catch {A} (P : A -> Prop) (m : M S A) (h : exn -> M S A) :
  returns P m -> (forall e, returns P (h e)) -> returns P (try_catch m h).
Proof.
  intros Hm Hh s a E. rewrite eval_try_catch in E.
  destruct (eval m s) as [a'|e] eqn:Em.
  - inversion E; subst. eapply Hm, Em.
  - eapply Hh, E.
Qed.

(** The rule for [bind] that lets the rest depend on what was returned. *)
Lemma preserves_bind_returns {A B} (R : relation S) `{!PreOrder R} (P : A -> Prop)
    (m : M S A) (k : A -> M S B) :
  returns P m -> preserves R m -> (forall a, P a -> preserves R (k a)) ->
  preserves R (bind m k).
Proof.
  intros Hr Hm Hk s. rewrite exec_bind. destruct (eval m s) as [a|e] eqn:E.
  - etransitivity; [apply Hm | apply Hk; eapply Hr, E].
  - apply Hm.
Qed.

Section Agree.
Context (R : relation S).

Lemma agree_ret {A} (a : A) : agree R (ret a).
Proof. intros s1 s2 H. split; [reflexivity | exact H]. Qed.

Lemma agree_lift {A} (o : outcome A) : agree R (lift o).
Proof. intros s1 s2 H. split; [reflexivity | exact H]. Qed.

Lemma agree_subscript {V} (d : gmap string V) k : agree R (subscript d k).
Proof. intros s1 s2 H. unfold subscript. destruct (d !! k); split; auto. Qed.

Lemma agree_gets {A} (f : S -> A) :
  (forall s1 s2, R s1 s2 -> f s1 = f s2) -> agree R (gets f).
Proof. intros Hf s1 s2 H. split; [|exact H]. unfold eval, gets. simpl. f_equal. auto. Qed.

Lemma agree_modify (f : S -> S) :
  (forall s1 s2, R s1 s2 -> R (f s1) (f s2)) -> agree R (modify f).
Proof. intros Hf s1 s2 H. split; [reflexivity | apply Hf, H]. Qed.

Lemma agree_bind {A B} (m : M S A) (k : A -> M S B) :
  agree R m -> (forall a, agree R (k a)) -> agree R (bind m k).
Proof.
  intros Hm Hk s1 s2 H. destruct (Hm s1 s2 H) as [E H'].
  rewrite !eval_bind, !exec_bind, <- E. destruct (eval m s1) as [a|e].
  - apply Hk, H'.
  - split; [reflexivity | exact H'].
Qed.

Lemma agree_try_catch {A} (m : M S A) (h : exn -> M S A) :
  agree R m -> (forall e, agree R (h e)) -> agree R (try_catch m h).
Proof.
  intros Hm Hh s1 s2 H. destruct (Hm s1 s2 H) as [E H'].
  rewrite !eval_try_catch, !exec_try_catch, <- E. destruct (eval m s1) as [a|e].
  - split; [reflexivity | exact H'].
  - apply Hh, H'.
Qed.

Lemma agree_for_each {A} (l : list A) (body : A -> M S unit) :
  (forall x, agree R (body x)) -> agree R (for_each l body).
Proof.
  intros H. induction l as [|x l IH]; simpl.
  - apply agree_ret.
  - apply agree_bind; [apply H | intros _; apply IH].
Qed.

End Agree.

Global Instance unchanged_preorder {A} (f : S -> A) : PreOrder (unchanged f).
Proof. split; unfold unchanged; [intros s; reflexivity | intros s1 s2 s3; congruence]. Qed.

(** A loop whose body never raises runs through a concatenation. *)
Lemma exec_for_each_app {A} (l1 l2 : list A) (body : A -> M S unit) s :
  (forall x, no_raise (body x)) ->
  exec (for_each (l1 ++ l2) body) s = exec (for_each l2 body) (exec (for_each l1 body) s).
Proof.
  intros H. revert s. induction l1 as [|x l1 IH]; intros s; simpl; [reflexivity|].
  rewrite !exec_bind. destruct (H x s) as [[] ->]. apply IH.
Qed.

Lemma exec_for_each_cons {A} (x : A) (l : list A) (body : A -> M S unit) s :
  (forall x, no_raise (body x)) ->
  exec (for_each (x :: l) body) s = exec (for_each l body) (exec (body x) s).
Proof. intros H. simpl. rewrite exec_bind. destruct (H x s) as [[] ->]. reflexivity. Qed.

End MoreMonadFacts.

Ltac agree_step :=
  lazymatch goal with
  | |- agree _ (bind _ _) => apply agree_bind; [| intros ?]
  | |- agree _ (try_catch _ _) => apply agree_try_catch; [| intros ?]
  | |- agree _ (ret _) => apply agree_ret
  | |- agree _ (lift _) => apply agree_lift
  | |- agree _ (subscript _ _) => apply agree_subscript
  | |- agree _ (for_each _ _) => apply agree_for_each; intros ?
  | |- agree _ (if ?b then _ else _) => destruct b
  | |- agree _ (match ?x with _ => _ end) => destruct x
  end.

Ltac no_raise_step :=
  lazymatch goal with
  | |- no_raise (bind _ _) => apply no_raise_bind; [| intros ?]
  | |- no_raise (try_catch _ _) => apply no_raise_try_catch; intros ?
  | |- no_raise (ret _) => apply no_raise_ret
  | |- no_raise (gets _) => apply no_raise_gets
  | |- no_raise (modify _) => apply no_raise_modify
  | |- no_raise (for_each _ _) => apply no_raise_for_each; intros ?
  | |- no_raise (if ?b then _ else _) => destruct b
  | |- no_raise (match ?x with _ => _ end) => destruct x
  end.

Module AnomalyFacts.
Section Facts.
Context {L : Library}.
Import AnomalyDetection AnomalyProperties.

Arguments isolation_forest_key : simpl never.
Arguments dbscan_key : simpl never.
Arguments z_score_key : simpl never.
Arguments iqr_key : simpl never.

Global Instance inference_frame_preorder m : PreOrder (inference_frame m).
Proof.
  split.
  - intros s. unfold inference_frame. tauto.
  - intros s1 s2 s3 (C1 & T1 & I1 & L1 & S1 & M1 & D1) (C2 & T2 & I2 & L2 & S2 & M2 & D2).
    unfold inference_frame. repeat split; try congruence.
    + intros k Hk. rewrite S2, S1; auto.
    + intros k Hk. rewrite M2, M1; auto.
    + intros H. apply D1, D2, H.
    + intros H. apply D2, D1, H.
Qed.

Lemma set_scaler_standard_frame m sc s : inference_frame m s (set_scaler "standard" sc s).
Proof.
  unfold inference_frame, set_scaler; simpl. repeat split; auto.
  intros k Hk. apply lookup_insert_ne. congruence.
Qed.

Lemma assign_scaled_on_fst (R : relation AnomalyDetectionModel) `{!PreOrder R} values :
  preserves (on_fst R) (assign_scaled values).
Proof.
  intros [s d]. unfold exec, assign_scaled, on_fst. simpl.
  destruct (assign_numeric d values); reflexivity.
Qed.

Lemma preprocess_body_frame m : preserves (on_fst (inference_frame m)) preprocess_body.
Proof.
  unfold preprocess_body, remove_outliers, set_data, on_self.
  frame;
    first [ apply assign_scaled_on_fst; typeclasses eauto
          | apply preserves_modify; intros [? ?]; unfold on_fst; simpl;
            first [reflexivity | apply set_scaler_standard_frame] ].
Qed.

Lemma preprocess_data_eq data s :
  preprocess_data data s = (Ok (snd (preprocess_run data s)), fst (preprocess_run data s)).
Proof.
  unfold preprocess_data, preprocess_run.
  destruct (exec (try_catch preprocess_body _) (s, data)) as [s' d']. reflexivity.
Qed.

Lemma preprocess_data_frame m data : preserves (inference_frame m) (preprocess_data data).
Proof.
  intros s. unfold exec. rewrite preprocess_data_eq. simpl.
  apply (preserves_try_catch (on_fst (inference_frame m)) preprocess_body
           (fun _ => ret tt) (preprocess_body_frame m)
           (fun e => preserves_ret _ tt) (s, data)).
Qed.

Lemma detect_isolation_forest_frame m data X found :
  preserves (inference_frame m) (detect_isolation_forest data X m found).
Proof. unfold detect_isolation_forest. frame. Qed.

Lemma detect_dbscan_frame m data X found :
  preserves (inference_frame m) (detect_dbscan data X m found).
Proof.
  intros s. unfold detect_dbscan, exec, bind, gets, lift, modify.
  destruct (models s !! dbscan_key m) as [model|] eqn:E; [|reflexivity].
  destruct (fit_predict model X) as [[model' labels]|e]; [|reflexivity].
  assert (inference_frame m s (set_model (dbscan_key m) model' s)) as H.
  { unfold inference_frame, set_model; simpl. repeat split; auto.
    - intros k Hk. apply lookup_insert_ne. congruence.
    - intros _. rewrite lookup_insert_eq. eauto. }
  destruct (report _ _ _ _ _ _); exact H.
Qed.

Lemma detect_body_frame m data : preserves (inference_frame m) (detect_body data m).
Proof.
  unfold detect_body.
  frame; auto using preprocess_data_frame, detect_isolation_forest_frame,
                    detect_dbscan_frame.
Qed.

Lemma detect_anomalies_inference_frame m data : preserves (inference_frame m) (detect_anomalies data m).
Proof. unfold detect_anomalies. frame. apply detect_body_frame. Qed.

(** *** What [detect_anomalies] answers *)

Lemma detect_anomalies_not_trained data m s :
  is_trained s = false -> detect_anomalies data m s = (Ok not_trained_result, s).
Proof.
  intros H. unfold detect_anomalies, bind, gets, ret. rewrite H. reflexivity.
Qed.

Lemma detect_anomalies_trained data m s :
  is_trained s = true ->
  detect_anomalies data m s =
  match detect_body data m s with
  | (Ok r, s') => (Ok r, s')
  | (Raise e, s') => (Ok (error_result e), s')
  end.
Proof.
  intros H. unfold detect_anomalies, bind, gets, ret, try_catch. rewrite H. simpl.
  destruct (detect_body data m s) as [[r|e] s']; reflexivity.
Qed.

(** Without a fitted model under the metric's two keys, the block runs the
    statistical detectors alone, on the state that preprocessing left. *)
Lemma detect_body_statistical data m s :
  models s !! isolation_forest_key m = None ->
  models s !! dbscan_key m = None ->
  let s1 := fst (preprocess_run data s) in
  detect_body data m s =
  (Ok (ensemble_result (config s1)
         (merge_statistical (_detect_statistical_anomalies s1 data m) ([], []))), s1).
Proof.
  intros Hif Hdb s1.
  destruct (preprocess_data_frame m data s) as (_ & _ & _ & _ & _ & Hm & Hd).
  unfold exec in Hm, Hd. rewrite preprocess_data_eq in Hm, Hd. simpl in Hm, Hd.
  fold s1 in Hm, Hd.
  assert (models s1 !! isolation_forest_key m = None) as Hif1.
  { rewrite Hm; [exact Hif|]. unfold isolation_forest_key, dbscan_key.
    intros H. discriminate H. }
  assert (models s1 !! dbscan_key m = None) as Hdb1.
  { destruct (models s1 !! dbscan_key m) eqn:E; [|reflexivity].
    destruct Hd as [Hd _]. rewrite Hdb in Hd. destruct Hd as [x Hx]; eauto. discriminate. }
  unfold detect_body, bind. unfold copy. rewrite preprocess_data_eq. fold s1.
  unfold detect_isolation_forest, detect_dbscan, bind, gets, ret, get.
  rewrite Hif1, Hdb1.
  destruct (merge_statistical _ _) as [anomalies confidence_scores] eqn:E.
  unfold ensemble_result. simpl. reflexivity.
Qed.

(** *** The statistical findings *)

Global Instance keeps_preorder P : PreOrder (keeps P).
Proof. split; unfold keeps; [intros x; auto | intros x y z; auto]. Qed.

Lemma keeps_append P a : P a -> forall acc, keeps P acc (acc ++ [a]).
Proof. intros Ha acc Hacc. apply Forall_app. split; [exact Hacc | constructor; auto]. Qed.

Lemma statistical_column_keeps s data m column :
  preserves (keeps (statistical_finding s m)) (statistical_column s data m column).
Proof.
  unfold statistical_column.
  frame; apply preserves_modify; apply keeps_append; unfold statistical_finding; simpl.
  - left. split; [reflexivity|]. eauto.
  - right. split; reflexivity.
Qed.

Lemma _detect_statistical_anomalies_findings s data m :
  Forall (statistical_finding s m) (_detect_statistical_anomalies s data m).
Proof.
  unfold _detect_statistical_anomalies.
  assert (preserves (keeps (statistical_finding s m))
            (try_catch (for_each (numeric_columns data) (statistical_column s data m))
                       (fun _ => ret tt))) as H.
  { frame. apply statistical_column_keeps. }
  apply (H []). constructor.
Qed.

Lemma merge_statistical_findings (P : Anomaly -> Prop) stat found :
  Forall P stat -> Forall P (fst found) -> Forall P (fst (merge_statistical stat found)).
Proof.
  revert found. induction stat as [|a stat IH]; intros found Hs Hf; simpl; [exact Hf|].
  inversion Hs; subst.
  destruct (already_detected (a_index a) (fst found)).
  - apply IH; assumption.
  - apply IH; [assumption|]. simpl. apply Forall_app. split; [assumption|]. constructor; auto.
Qed.

Lemma ensemble_result_findings (P : Anomaly -> Prop) cfg found :
  Forall P (fst found) -> Forall P (r_anomalies (ensemble_result cfg found)).
Proof.
  intros H. unfold ensemble_result. simpl.
  apply Forall_forall. intros a Ha.
  apply list_elem_of_filter in Ha. destruct Ha as [_ Ha].
  rewrite Forall_forall in H. apply H. exact Ha.
Qed.

(** *** Preprocessing never adds a row *)

Lemma length_ffill_from prev rows : length (ffill_from prev rows) = length rows.
Proof. revert prev. induction rows as [|r rows IH]; intros prev; simpl; [|rewrite IH]; reflexivity. Qed.

Lemma length_ffill_rows rows : length (ffill_rows rows) = length rows.
Proof. destruct rows; simpl; [|rewrite length_ffill_from]; reflexivity. Qed.

Lemma len_fillna data : len (fillna_bfill (fillna_ffill data)) = len data.
Proof.
  unfold len, fillna_bfill, fillna_ffill. simpl.
  rewrite length_rev, length_ffill_rows, length_rev, length_ffill_rows. reflexivity.
Qed.

Lemma len_filter_rows keep column data : (len (filter_rows keep column data) <= len data)%nat.
Proof.
  unfold filter_rows, len. destruct (col_index column (df_schema data)); simpl; [|lia].
  apply length_filter.
Qed.

Lemma len_assign_numeric data values data' :
  assign_numeric data values = Ok data' -> len data' = len data.
Proof.
  unfold assign_numeric, same_shape. destruct (Nat.eqb_spec (length values) (len data)) as [E|]; simpl.
  - destruct (forallb _ values); [|discriminate]. intros H. inversion H; subst; clear H.
    unfold len in *. simpl. rewrite length_zip_with. lia.
  - discriminate.
Qed.

Global Instance shrinks_preorder : PreOrder shrinks.
Proof. split; unfold shrinks; [intros p; lia | intros p q r; lia]. Qed.

Lemma preprocess_body_shrinks : preserves shrinks preprocess_body.
Proof.
  unfold preprocess_body, remove_outliers, set_data, on_self.
  frame.
  all: try (apply preserves_modify; intros [? ?]; unfold shrinks; simpl;
            first [rewrite len_fillna; lia | apply len_filter_rows | lia]).
  intros [st d]. unfold exec, assign_scaled, shrinks. simpl.
  destruct (assign_numeric d _) eqn:E; simpl; [|lia].
  apply len_assign_numeric in E. lia.
Qed.

Lemma len_preprocess_run data s : (len (snd (preprocess_run data s)) <= len data)%nat.
Proof.
  apply (preserves_try_catch shrinks preprocess_body (fun _ => ret tt)
           preprocess_body_shrinks (fun e => preserves_ret _ tt) (s, data)).
Qed.

(** *** The preprocessed frame depends on the configuration only *)

Lemma preprocess_body_agree : agree same_input preprocess_body.
Proof.
  unfold preprocess_body, remove_outliers, set_data, on_self.
  repeat first
    [ agree_step
    | apply agree_gets; intros [? ?] [? ?] [? ?]; simpl in *; congruence
    | apply agree_modify; intros [? ?] [? ?] [? ?]; unfold same_input; simpl in *;
      split; congruence ].
  intros [s1 d1] [s2 d2] [Hc Hd]. simpl in *. subst d2.
  unfold eval, exec, assign_scaled. simpl.
  destruct (assign_numeric d1 _); simpl; split; try reflexivity; split; auto.
Qed.

Lemma preprocess_run_keeps_config data s :
  snd (preprocess_run data s) = preprocessed (config s) data.
Proof.
  unfold preprocessed, preprocess_run.
  assert (agree same_input (try_catch preprocess_body (fun _ => ret tt))) as H.
  { apply agree_try_catch; [apply preprocess_body_agree | intros e; apply agree_ret]. }
  destruct (H (s, data) (mkModel (config s) ∅ ∅ ∅ false None, data)) as [_ [_ E]].
  - split; reflexivity.
  - exact E.
Qed.

Lemma len_preprocessed cfg data : (len (preprocessed cfg data) <= len data)%nat.
Proof. apply len_preprocess_run. Qed.

(** *** What training leaves alone *)

Ltac field_leaf :=
  first [ apply assign_scaled_on_fst; typeclasses eauto
        | apply preserves_modify; intros [? ?]; unfold on_fst, unchanged; reflexivity
        | apply preserves_modify; intros ?; unfold unchanged; reflexivity ].

Lemma preprocess_data_keeps {A} (f : AnomalyDetectionModel -> A) data :
  (forall sc s, f (set_scaler "standard" sc s) = f s) ->
  preserves (unchanged f) (preprocess_data data).
Proof.
  intros Hf s. unfold exec. rewrite preprocess_data_eq. simpl.
  assert (preserves (on_fst (unchanged f)) preprocess_body) as H.
  { unfold preprocess_body, remove_outliers, set_data, on_self.
    frame; first [ field_leaf
                 | apply preserves_modify; intros [? ?]; unfold on_fst, unchanged; simpl;
                   apply Hf ]. }
  apply (preserves_try_catch (on_fst (unchanged f)) preprocess_body (fun _ => ret tt)
           H (fun e => preserves_ret _ tt) (s, data)).
Qed.

Lemma train_isolation_forest_keeps {A} (f : AnomalyDetectionModel -> A) data m :
  ((len data < 10)%nat \/ forall est s, f (set_model (isolation_forest_key m) est s) = f s) ->
  preserves (unchanged f) (train_isolation_forest data m).
Proof.
  intros H. unfold train_isolation_forest.
  destruct (Nat.ltb_spec (len data) 10) as [Hlt|Hge].
  - frame.
  - destruct H as [H|H]; [lia|].
    frame. apply preserves_modify. intros s. apply H.
Qed.

Lemma train_dbscan_keeps {A} (f : AnomalyDetectionModel -> A) data m :
  ((len data < 10)%nat \/ forall est s, f (set_model (dbscan_key m) est s) = f s) ->
  preserves (unchanged f) (train_dbscan data m).
Proof.
  intros H. unfold train_dbscan.
  destruct (Nat.ltb_spec (len data) 10) as [Hlt|Hge].
  - frame.
  - destruct H as [H|H]; [lia|].
    frame. apply preserves_modify. intros s. apply H.
Qed.

Lemma _calculate_statistical_thresholds_keeps {A} (f : AnomalyDetectionModel -> A) data m :
  (forall k t s, f (set_threshold k t s) = f s) ->
  preserves (unchanged f) (_calculate_statistical_thresholds data m).
Proof.
  intros H. unfold _calculate_statistical_thresholds.
  frame; apply preserves_modify; intros s; apply H.
Qed.

Lemma preprocess_data_returns data :
  returns (fun d => (len d <= len data)%nat) (preprocess_data data).
Proof.
  intros s d E. unfold eval in E. rewrite preprocess_data_eq in E. simpl in E.
  inversion E; subst. apply len_preprocess_run.
Qed.

(** A field that only the two models of a metric can change is kept by the
    training of another metric, and by that of a series under ten rows. *)
Lemma train_metric_keeps {A} (f : AnomalyDetectionModel -> A) m data :
  (forall sc s, f (set_scaler "standard" sc s) = f s) ->
  (forall k t s, f (set_threshold k t s) = f s) ->
  ((len data < 10)%nat \/
   forall est s, f (set_model (isolation_forest_key m) est s) = f s /\
                 f (set_model (dbscan_key m) est s) = f s) ->
  preserves (unchanged f) (train_metric (m, data)).
Proof.
  intros Hsc Hth H. unfold train_metric, copy.
  destruct (0 <? len data)%nat; [|apply preserves_ret; typeclasses eauto].
  eapply preserves_bind_returns;
    [typeclasses eauto | apply preprocess_data_returns | apply preprocess_data_keeps, Hsc |].
  intros processed Hlen. simpl in Hlen.
  frame.
  - apply train_isolation_forest_keeps.
    destruct H as [H|H]; [left; lia | right; intros est s; apply H].
  - apply train_dbscan_keeps.
    destruct H as [H|H]; [left; lia | right; intros est s; apply H].
  - apply _calculate_statistical_thresholds_keeps, Hth.
Qed.

(** *** [train_models] always completes *)

Lemma preprocess_data_no_raise data : no_raise (preprocess_data data).
Proof. intros s. unfold eval. rewrite preprocess_data_eq. simpl. eauto. Qed.

Lemma train_metric_no_raise entry : no_raise (train_metric entry).
Proof.
  destruct entry as [m data]. unfold train_metric.
  destruct (0 <? len data)%nat; [|apply no_raise_ret].
  unfold train_isolation_forest, train_dbscan, _calculate_statistical_thresholds.
  repeat first [ apply preprocess_data_no_raise | no_raise_step ].
Qed.

Lemma train_models_eq training_data now s :
  train_models training_data now s =
  (Ok tt, set_last_training (Some now)
            (set_is_trained true (exec (for_each training_data train_metric) s))).
Proof.
  unfold train_models, try_catch, bind, modify.
  pose proof (no_raise_for_each training_data train_metric train_metric_no_raise s) as [[] E].
  unfold eval, exec in *. destruct (for_each training_data train_metric s) as [o s'].
  simpl in *. subst o. reflexivity.
Qed.

(** *** The keys of the model dictionary *)

Lemma isolation_forest_key_inj m m' :
  isolation_forest_key m = isolation_forest_key m' -> m = m'.
Proof. unfold isolation_forest_key. apply (inj (String.app _)). Qed.

Lemma dbscan_key_inj m m' : dbscan_key m = dbscan_key m' -> m = m'.
Proof. unfold dbscan_key. apply (inj (String.app _)). Qed.

Lemma keys_differ m m' : isolation_forest_key m <> dbscan_key m'.
Proof. unfold isolation_forest_key, dbscan_key. intros H. discriminate H. Qed.

Lemma models_set_model_ne k k' est s :
  k' <> k -> models (set_model k' est s) !! k = models s !! k.
Proof. intros H. unfold set_model. simpl. apply lookup_insert_ne. exact H. Qed.

(** *** A metric with enough rows *)

Lemma train_isolation_forest_stores data m s est :
  (10 <= len data)%nat ->
  isolation_forest_fitted (config s) (numeric_values data) est ->
  exec (train_isolation_forest data m) s = set_model (isolation_forest_key m) est s.
Proof.
  intros Hlen (c & r & n & Hc & Hr & Hn & Hfit).
  unfold train_isolation_forest, exec, try_catch, bind, gets, subscript, lift, modify, ret.
  destruct (Nat.ltb_spec (len data) 10) as [Hlt|_]; [lia|].
  simpl. rewrite Hc. simpl. rewrite Hr. simpl. rewrite Hn. simpl. rewrite Hfit. reflexivity.
Qed.

Lemma train_dbscan_stores data m s est :
  (10 <= len data)%nat ->
  dbscan_fitted (config s) (numeric_values data) est ->
  exec (train_dbscan data m) s = set_model (dbscan_key m) est s.
Proof.
  intros Hlen (e & ms & He & Hms & Hfit).
  unfold train_dbscan, exec, try_catch, bind, gets, subscript, lift, modify, ret.
  destruct (Nat.ltb_spec (len data) 10) as [Hlt|_]; [lia|].
  simpl. rewrite He. simpl. rewrite Hms. simpl. rewrite Hfit. reflexivity.
Qed.

Lemma train_isolation_forest_no_raise data m : no_raise (train_isolation_forest data m).
Proof. unfold train_isolation_forest. repeat no_raise_step. Qed.

Lemma train_dbscan_no_raise data m : no_raise (train_dbscan data m).
Proof. unfold train_dbscan. repeat no_raise_step. Qed.

Lemma train_metric_exec m data s :
  (0 < len data)%nat ->
  let s1 := fst (preprocess_run data s) in
  let processed := preprocessed (config s) data in
  exec (train_metric (m, data)) s =
  exec (_calculate_statistical_thresholds processed m)
    (exec (train_dbscan processed m) (exec (train_isolation_forest processed m) s1)).
Proof.
  intros Hlen s1 processed. unfold train_metric, copy.
  destruct (Nat.ltb_spec 0 (len data)) as [_|]; [|lia].
  rewrite exec_bind. unfold eval at 1, exec at 2. rewrite preprocess_data_eq. simpl.
  rewrite preprocess_run_keeps_config. fold s1 processed.
  rewrite exec_bind.
  destruct (train_isolation_forest_no_raise processed m s1) as [[] ->].
  rewrite exec_bind.
  destruct (train_dbscan_no_raise processed m (exec (train_isolation_forest processed m) s1))
    as [[] ->].
  reflexivity.
Qed.

Lemma preprocess_run_keeps {A} (f : AnomalyDetectionModel -> A) data s :
  (forall sc s, f (set_scaler "standard" sc s) = f s) ->
  f (fst (preprocess_run data s)) = f s.
Proof.
  intros Hf. pose proof (preprocess_data_keeps f data Hf s) as H.
  unfold exec in H. rewrite preprocess_data_eq in H. exact H.
Qed.

Lemma train_metric_stores m data s :
  (10 <= len (preprocessed (config s) data))%nat ->
  forall est,
    (isolation_forest_fitted (config s) (numeric_values (preprocessed (config s) data)) est ->
     models (exec (train_metric (m, data)) s) !! isolation_forest_key m = Some est) /\
    (dbscan_fitted (config s) (numeric_values (preprocessed (config s) data)) est ->
     models (exec (train_metric (m, data)) s) !! dbscan_key m = Some est).
Proof.
  intros Hlen est.
  pose proof (len_preprocessed (config s) data) as Hle.
  rewrite train_metric_exec by lia.
  set (processed := preprocessed (config s) data) in *.
  set (s1 := fst (preprocess_run data s)).
  assert (config s1 = config s) as Hcfg.
  { apply (preprocess_run_keeps config). reflexivity. }
  split; intros Hfit.
  - rewrite (_calculate_statistical_thresholds_keeps
               (fun s => models s !! isolation_forest_key m) processed m
               ltac:(reflexivity)).
    rewrite (train_dbscan_keeps (fun s => models s !! isolation_forest_key m) processed m).
    + rewrite train_isolation_forest_stores with (est := est);
        [| assumption | rewrite Hcfg; exact Hfit].
      unfold set_model. simpl. apply lookup_insert_eq.
    + right. intros e s0. apply models_set_model_ne. intros E. symmetry in E.
      exact (keys_differ _ _ E).
  - rewrite (_calculate_statistical_thresholds_keeps
               (fun s => models s !! dbscan_key m) processed m ltac:(reflexivity)).
    rewrite train_dbscan_stores with (est := est); [| assumption |].
    + unfold set_model. simpl. apply lookup_insert_eq.
    + assert (config (exec (train_isolation_forest processed m) s1) = config s) as ->;
        [|exact Hfit].
      rewrite (train_isolation_forest_keeps config processed m); [exact Hcfg|].
      right. reflexivity.
Qed.

(** *** The whole training call *)

Lemma same_key_same_series (l : list (string * DataFrame)) m d d' :
  NoDup (map fst l) -> (m, d) ∈ l -> (m, d') ∈ l -> d = d'.
Proof.
  induction l as [|[k v] l IH]; simpl; intros Hnd H1 H2.
  - inversion H1.
  - apply NoDup_cons in Hnd as [Hk Hnd].
    apply elem_of_cons in H1 as [H1|H1]; apply elem_of_cons in H2 as [H2|H2].
    + congruence.
    + inversion H1; subst. exfalso. apply Hk.
      apply list_elem_of_fmap. exists (k, d'). split; [reflexivity | exact H2].
    + inversion H2; subst. exfalso. apply Hk.
      apply list_elem_of_fmap. exists (k, d). split; [reflexivity | exact H1].
    + eauto.
Qed.

Lemma for_each_train_metric_keeps {A} (f : AnomalyDetectionModel -> A) training_data :
  (forall sc s, f (set_scaler "standard" sc s) = f s) ->
  (forall k t s, f (set_threshold k t s) = f s) ->
  (forall m data, (m, data) ∈ training_data ->
     (len data < 10)%nat \/
     forall est s, f (set_model (isolation_forest_key m) est s) = f s /\
                   f (set_model (dbscan_key m) est s) = f s) ->
  preserves (unchanged f) (for_each training_data train_metric).
Proof.
  intros Hsc Hth H. apply preserves_for_each; [typeclasses eauto|].
  intros [m data] Hin. apply train_metric_keeps; auto.
Qed.

End Facts.
End AnomalyFacts.

Module ScalingFacts.
Section Facts.
Context {L : Library}.
Import PredictiveScaling ScalingProperties.

(** *** The band rule, as the specification words it *)

Lemma threshold_lookup self key :
  is_Some (scaling_thresholds (config self) !! key) ->
  scaling_thresholds (config self) !! key = Some (threshold self key).
Proof. intros [v H]. unfold threshold. rewrite H. reflexivity. Qed.

Lemma recommend_step self target entry acc :
  thresholds_configured self ->
  exists added,
    recommend self target entry acc = (Ok tt, acc ++ added) /\
    map outline added = option_list (expected_outline self target entry).
Proof.
  intros Hcfg. destruct entry as [i p].
  assert (forall key, key ∈ ["cpu_high"; "cpu_low"; "memory_high"; "memory_low";
                              "response_time_high"; "response_time_low"; "throughput_low"] ->
          scaling_thresholds (config self) !! key = Some (threshold self key)) as Hk.
  { intros key Hin. apply threshold_lookup, Hcfg, Hin. }
  unfold recommend, expected_outline, expected_action, band, floor_only, bind, subscript,
    ret, modify. simpl.
  destruct (String.eqb target "cpu_usage").
  { rewrite (Hk "cpu_high") by set_solver. simpl.
    destruct (fgt p (threshold self "cpu_high")); simpl.
    - eexists [_]. split; reflexivity.
    - rewrite (Hk "cpu_low") by set_solver. simpl.
      destruct (flt p (threshold self "cpu_low")); simpl.
      + eexists [_]. split; reflexivity.
      + exists []. rewrite app_nil_r. split; reflexivity. }
  destruct (String.eqb target "memory_usage").
  { rewrite (Hk "memory_high") by set_solver. simpl.
    destruct (fgt p (threshold self "memory_high")); simpl.
    - eexists [_]. split; reflexivity.
    - rewrite (Hk "memory_low") by set_solver. simpl.
      destruct (flt p (threshold self "memory_low")); simpl.
      + eexists [_]. split; reflexivity.
      + exists []. rewrite app_nil_r. split; reflexivity. }
  destruct (String.eqb target "response_time").
  { rewrite (Hk "response_time_high") by set_solver. simpl.
    destruct (fgt p (threshold self "response_time_high")); simpl.
    - eexists [_]. split; reflexivity.
    - rewrite (Hk "response_time_low") by set_solver. simpl.
      destruct (flt p (threshold self "response_time_low")); simpl.
      + eexists [_]. split; reflexivity.
      + exists []. rewrite app_nil_r. split; reflexivity. }
  destruct (String.eqb target "throughput").
  { rewrite (Hk "throughput_low") by set_solver. simpl.
    destruct (flt p (threshold self "throughput_low")); simpl.
    - eexists [_]. split; reflexivity.
    - exists []. rewrite app_nil_r. split; reflexivity. }
  exists []. rewrite app_nil_r. split; reflexivity.
Qed.

Lemma recommend_loop self target entries acc :
  thresholds_configured self ->
  exists added,
    for_each entries (recommend self target) acc = (Ok tt, acc ++ added) /\
    map outline added = omap (expected_outline self target) entries.
Proof.
  intros Hcfg. revert acc. induction entries as [|entry entries IH]; intros acc; simpl.
  - exists []. rewrite app_nil_r. split; reflexivity.
  - destruct (recommend_step self target entry acc Hcfg) as (a1 & E1 & H1).
    destruct (IH (acc ++ a1)) as (a2 & E2 & H2).
    exists (a1 ++ a2). unfold bind. rewrite E1, E2. rewrite app_assoc. split; [reflexivity|].
    rewrite map_app, H1, H2.
    destruct (expected_outline self target entry); reflexivity.
Qed.

Lemma _generate_scaling_recommendations_outline self target predictions horizon :
  thresholds_configured self ->
  map outline (_generate_scaling_recommendations self target predictions horizon)
  = omap (expected_outline self target) (enumerate (slice_to horizon predictions)).
Proof.
  intros Hcfg. unfold _generate_scaling_recommendations, exec, try_catch.
  destruct (recommend_loop self target (enumerate (slice_to horizon predictions)) [] Hcfg)
    as (added & E & H).
  rewrite E. simpl. exact H.
Qed.

(** *** Facts of the float order *)

Lemma flt_irrefl x : flt x x = false.
Proof.
  destruct x as [q|]; simpl; [|reflexivity]. unfold Qltb.
  destruct (Qle_bool q q) eqn:E; [reflexivity|].
  exfalso. assert (Qle_bool q q = true) as H by (apply Qle_bool_iff, Qle_refl). congruence.
Qed.

Lemma flt_fle_false x y : flt x y = true -> fle y x = false.
Proof.
  destruct x as [p|], y as [q|]; simpl; try discriminate. unfold Qltb.
  destruct (Qle_bool q p); [discriminate | reflexivity].
Qed.

Lemma flt_fle_trans x y z : flt x y = true -> fle y z = true -> flt x z = true.
Proof.
  destruct x as [p|], y as [q|], z as [r|]; simpl; try discriminate. unfold Qltb.
  intros H1 H2. apply Qle_bool_iff in H2.
  destruct (Qle_bool q p) eqn:E1; [discriminate|].
  destruct (Qle_bool r p) eqn:E2; [|reflexivity].
  apply Qle_bool_iff in E2.
  assert (Qle_bool q p = true) as H by (apply Qle_bool_iff; eapply Qle_trans; eauto).
  congruence.
Qed.

Lemma flt_asym x y : flt x y = true -> flt y x = false.
Proof.
  destruct x as [p|], y as [q|]; simpl; try discriminate. unfold Qltb.
  destruct (Qle_bool q p) eqn:E1; [discriminate|]. intros _.
  destruct (Qle_bool p q) eqn:E2; [reflexivity|].
  exfalso.
  destruct (Qlt_le_dec p q) as [H|H].
  - apply Qlt_le_weak, Qle_bool_iff in H. congruence.
  - apply Qle_bool_iff in H. congruence.
Qed.

Lemma fle_flt_false x y : fle x y = true -> flt y x = false.
Proof.
  destruct x as [p|], y as [q|]; simpl; try discriminate. unfold Qltb.
  intros ->. reflexivity.
Qed.

Lemma feq_flt_false x y : feq x y -> flt x y = false /\ flt y x = false.
Proof.
  destruct x as [p|], y as [q|]; simpl; try tauto. unfold Qltb. intros H.
  assert (Qle_bool p q = true) as -> by (apply Qle_bool_iff; rewrite H; apply Qle_refl).
  assert (Qle_bool q p = true) as -> by (apply Qle_bool_iff; rewrite H; apply Qle_refl).
  split; reflexivity.
Qed.

Lemma feq_fle_l x y z : feq x y -> fle z y = true -> fle z x = true.
Proof.
  destruct x as [p|], y as [q|], z as [r|]; simpl; try tauto; try discriminate.
  intros H Hle. apply Qle_bool_iff. apply Qle_bool_iff in Hle. rewrite H. exact Hle.
Qed.

(** *** The split and the scaler *)

Lemma training_split_inv cfg data X_train X_test y_train y_test X_columns y_columns :
  training_split cfg data = Ok (X_train, X_test, y_train, y_test, X_columns, y_columns) ->
  exists X y n_train n_test,
    prepare_features data = Ok (X, y) /\
    split_sizes (test_size cfg) (len X) = Ok (n_train, n_test) /\
    let permutation := rng_permutation (random_state cfg) (len X) in
    take_rows (df_rows X) (firstn n_test permutation) = Ok (df_rows X_test) /\
    take_rows (df_rows X) (firstn n_train (skipn n_test permutation)) = Ok (df_rows X_train).
Proof.
  unfold training_split.
  destruct (flt _ _); [discriminate|].
  destruct (prepare_features data) as [[X y]|]; [|discriminate].
  unfold train_test_split, split_indices.
  destruct (negb _); [discriminate|].
  destruct (split_sizes (test_size cfg) (len X)) as [[n_train n_test]|] eqn:Es;
    [|discriminate].
  destruct (take_rows (df_rows X) (firstn n_train _)) as [r1|] eqn:E1; [|discriminate].
  destruct (take_rows (df_rows X) (firstn n_test _)) as [r2|] eqn:E2; [|discriminate].
  destruct (take_rows (df_rows y) (firstn n_train _)) as [r3|]; [|discriminate].
  destruct (take_rows (df_rows y) (firstn n_test _)) as [r4|]; [|discriminate].
  intros H. inversion H; subst; clear H.
  exists X, y, n_train, n_test. simpl. repeat split; assumption.
Qed.

Ltac unchanged_leaf :=
  apply preserves_modify; intros ?; unfold unchanged; reflexivity.

Lemma train_target_scalers Xc a b y_train y_test target :
  preserves (unchanged scalers) (train_target Xc a b y_train y_test target).
Proof.
  unfold train_target, _evaluate_models, evaluate_one.
  frame; unchanged_leaf.
Qed.

Lemma train_models_stores_scaler self data now
    X_train X_test y_train y_test X_columns y_columns scaler a b :
  training_split (config self) data
    = Ok (X_train, X_test, y_train, y_test, X_columns, y_columns) ->
  fit_feature_scaler X_train X_test = Ok (scaler, a, b) ->
  scalers (exec (train_models data now) self) !! "feature_scaler" = Some scaler.
Proof.
  intros Hsplit Hfit.
  assert (forall (rest : M PredictiveScalingModel unit) h,
            preserves (unchanged scalers) rest ->
            (forall e, preserves (unchanged scalers) (h e)) ->
            scalers (exec (try_catch
                             (run! modify (set_scaler "feature_scaler" scaler) in rest) h)
                          self) !! "feature_scaler" = Some scaler) as Hrest.
  { intros rest h Hr Hh.
    pose proof (preserves_try_catch (unchanged scalers) rest h Hr Hh
                  (set_scaler "feature_scaler" scaler self)) as H.
    unfold unchanged in H.
    replace (exec (try_catch (run! modify (set_scaler "feature_scaler" scaler) in rest) h) self)
      with (exec (try_catch rest h) (set_scaler "feature_scaler" scaler self)).
    - rewrite H. unfold set_scaler. simpl. apply lookup_insert_eq.
    - unfold exec, try_catch, bind, modify. reflexivity. }
  unfold train_models.
  match goal with
  | |- scalers (exec (try_catch ?body ?h) self) !! _ = _ =>
      replace (exec (try_catch body h) self)
        with (exec (try_catch
                      (run! modify (set_scaler "feature_scaler" scaler) in
                       run! for_each y_columns
                              (train_target X_columns a b y_train y_test) in
                       run! modify (set_is_trained true) in
                       modify (set_last_training (Some now))) h) self)
  end.
  - apply Hrest.
    + frame; first [apply train_target_scalers | unchanged_leaf].
    + intros e. frame. unchanged_leaf.
  - unfold exec, try_catch, bind, gets, lift. rewrite Hsplit, Hfit. reflexivity.
Qed.

Lemma predict_scaling_needs_pure current h t :
  preserves eq (predict_scaling_needs current h t).
Proof.
  unfold predict_scaling_needs, predict_body, inference_features, predict_target,
    model_predictions.
  frame.
Qed.

Lemma split_sizes_inv test_size n n_train n_test :
  split_sizes test_size n = Ok (n_train, n_test) ->
  exists product,
    float_mul test_size (of_nat n) = Fin product /\
    n_test = Z.to_nat (Qceiling product) /\
    n_train = (n - n_test)%nat.
Proof.
  unfold split_sizes. destruct test_size as [q|]; [|discriminate].
  destruct (_ && _); [|discriminate].
  destruct (float_mul (Fin q) (of_nat n)) as [product|]; [|discriminate].
  destruct (_ || _); [discriminate|].
  intros [= <- <-]. exists product. repeat split.
Qed.

(** *** Predictions are computed from the scaled features *)

Lemma inference_features_run s current sc X_pred y X :
  scalers s !! "feature_scaler" = Some sc ->
  prepare_features current = Ok (X_pred, y) ->
  frame_matrix X_pred = Ok X ->
  inference_features current s = (scaler_transform sc X, s).
Proof.
  intros Hsc Hp Hm. unfold inference_features, bind, lift, gets.
  rewrite Hp, Hm, Hsc. reflexivity.
Qed.

Lemma stored_forecasts (X : matrix) (target : string) names :
  forall acc s forecasts s',
    fold_m (fun target_predictions model_name =>
              let! ms := gets models in
              match ms !! (model_name +:+ "_" +:+ target) with
              | Some model =>
                  let! pred := lift (predict model X) in
                  ret (target_predictions ++ [pred])
              | None => ret target_predictions
              end) names acc s = (Ok forecasts, s') ->
    s' = s /\
    exists new,
      forecasts = acc ++ new /\
      Forall2 (fun model forecast => predict model X = Ok forecast)
              (omap (fun model_name => models s !! (model_name +:+ "_" +:+ target)) names)
              new.
Proof.
  induction names as [|name names IH]; intros acc s forecasts s'.
  - intros [= <- <-]. split; [reflexivity|]. exists [].
    rewrite app_nil_r. split; [reflexivity | constructor].
  - cbn [fold_m]. unfold bind at 1. unfold bind at 1. unfold gets at 1.
    cbn [omap list_omap].
    destruct (models s !! (name +:+ "_" +:+ target)) as [model|].
    + unfold bind at 1, lift at 1.
      destruct (predict model X) as [pred|e] eqn:Ep; [|discriminate].
      unfold ret at 1. intros H. apply IH in H as (-> & new & -> & Hnew).
      split; [reflexivity|]. exists (pred :: new). rewrite <- app_assoc.
      split; [reflexivity|]. constructor; assumption.
    + unfold ret at 1. intros H. apply IH in H as (-> & new & -> & Hnew).
      split; [reflexivity|]. exists new. split; [reflexivity | assumption].
Qed.

Lemma predict_target_from current X horizon acc target s acc' s' :
  predict_target current X horizon acc target s = (Ok acc', s') ->
  s' = s /\
  (fst acc' = fst acc \/
   exists values,
     predicted_from s X target values /\ fst acc' = fst acc ++ [(target, values)]).
Proof.
  unfold predict_target.
  destruct (negb _); [intros [= <- <-]; split; [reflexivity | left; reflexivity]|].
  unfold bind at 1.
  destruct (model_predictions X target s) as [[forecasts|e] s1] eqn:E; [|discriminate].
  unfold model_predictions in E. apply stored_forecasts in E as (-> & new & -> & Hnew).
  rewrite app_nil_l.
  destruct new as [|first rest].
  - intros [= <- <-]. split; [reflexivity | left; reflexivity].
  - unfold bind, lift, get, ret.
    destruct (ensemble_mean (first :: rest)) as [values|e] eqn:Em; [|discriminate].
    intros [= <- <-]. split; [reflexivity|]. right. exists values.
    split; [|reflexivity]. exists (first :: rest). split; assumption.
Qed.

Lemma predict_targets_from current X horizon targets :
  forall acc s acc' s',
    fold_m (predict_target current X horizon) targets acc s = (Ok acc', s') ->
    s' = s /\
    forall target values,
      (target, values) ∈ fst acc' ->
      (target, values) ∈ fst acc \/ predicted_from s X target values.
Proof.
  induction targets as [|target targets IH]; intros acc s acc' s'.
  - intros [= <- <-]. split; [reflexivity|]. intros target values Hin. left. exact Hin.
  - cbn [fold_m]. unfold bind at 1.
    destruct (predict_target current X horizon acc target s) as [[acc1|e] s1] eqn:E;
      [|discriminate].
    apply predict_target_from in E as (-> & Hacc).
    intros H. apply IH in H as (-> & Hin). split; [reflexivity|].
    intros target' values Hmem. destruct (Hin _ _ Hmem) as [Hold|Hnew]; [|right; exact Hnew].
    destruct Hacc as [Hsame|(values' & Hfrom & Happ)].
    + left. rewrite <- Hsame. exact Hold.
    + rewrite Happ in Hold. apply elem_of_app in Hold as [Hold|Hold]; [left; exact Hold|].
      apply list_elem_of_singleton in Hold. injection Hold as -> ->. right. exact Hfrom.
Qed.

Lemma predict_scaling_needs_run current horizon t s :
  is_trained s = true ->
  predict_scaling_needs current horizon t s
  = match predict_body current horizon t s with
    | (Ok r, s') => (Ok r, s')
    | (Raise e, s') => (Ok (error_result e), s')
    end.
Proof.
  intros Htrained. unfold predict_scaling_needs, bind, gets, try_catch, ret.
  rewrite Htrained. reflexivity.
Qed.

Lemma predict_body_run current horizon t s features :
  inference_features current s = (features, s) ->
  predict_body current horizon t s
  = match features with
    | Raise e => (Raise e, s)
    | Ok X_scaled =>
        match fold_m (predict_target current X_scaled
                        (default (configured_horizon s) horizon))
                     ["cpu_usage"; "memory_usage"; "response_time"; "throughput"]
                     ([], []) s with
        | (Ok (predictions, scaling_recommendations), s') =>
            (Ok (mkPrediction predictions scaling_recommendations
                   (_calculate_prediction_confidence s' predictions)
                   (Some (default (configured_horizon s) horizon))
                   (Some (isoformat t)) None), s')
        | (Raise e, s') => (Raise e, s')
        end
    end.
Proof.
  intros Hrun. unfold predict_body, bind, gets, get, ret. rewrite Hrun.
  destruct features as [X_scaled|e]; [|reflexivity].
  destruct (fold_m _ _ _ s) as [[[predictions recommendations]|e] s']; reflexivity.
Qed.

Lemma predict_scaling_needs_scaled s current horizon t sc X_pred y X :
  is_trained s = true ->
  scalers s !! "feature_scaler" = Some sc ->
  prepare_features current = Ok (X_pred, y) ->
  frame_matrix X_pred = Ok X ->
  match scaler_transform sc X with
  | Raise e => eval (predict_scaling_needs current horizon t) s = Ok (error_result e)
  | Ok X_scaled =>
      exists r,
        eval (predict_scaling_needs current horizon t) s = Ok r /\
        forall target values,
          (target, values) ∈ p_predictions r ->
          predicted_from s X_scaled target values
  end.
Proof.
  intros Htrained Hsc Hp Hm.
  pose proof (inference_features_run s current sc X_pred y X Hsc Hp Hm) as Hrun.
  unfold eval. rewrite (predict_scaling_needs_run _ _ _ _ Htrained).
  rewrite (predict_body_run _ horizon t _ _ Hrun).
  destruct (scaler_transform sc X) as [X_scaled|e]; [|reflexivity].
  destruct (fold_m _ _ _ s) as [[[predictions recommendations]|e] s1] eqn:E.
  - apply predict_targets_from in E as (-> & Hin).
    eexists. split; [reflexivity|]. cbn [p_predictions].
    intros target values Hmem.
    destruct (Hin _ _ Hmem) as [Hold|Hnew]; [inversion Hold | exact Hnew].
  - eexists. split; [reflexivity|]. cbn [p_predictions error_result].
    intros target values Hmem. inversion Hmem.
Qed.

(** *** The rows of a partition carry their timestamps *)

Lemma item_map {A B} (f : A -> B) (rows : list A) i :
  item (map f rows) i =
  match item rows i with Ok r => Ok (f r) | Raise e => Raise e end.
Proof. unfold item. rewrite list_lookup_fmap. destruct (rows !! i); reflexivity. Qed.

Lemma take_rows_map {A B} (f : A -> B) (rows : list A) indices :
  take_rows (map f rows) indices =
  match take_rows rows indices with Ok r => Ok (map f r) | Raise e => Raise e end.
Proof.
  unfold take_rows. induction indices as [|i indices IH]; simpl; [reflexivity|].
  rewrite item_map, IH.
  destruct (item rows i); destruct (traverse (item rows) indices); reflexivity.
Qed.

Lemma select_rows names data selected :
  select names data = Ok selected ->
  exists project,
    df_rows selected = map project (df_rows data) /\
    forall rows, select names (mkDF (df_schema data) rows)
                 = Ok (mkDF (df_schema selected) (map project rows)).
Proof.
  unfold select.
  destruct (select_indices names (df_schema data)) as [js|] eqn:E; [|discriminate].
  intros H. inversion H; subst; clear H. simpl.
  eexists. split; [reflexivity|]. intros rows. rewrite E. reflexivity.
Qed.

(** The partitions that [train_models] scales are the feature columns of
    the partitions whose timestamps [partition_times] lists. *)
Lemma training_split_partition cfg data X_train X_test y_train y_test X_columns y_columns :
  training_split cfg data = Ok (X_train, X_test, y_train, y_test, X_columns, y_columns) ->
  exists engineered train test,
    engineer_features data = Ok engineered /\
    train_test_split engineered engineered (test_size cfg) (random_state cfg)
      = Ok (train, test, train, test) /\
    partition_times cfg data
      = Ok (column_cells "timestamp" train, column_cells "timestamp" test) /\
    select (feature_columns engineered) train = Ok X_train /\
    select (feature_columns engineered) test = Ok X_test.
Proof.
  unfold training_split.
  destruct (flt _ _); [discriminate|].
  unfold prepare_features.
  destruct (engineer_features data) as [engineered|] eqn:Ee; [|discriminate].
  destruct (select (feature_columns engineered) engineered) as [X|] eqn:EX; [|discriminate].
  destruct (select lag_features engineered) as [y|] eqn:Ey; [|discriminate].
  destruct (select_rows _ _ _ EX) as (px & HX & HselX).
  destruct (select_rows _ _ _ Ey) as (py & Hy & _).
  assert (len X = len engineered) as Hlen.
  { unfold len. rewrite HX, length_map. reflexivity. }
  unfold train_test_split at 1. rewrite Hlen.
  destruct (negb (len engineered =? len y)%nat); [discriminate|].
  destruct (split_indices (len engineered) (test_size cfg) (random_state cfg))
    as [[ind_train ind_test]|] eqn:Es; [|discriminate].
  rewrite HX, Hy, !take_rows_map.
  destruct (take_rows (df_rows engineered) ind_train) as [r1|] eqn:E1; [|discriminate].
  destruct (take_rows (df_rows engineered) ind_test) as [r2|] eqn:E2; [|discriminate].
  intros H. inversion H; subst; clear H.
  assert (train_test_split engineered engineered (test_size cfg) (random_state cfg)
          = Ok (mkDF (df_schema engineered) r1, mkDF (df_schema engineered) r2,
                mkDF (df_schema engineered) r1, mkDF (df_schema engineered) r2)) as Hsplit.
  { unfold train_test_split. rewrite Nat.eqb_refl. simpl. rewrite Es, E1, E2. reflexivity. }
  exists engineered, (mkDF (df_schema engineered) r1), (mkDF (df_schema engineered) r2).
  split; [reflexivity|]. split; [exact Hsplit|]. split.
  - unfold partition_times. rewrite Ee, Hsplit. reflexivity.
  - split; apply HselX.
Qed.

End Facts.
End ScalingFacts.

Module RootCauseFacts.
Section Facts.
Context {L : Library}.
Import RootCauseAnalysis RootCauseProperties ScalingFacts.

(** *** Sorting *)

Lemma insert_desc_perm {A} (key : A -> float) x l : insert_desc key x l ≡ₚ x :: l.
Proof.
  induction l as [|y l IH]; simpl; [reflexivity|].
  destruct (flt (key x) (key y)); [|reflexivity].
  rewrite IH. apply Permutation_swap.
Qed.

Lemma sorted_desc_perm {A} (key : A -> float) l : sorted_desc key l ≡ₚ l.
Proof.
  unfold sorted_desc. induction l as [|x l IH]; simpl; [reflexivity|].
  rewrite insert_desc_perm, IH. reflexivity.
Qed.

Lemma fle_total x y : finite x -> finite y -> flt x y = false -> fle y x = true.
Proof.
  intros [p ->] [q ->]. simpl. unfold Qltb. destruct (Qle_bool q p); [reflexivity|discriminate].
Qed.

Lemma flt_fle x y : flt x y = true -> fle x y = true.
Proof.
  destruct x as [p|], y as [q|]; simpl; try discriminate. unfold Qltb.
  destruct (Qle_bool q p) eqn:E; [discriminate|]. intros _.
  apply Qle_bool_iff. destruct (Qlt_le_dec p q) as [H|H].
  - apply Qlt_le_weak, H.
  - apply Qle_bool_iff in H. congruence.
Qed.

Lemma fle_trans x y z : fle x y = true -> fle y z = true -> fle x z = true.
Proof.
  destruct x as [p|], y as [q|], z as [r|]; simpl; try discriminate.
  intros H1 H2. apply Qle_bool_iff. apply Qle_bool_iff in H1, H2. eapply Qle_trans; eauto.
Qed.

Lemma insert_desc_sorted {A} (key : A -> float) x l :
  finite (key x) -> Forall (fun y => finite (key y)) l ->
  StronglySorted (not_below key) l ->
  StronglySorted (not_below key) (insert_desc key x l).
Proof.
  intros Hx Hl Hs. induction Hs as [|y l Hs IH Hy]; simpl.
  - repeat constructor.
  - inversion Hl as [|? ? Hfy Hfl]; subst.
    destruct (flt (key x) (key y)) eqn:E.
    + constructor; [apply IH, Hfl|].
      rewrite insert_desc_perm. constructor; [|exact Hy].
      unfold not_below. apply flt_fle, E.
    + constructor; [constructor; assumption|].
      assert (not_below key x y) as Hxy by (apply fle_total; assumption).
      constructor; [exact Hxy|].
      eapply Forall_impl; [exact Hy|]. intros z Hz. unfold not_below in *.
      eapply fle_trans; eauto.
Qed.

Lemma sorted_desc_sorted {A} (key : A -> float) l :
  Forall (fun y => finite (key y)) l -> StronglySorted (not_below key) (sorted_desc key l).
Proof.
  unfold sorted_desc. induction l as [|x l IH]; intros H; simpl; [constructor|].
  inversion H; subst. apply insert_desc_sorted; [assumption | | apply IH; assumption].
  fold (sorted_desc key l). rewrite sorted_desc_perm. assumption.
Qed.

(** In a descending list an earlier element is not below a later one. *)
Lemma sorted_lookup {A} (key : A -> float) l i j a b :
  StronglySorted (not_below key) l ->
  l !! i = Some a -> l !! j = Some b -> (i < j)%nat -> not_below key a b.
Proof.
  intros Hs. revert i j. induction Hs as [|x l Hs IH Hx]; intros i j Hi Hj Hlt.
  - rewrite lookup_nil in Hi. discriminate.
  - destruct j as [|j]; [lia|]. simpl in Hj. destruct i as [|i]; simpl in Hi.
    + inversion Hi; subst. rewrite Forall_forall in Hx. apply Hx.
      eapply list_elem_of_lookup_2, Hj.
    + eapply IH; eauto. lia.
Qed.

(** *** Scores *)

Lemma severity_weight_finite severity :
  severity_weight severity = Fin 3 \/ severity_weight severity = Fin 2
  \/ severity_weight severity = Fin 1.
Proof.
  unfold severity_weight.
  destruct (String.eqb severity "high"); [auto|].
  destruct (String.eqb severity "medium"); [auto|].
  destruct (String.eqb severity "low"); auto.
Qed.

Lemma py_min_unit a x :
  (0 <= a)%Q -> (a <= 1)%Q -> (forall q, x = Fin q -> (0 <= q)%Q) ->
  exists c, py_min (Fin a) x = Fin c /\ (0 <= c)%Q /\ (c <= 1)%Q.
Proof.
  intros Ha0 Ha1 Hx. unfold py_min. destruct x as [q|]; simpl; [|eauto].
  unfold Qltb. destruct (Qle_bool a q) eqn:E; simpl; [eauto|].
  exists q. split; [reflexivity|]. split; [apply Hx; reflexivity|].
  destruct (Qlt_le_dec q a) as [Hlt|Hle].
  - apply Qlt_le_weak in Hlt. eapply Qle_trans; eauto.
  - apply Qle_bool_iff in Hle. congruence.
Qed.

(** Every generated confidence is a number between 0 and 1. *)
Lemma generated_confidence_unit analysis_results :
  Forall (fun h => exists c, h_confidence h = Fin c /\ (0 <= c)%Q /\ (c <= 1)%Q)
         (_generate_root_cause_hypotheses analysis_results).
Proof.
  unfold _generate_root_cause_hypotheses. rewrite !Forall_app. repeat split.
  - apply Forall_concat, Forall_fmap, Forall_true. intros [metric stats].
    unfold compose, statistical_hypotheses. cbn beta iota. apply Forall_app. split.
    + destruct (0 <? _)%nat; repeat constructor. simpl.
      apply py_min_unit; [discriminate | discriminate |].
      intros q [= <-]. apply Qle_shift_div_l; [reflexivity|].
      rewrite Qmult_0_l. unfold Qle. simpl. lia.
    + destruct (trend stats) as [t|]; [|constructor].
      destruct (flt _ _); repeat constructor. simpl.
      apply py_min_unit; [discriminate | discriminate |].
      intros q Hq. destruct (slope t) as [sl|]; [|discriminate].
      injection Hq as <-. apply Qabs_nonneg.
  - unfold pattern_hypotheses. apply Forall_app. split.
    + destruct (anomaly_detection _) as [a|]; [|constructor].
      destruct (0 <? _)%nat; repeat constructor. simpl.
      apply py_min_unit; [discriminate | discriminate |].
      intros q [= <-]. apply Qle_shift_div_l; [reflexivity|].
      rewrite Qmult_0_l. unfold Qle. simpl. lia.
    + destruct (kmeans_clusters _) as [c|]; [|constructor].
      destruct (flt _ _); repeat constructor. simpl.
      exists 0.6%Q. repeat split; discriminate.
  - unfold dependency_hypotheses. destruct (central_metrics _) as [c|]; [|constructor].
    apply Forall_concat, Forall_fmap, Forall_true. intros [metric centrality].
    unfold compose, bottleneck_hypothesis. cbn beta iota.
    destruct (fgt centrality _) eqn:E; repeat constructor.
    simpl. unfold py_min, fgt in *. rewrite (flt_asym _ _ E).
    exists 0.8%Q. repeat split; discriminate.
Qed.

Lemma score_weighted cause :
  h_weighted_score (score cause)
  = Some (float_mul (h_confidence (score cause))
                    (severity_weight (h_severity (score cause)))).
Proof. reflexivity. Qed.

Lemma ranked_scores root_causes h :
  h ∈ _rank_root_causes root_causes ->
  h_weighted_score h = Some (float_mul (h_confidence h) (severity_weight (h_severity h))).
Proof.
  unfold _rank_root_causes. rewrite sorted_desc_perm. intros H.
  apply list_elem_of_fmap in H as (cause & Heq & _). subst h. apply score_weighted.
Qed.

(** A list whose scores are numbers is ranked in descending order. *)
Lemma ranked_sorted root_causes :
  Forall (fun h => finite (weighted_score (score h))) root_causes ->
  StronglySorted (not_below weighted_score) (_rank_root_causes root_causes).
Proof.
  intros H. unfold _rank_root_causes. apply sorted_desc_sorted.
  apply Forall_fmap. exact H.
Qed.

Lemma generated_scores_finite analysis_results :
  scores_are_numbers ->
  Forall (fun h => finite (weighted_score (score h)))
         (_generate_root_cause_hypotheses analysis_results).
Proof.
  intros Hnum. eapply Forall_impl; [apply generated_confidence_unit|].
  intros h (c & Hc & H0 & H1). unfold weighted_score, score. simpl. rewrite Hc.
  destruct (Hnum c H0 H1) as (F1 & F2 & F3).
  destruct (severity_weight_finite (h_severity h)) as [-> | [-> | ->]]; assumption.
Qed.

Lemma flt_trans x y z : flt x y = true -> flt y z = true -> flt x z = true.
Proof. intros Hxy Hyz. eapply flt_fle_trans; [exact Hxy | apply flt_fle, Hyz]. Qed.

(** Where the weights separate the scores, the heavier severity scores
    more. *)
Lemma heavier_scores_more c severity1 severity2 :
  separates c ->
  flt (severity_weight severity2) (severity_weight severity1) = true ->
  fle (float_mul c (severity_weight severity1)) (float_mul c (severity_weight severity2))
  = false.
Proof.
  intros [H12 H23] Hw. apply flt_fle_false.
  destruct (severity_weight_finite severity1) as [E1 | [E1 | E1]];
    destruct (severity_weight_finite severity2) as [E2 | [E2 | E2]];
    rewrite E1, E2 in *; try discriminate Hw;
    first [exact H12 | exact H23 | exact (flt_trans _ _ _ H12 H23)].
Qed.

(** *** [analyze_root_cause] *)

Lemma preprocess_body_config : preserves (on_fst (unchanged config)) preprocess_body.
Proof.
  unfold preprocess_body, encode_column, add_temporal, set_data, on_self.
  frame; apply preserves_modify; intros [? ?]; unfold on_fst, unchanged; reflexivity.
Qed.

Lemma pattern_body_config data : preserves (on_fst (unchanged config)) (pattern_body data).
Proof.
  unfold pattern_body.
  frame; apply preserves_modify; intros [? ?]; unfold on_fst, unchanged; reflexivity.
Qed.

Lemma preprocess_incident_data_eq data s :
  preprocess_incident_data data s
  = (Ok (snd (preprocess_run data s)), fst (preprocess_run data s)).
Proof.
  unfold preprocess_incident_data, preprocess_run.
  destruct (exec (try_catch preprocess_body _) (s, data)) as [s' d']. reflexivity.
Qed.

Lemma incident_preprocess_run_config data s : config (fst (preprocess_run data s)) = config s.
Proof.
  apply (preserves_try_catch (on_fst (unchanged config)) preprocess_body
           (fun _ => ret tt) preprocess_body_config (fun e => preserves_ret _ tt) (s, data)).
Qed.

Lemma _pattern_recognition_eq data incident_metrics s :
  _pattern_recognition data incident_metrics s
  = (Ok (snd (pattern_run data s)), fst (pattern_run data s)).
Proof.
  unfold _pattern_recognition, pattern_run.
  destruct (exec (try_catch (pattern_body data) _) (s, _)) as [s' r]. reflexivity.
Qed.

Lemma pattern_run_config data s : config (fst (pattern_run data s)) = config s.
Proof.
  apply (preserves_try_catch (on_fst (unchanged config)) (pattern_body data)
           (fun _ => ret tt) (pattern_body_config data) (fun e => preserves_ret _ tt)
           (s, mkLevel2 None None None)).
Qed.

(** The analysis never raises, and a trained analyzer answers with the
    ranking of the hypotheses generated from its results. *)
Lemma analyze_root_cause_analysed s incident_data incident_metrics now later :
  is_trained s = true ->
  exists analysis_results,
    eval (analysed incident_data incident_metrics) s = Ok analysis_results /\
    let ranked := _rank_root_causes (_generate_root_cause_hypotheses analysis_results) in
    eval (analyze_root_cause incident_data incident_metrics now later) s
    = Ok (mkAnalysis (slice_to (max_root_causes (config s)) ranked)
                     (np_mean (map h_confidence ranked))
                     (analysis_path analysis_results)
                     (Some (isoformat later)) None).
Proof.
  intros Ht.
  set (s1 := fst (preprocess_run incident_data s)).
  set (processed := snd (preprocess_run incident_data s)).
  set (s2 := fst (pattern_run processed s1)).
  exists (mkResults (_statistical_analysis processed incident_metrics)
                    (snd (pattern_run processed s1))
                    (_dependency_analysis s2 processed incident_metrics)
                    ["statistical_analysis"; "pattern_recognition"; "dependency_analysis"]).
  split.
  - unfold analysed, eval, bind, copy.
    rewrite preprocess_incident_data_eq. fold s1 processed.
    unfold _perform_multi_level_analysis, bind.
    rewrite _pattern_recognition_eq. fold s2. reflexivity.
  - unfold analyze_root_cause, eval, bind, gets. rewrite Ht. simpl.
    unfold try_catch, analyze_body, bind, copy.
    rewrite preprocess_incident_data_eq. fold s1 processed.
    unfold _perform_multi_level_analysis, bind.
    rewrite _pattern_recognition_eq. fold s2.
    unfold get, ret, modify, gets. simpl.
    assert (config s2 = config s) as ->; [|reflexivity].
    unfold s2. rewrite pattern_run_config. apply incident_preprocess_run_config.
Qed.

End Facts.
End RootCauseFacts.

Module PersistenceFacts.
Section Facts.
Context {L : Library}.
Import Persistence PersistenceProperties.

Lemma joblib_load_cases fs filepath :
  (exists e, joblib_load fs filepath = Raise e) \/
  (exists model_data, joblib_load fs filepath = Ok model_data /\ model_data <> Unreadable).
Proof.
  unfold joblib_load. destruct (files fs !! filepath) as [[b|b|b|]|]; eauto.
Qed.

Lemma anomaly_load_models fs filepath self :
  Anomaly.load_models fs filepath self = (Ok tt, anomaly_loaded fs filepath self).
Proof.
  unfold Anomaly.load_models, Anomaly.load_body, anomaly_loaded, try_catch, bind, lift.
  destruct (joblib_load fs filepath) as [[b|b|b|]|e]; try reflexivity.
  destruct b; reflexivity.
Qed.

Lemma scaling_load_models fs filepath self :
  Scaling.load_models fs filepath self = (Ok tt, scaling_loaded fs filepath self).
Proof.
  unfold Scaling.load_models, Scaling.load_body, scaling_loaded, try_catch, bind, lift.
  destruct (joblib_load fs filepath) as [[b|b|b|]|e]; try reflexivity.
  destruct b; reflexivity.
Qed.

Lemma root_cause_load_models fs filepath self :
  RootCause.load_models fs filepath self = (Ok tt, root_cause_loaded fs filepath self).
Proof.
  unfold RootCause.load_models, RootCause.load_body, root_cause_loaded, try_catch, bind, lift.
  destruct (joblib_load fs filepath) as [[b|b|b|]|e]; try reflexivity.
  destruct b; reflexivity.
Qed.

(** Reading back what [joblib.dump] wrote. *)
Lemma joblib_load_dump model_data filepath fs :
  filepath ∉ unwritable fs ->
  model_data <> Unreadable ->
  joblib_load (exec (try_catch (joblib_dump model_data filepath) (fun _ => ret tt)) fs)
              filepath
  = Ok model_data.
Proof.
  intros Hw Hr. unfold exec, try_catch, joblib_dump.
  rewrite decide_False by exact Hw. simpl.
  unfold joblib_load. simpl. rewrite lookup_insert_eq.
  destruct model_data; [reflexivity..|contradiction].
Qed.

(** A save that fails changes nothing on disk. *)
Lemma joblib_dump_unwritable model_data filepath fs :
  filepath ∈ unwritable fs ->
  try_catch (joblib_dump model_data filepath) (fun _ => ret tt) fs = (Ok tt, fs).
Proof.
  intros Hw. unfold try_catch, joblib_dump. rewrite decide_True by exact Hw. reflexivity.
Qed.

End Facts.
End PersistenceFacts.

(** * Theorems *)

Module AnomalyTheorems.
Section Theorems.
Context {L : Library}.
Import AnomalyDetection AnomalyProperties AnomalyFacts.

Lemma statistical_finding_thresholds s s' m a :
  thresholds s' = thresholds s -> statistical_finding s m a -> statistical_finding s' m a.
Proof. unfold statistical_finding. intros ->. auto. Qed.

Lemma detect_body_method data m :
  returns (fun r => r_method r = "ensemble") (detect_body data m).
Proof.
  unfold detect_body.
  repeat (apply returns_bind; intros ?).
  destruct (merge_statistical _ _). apply returns_ret. reflexivity.
Qed.

(** Detection once the flag is set, on a metric without fitted model. *)
Lemma detect_anomalies_statistical data m s :
  is_trained s = true ->
  models s !! isolation_forest_key m = None ->
  models s !! dbscan_key m = None ->
  exists r, eval (detect_anomalies data m) s = Ok r /\
            r_method r = "ensemble" /\ r_error r = None /\
            Forall (statistical_finding s m) (r_anomalies r).
Proof.
  intros Ht Hif Hdb. unfold eval. rewrite detect_anomalies_trained by exact Ht.
  rewrite detect_body_statistical by assumption. simpl.
  eexists. split; [reflexivity|]. split; [reflexivity|]. split; [reflexivity|].
  apply ensemble_result_findings, merge_statistical_findings; [|constructor].
  eapply Forall_impl; [apply _detect_statistical_anomalies_findings|].
  intros a. apply statistical_finding_thresholds.
  symmetry. apply (preprocess_run_keeps thresholds). reflexivity.
Qed.

(** C1 (amended): a detector whose [is_trained] flag is unset answers every
    metric with the empty "Models not trained" result of confidence 0 and
    stays as it was; it does not raise.  Once the flag is set, a metric
    without a fitted model is not answered that way: the call returns the
    "ensemble" result holding statistical findings only. *)
Theorem detect_anomalies_without_model (s : AnomalyDetectionModel) data m :
  (is_trained s = false ->
   detect_anomalies data m s = (Ok not_trained_result, s)) /\
  (is_trained s = true ->
   models s !! isolation_forest_key m = None ->
   models s !! dbscan_key m = None ->
   exists r, eval (detect_anomalies data m) s = Ok r /\
             r_method r = "ensemble" /\ r_error r = None /\
             Forall (statistical_finding s m) (r_anomalies r)).
Proof.
  split.
  - apply detect_anomalies_not_trained.
  - apply detect_anomalies_statistical.
Qed.

(** C3 (amended): [detect_anomalies] leaves the thresholds, the
    configuration, the trained flag and the training time as they were; it
    leaves every scaler but the one under ["standard"], which preprocessing
    refits on the batch, and every model but the density model of the
    metric, which [fit_predict] refits and which stays in the dictionary. *)
Theorem detect_anomalies_frame (s : AnomalyDetectionModel) data m :
  let s' := exec (detect_anomalies data m) s in
  thresholds s' = thresholds s /\
  config s' = config s /\
  is_trained s' = is_trained s /\
  last_training s' = last_training s /\
  (forall k, k <> "standard" -> scalers s' !! k = scalers s !! k) /\
  (forall k, k <> dbscan_key m -> models s' !! k = models s !! k) /\
  (is_Some (models s' !! dbscan_key m) <-> is_Some (models s !! dbscan_key m)).
Proof.
  destruct (detect_anomalies_inference_frame m data s) as (C & T & I & Lt & Sc & Mo & D).
  simpl. repeat split; auto; apply D.
Qed.

(** C5 (amended): [train_models] never raises and always sets the trained
    flag, which is all the status says about training.  For a metric whose
    series has fewer than ten rows the call stores no model: the entries
    under the metric's two keys are what they were.  For a metric whose
    preprocessed series has at least ten rows, each model that fits is
    stored under its key. *)
Theorem train_models_short_series (s : AnomalyDetectionModel) training_data now :
  NoDup (map fst training_data) ->
  let s' := exec (train_models training_data now) s in
  eval (train_models training_data now) s = Ok tt /\
  st_is_trained (get_model_status s') = true /\
  (forall m data, (m, data) ∈ training_data -> (len data < 10)%nat ->
     models s' !! isolation_forest_key m = models s !! isolation_forest_key m /\
     models s' !! dbscan_key m = models s !! dbscan_key m) /\
  (forall m data est, (m, data) ∈ training_data ->
     let processed := preprocessed (config s) data in
     (10 <= len processed)%nat ->
     (isolation_forest_fitted (config s) (numeric_values processed) est ->
      models s' !! isolation_forest_key m = Some est) /\
     (dbscan_fitted (config s) (numeric_values processed) est ->
      models s' !! dbscan_key m = Some est)).
Proof.
  intros Hnd s'. subst s'. unfold eval, exec. rewrite train_models_eq. simpl.
  split; [reflexivity|]. split; [reflexivity|]. split.
  - intros m data Hin Hlen.
    split.
    + apply (for_each_train_metric_keeps (fun s => models s !! isolation_forest_key m));
        [reflexivity | reflexivity |].
      intros m' data' Hin'. destruct (decide (m' = m)) as [->|Hne].
      * left. rewrite (same_key_same_series _ _ _ _ Hnd Hin' Hin). exact Hlen.
      * right. intros est s0. split; apply models_set_model_ne.
        -- intros E. apply Hne, isolation_forest_key_inj, E.
        -- intros E. symmetry in E. exact (keys_differ _ _ E).
    + apply (for_each_train_metric_keeps (fun s => models s !! dbscan_key m));
        [reflexivity | reflexivity |].
      intros m' data' Hin'. destruct (decide (m' = m)) as [->|Hne].
      * left. rewrite (same_key_same_series _ _ _ _ Hnd Hin' Hin). exact Hlen.
      * right. intros est s0. split; apply models_set_model_ne.
        -- exact (keys_differ _ _).
        -- intros E. apply Hne, dbscan_key_inj, E.
  - intros m data est Hin. cbv zeta. intros Hlen.
    apply list_elem_of_split in Hin as (l1 & l2 & ->).
    rewrite exec_for_each_app, exec_for_each_cons by apply train_metric_no_raise.
    set (s1 := exec (for_each l1 train_metric) s).
    assert (config s1 = config s) as Hcfg.
    { apply (for_each_train_metric_keeps config); [reflexivity | reflexivity |].
      intros. right. intros. split; reflexivity. }
    rewrite fmap_app, fmap_cons in Hnd. apply NoDup_app in Hnd as (_ & _ & Hnd).
    apply NoDup_cons in Hnd as [Hm _]. simpl in Hm.
    assert (forall m' data', (m', data') ∈ l2 -> m' <> m) as Hl2.
    { intros m' data' Hin' ->. apply Hm. apply list_elem_of_fmap.
      exists (m, data'). split; [reflexivity | exact Hin']. }
    rewrite <- Hcfg in *.
    destruct (train_metric_stores m data s1 Hlen est) as [Hif Hdb].
    split; intros Hfit.
    + rewrite (for_each_train_metric_keeps (fun s => models s !! isolation_forest_key m));
        [apply Hif, Hfit | reflexivity | reflexivity |].
      intros m' data' Hin'. right. intros e s0. split; apply models_set_model_ne.
      * intros E. apply (Hl2 _ _ Hin'), isolation_forest_key_inj, E.
      * intros E. symmetry in E. exact (keys_differ _ _ E).
    + rewrite (for_each_train_metric_keeps (fun s => models s !! dbscan_key m));
        [apply Hdb, Hfit | reflexivity | reflexivity |].
      intros m' data' Hin'. right. intros e s0. split; apply models_set_model_ne.
      * exact (keys_differ _ _).
      * intros E. apply (Hl2 _ _ Hin'), dbscan_key_inj, E.
Qed.

(** C10 (amended): [train_models] never raises; it sets the trained flag and
    the training time, after which no [detect_anomalies] call answers "Models
    not trained".  When every series had fewer than ten rows and no model
    was held before, none is held after, and detection returns statistical
    findings only; a z-score finding records as its threshold the one held
    for its column after training, 3.0 where none is held. *)
Theorem train_models_then_detect (s : AnomalyDetectionModel) training_data now :
  let s' := exec (train_models training_data now) s in
  eval (train_models training_data now) s = Ok tt /\
  is_trained s' = true /\
  last_training s' = Some now /\
  (forall data m, exists r,
     eval (detect_anomalies data m) s' = Ok r /\ r_method r <> "none") /\
  (Forall (fun entry => (len (snd entry) < 10)%nat) training_data ->
   models s = ∅ ->
   models s' = ∅ /\
   forall data m, exists r,
     eval (detect_anomalies data m) s' = Ok r /\
     r_method r = "ensemble" /\
     Forall (statistical_finding s' m) (r_anomalies r)).
Proof.
  intros s'. subst s'. unfold eval at 1, exec. rewrite train_models_eq. simpl.
  set (s' := set_last_training _ _).
  assert (is_trained s' = true) as Ht by reflexivity.
  split; [reflexivity|]. split; [reflexivity|]. split; [reflexivity|]. split.
  - intros data m. unfold eval. rewrite detect_anomalies_trained by exact Ht.
    pose proof (detect_body_method data m s') as Hm. unfold eval in Hm.
    destruct (detect_body data m s') as [[r|e] s2]; simpl.
    + exists r. split; [reflexivity|]. rewrite (Hm r eq_refl). discriminate.
    + eexists. split; [reflexivity|]. simpl. discriminate.
  - intros Hshort Hempty.
    assert (models s' = ∅) as Hm.
    { subst s'. simpl. rewrite <- Hempty.
      apply (for_each_train_metric_keeps models); [reflexivity | reflexivity |].
      intros m data Hin. left. rewrite Forall_forall in Hshort. apply (Hshort _ Hin). }
    split; [exact Hm|]. intros data m.
    destruct (detect_anomalies_statistical data m s' Ht) as (r & E & Hr & _ & Hf).
    + rewrite Hm. apply lookup_empty.
    + rewrite Hm. apply lookup_empty.
    + exists r. auto.
Qed.

End Theorems.

Import AnomalyDetection AnomalyProperties AnomalyFacts AnomalyExamples.

(** C1, the claim as stated fails: after training on [memory_usage] only,
    no model is held for [cpu_usage], and detection on [cpu_usage] answers
    with the "ensemble" result and one IQR finding, not "Models not trained". *)
Lemma detect_untrained_metric_counterexample :
  models trained_long !! isolation_forest_key "cpu_usage" = None /\
  models trained_long !! dbscan_key "cpu_usage" = None /\
  models trained_long !! isolation_forest_key "memory_usage" <> None /\
  match eval (detect_anomalies (L := RefLib.library) (batch "cpu_usage") "cpu_usage")
             trained_long return Prop with
  | Ok r =>
      r_method r = "ensemble" /\ r_error r = None /\
      map (fun a => (a_index a, a_method a)) (r_anomalies r) = [(4%nat, "iqr")]
  | Raise _ => False
  end.
Proof. vm_compute. repeat split; discriminate. Qed.

(** C3, the claim as stated fails: a detector trained on [cpu_usage] holds
    the scaler fitted in training (mean 2) under ["standard"]; after one
    detection call it holds the scaler refitted on the batch (mean 0). *)
Lemma detect_changes_scalers_counterexample :
  is_trained trained_short = true /\
  scalers trained_short !! "standard" = Some [(Fin 2, Fin 1)] /\
  scalers (exec (detect_anomalies (L := RefLib.library) (batch "cpu_usage") "cpu_usage")
                trained_short) !! "standard" = Some [(Fin 0, Fin 1)].
Proof. vm_compute. repeat split. Qed.

(** C5, the claim as stated fails: after a training call whose only series
    has two rows, the status reports the component trained, with no model
    and two thresholds; nothing in it reports [cpu_usage] untrained. *)
Lemma status_after_short_series_counterexample :
  len short_series = 2%nat /\
  st_is_trained (get_model_status trained_short) = true /\
  st_models_count (get_model_status trained_short) = 0%nat /\
  st_thresholds_count (get_model_status trained_short) = 2%nat.
Proof. vm_compute. repeat split. Qed.

(** C10, the claim as stated fails: after training on two rows of
    [cpu_usage] no model is held, yet the z-score threshold 1 is stored for
    the column, and detection reports row 4 (z-score 2) against it; the
    default threshold 3.0 would not report a z-score finding. *)
Lemma short_training_stores_thresholds_counterexample :
  size (models trained_short) = 0%nat /\
  thresholds trained_short !! z_score_key "cpu_usage" "cpu_usage" = Some (Fin 1) /\
  match eval (detect_anomalies (L := RefLib.library) (batch "cpu_usage") "cpu_usage")
             trained_short return Prop with
  | Ok r =>
      map (fun a => (a_index a, a_method a, d_z_score <$> a_details a,
                     d_threshold <$> a_details a)) (r_anomalies r)
      = [(4%nat, "z_score", Some (Some (Fin 2)), Some (Fin 1))]
  | Raise _ => False
  end.
Proof. vm_compute. repeat split. Qed.

(** C5, an instance: [cpu_usage] with two rows next to [memory_usage] with
    twelve. *)
Lemma train_models_short_series_witness :
  NoDup (map fst [("cpu_usage", short_series); ("memory_usage", long_series)]) /\
  let s' := exec (train_models (L := RefLib.library)
                    [("cpu_usage", short_series); ("memory_usage", long_series)] t0) fresh in
  models s' !! isolation_forest_key "cpu_usage" = None /\
  models s' !! dbscan_key "cpu_usage" = None.
Proof.
  assert (NoDup (map fst [("cpu_usage", short_series); ("memory_usage", long_series)])) as H.
  { simpl. apply NoDup_cons. split; [|apply NoDup_singleton].
    intros Hin. apply elem_of_cons in Hin as [Hin|Hin]; [discriminate Hin | inversion Hin]. }
  split; [exact H|].
  destruct (train_models_short_series (L := RefLib.library) fresh _ t0 H)
    as (_ & _ & Hshort & _).
  apply (Hshort "cpu_usage" short_series).
  - left.
  - vm_compute. lia.
Defined.

End AnomalyTheorems.

Module ScalingTheorems.
Section Theorems.
Context {L : Library}.
Import PredictiveScaling ScalingProperties ScalingFacts.

(** C2 (amended): the split of a training set that passes the size check is
    a seeded random one, not a time-ordered one: the test partition is the
    feature rows at the first [ceil(test_size * n)] positions, the product
    taken in floats, of the permutation drawn from [random_state], the
    training partition the rows at the remaining positions.  One scaler is
    fitted, on the training partition, and [train_models] stores it under
    ["feature_scaler"] once the test partition is transformed with it.
    [predict_scaling_needs] changes nothing of the model; on a trained model
    that holds a scaler under ["feature_scaler"] it transforms the prepared
    features with that scaler: an error of the transform is the error of the
    answer, and every predicted series is the mean of what the estimators
    held for its target predict from the transformed features. *)
Theorem train_models_split_and_scaler (self : PredictiveScalingModel) data now
    X_train X_test y_train y_test X_columns y_columns :
  training_split (config self) data
    = Ok (X_train, X_test, y_train, y_test, X_columns, y_columns) ->
  (exists X y n_train n_test product,
     prepare_features data = Ok (X, y) /\
     float_mul (test_size (config self)) (of_nat (len X)) = Fin product /\
     n_test = Z.to_nat (Qceiling product) /\
     n_train = (len X - n_test)%nat /\
     let permutation := rng_permutation (random_state (config self)) (len X) in
     take_rows (df_rows X) (firstn n_test permutation) = Ok (df_rows X_test) /\
     take_rows (df_rows X) (firstn n_train (skipn n_test permutation))
       = Ok (df_rows X_train)) /\
  (forall train scaler X_train_scaled test X_test_scaled,
     frame_matrix X_train = Ok train ->
     scaler_fit_transform train = Ok (scaler, X_train_scaled) ->
     frame_matrix X_test = Ok test ->
     scaler_transform scaler test = Ok X_test_scaled ->
     scalers (exec (train_models data now) self) !! "feature_scaler" = Some scaler) /\
  (forall s current_data horizon t,
     exec (predict_scaling_needs current_data horizon t) s = s) /\
  (forall s current_data horizon t scaler X_pred y X,
     is_trained s = true ->
     scalers s !! "feature_scaler" = Some scaler ->
     prepare_features current_data = Ok (X_pred, y) ->
     frame_matrix X_pred = Ok X ->
     match scaler_transform scaler X with
     | Raise e =>
         eval (predict_scaling_needs current_data horizon t) s = Ok (error_result e)
     | Ok X_scaled =>
         exists r,
           eval (predict_scaling_needs current_data horizon t) s = Ok r /\
           forall target values,
             (target, values) ∈ p_predictions r ->
             predicted_from s X_scaled target values
     end).
Proof.
  intros Hsplit. split; [|split; [|split]].
  - destruct (training_split_inv _ _ _ _ _ _ _ _ Hsplit)
      as (X & y & n_train & n_test & Hprepare & Hsizes & Hrows).
    destruct (split_sizes_inv _ _ _ _ Hsizes) as (product & Hproduct & Htest & Htrain).
    exists X, y, n_train, n_test, product. repeat split; try assumption; apply Hrows.
  - intros train scaler X_train_scaled test X_test_scaled Htrain Hfit Htest Htransform.
    apply (train_models_stores_scaler self data now X_train X_test y_train y_test
             X_columns y_columns scaler X_train_scaled X_test_scaled Hsplit).
    unfold fit_feature_scaler. rewrite Htrain, Hfit, Htest, Htransform. reflexivity.
  - intros s current_data horizon t. symmetry.
    apply (predict_scaling_needs_pure current_data horizon t s).
  - intros s current_data horizon t scaler X_pred y X.
    apply predict_scaling_needs_scaled.
Qed.

(** C4: with the thresholds configured, the recommendations for a target are
    exactly the forecast points of the first [horizon] hours at which the
    band rule fires, in order, each with its hour, its value and the action
    of the rule.  The rule is strict: above the high threshold it gives
    scale_up, at the high threshold no scale_up (and nothing when the band
    is not empty), below the low threshold scale_down, within the band
    nothing; throughput gives scale_up below its low threshold and never
    scale_down; any other target gives nothing. *)
Theorem scaling_recommendations_band (self : PredictiveScalingModel) target predictions
    horizon :
  thresholds_configured self ->
  map outline (_generate_scaling_recommendations self target predictions horizon)
    = omap (expected_outline self target) (enumerate (slice_to horizon predictions)) /\
  (forall high low p,
     (fgt p high = true -> band high low p = Some "scale_up") /\
     (feq p high -> band high low p <> Some "scale_up") /\
     (feq p high -> fle low high = true -> band high low p = None) /\
     (flt p low = true -> fle low high = true -> band high low p = Some "scale_down") /\
     (fle low p = true -> fle p high = true -> band high low p = None)) /\
  (forall low p,
     (flt p low = true -> floor_only low p = Some "scale_up") /\
     (flt p low = false -> floor_only low p = None) /\
     floor_only low p <> Some "scale_down") /\
  (forall p, target ∉ ["cpu_usage"; "memory_usage"; "response_time"; "throughput"] ->
             expected_action self target p = None).
Proof.
  intros Hcfg. split; [|split; [|split]].
  - apply _generate_scaling_recommendations_outline, Hcfg.
  - intros high low p. unfold band, fgt. repeat split.
    + intros ->. reflexivity.
    + intros H. apply feq_flt_false in H as [_ ->].
      destruct (flt p low); discriminate.
    + intros H Hband. pose proof (feq_fle_l _ _ _ H Hband) as Hle.
      apply feq_flt_false in H as [_ ->].
      rewrite (fle_flt_false _ _ Hle). reflexivity.
    + intros Hlow Hband.
      rewrite (flt_asym _ _ (flt_fle_trans _ _ _ Hlow Hband)), Hlow. reflexivity.
    + intros Hlow Hhigh.
      rewrite (fle_flt_false _ _ Hhigh), (fle_flt_false _ _ Hlow). reflexivity.
  - intros low p. unfold floor_only. repeat split.
    + intros ->. reflexivity.
    + intros ->. reflexivity.
    + destruct (flt p low); discriminate.
  - intros p Hout. unfold expected_action.
    destruct (String.eqb_spec target "cpu_usage") as [->|_]; [set_solver|].
    destruct (String.eqb_spec target "memory_usage") as [->|_]; [set_solver|].
    destruct (String.eqb_spec target "response_time") as [->|_]; [set_solver|].
    destruct (String.eqb_spec target "throughput") as [->|_]; [set_solver|].
    reflexivity.
Qed.

End Theorems.

Import PredictiveScaling ScalingProperties ScalingFacts ScalingExamples.

(** C2, the claim as stated fails: 101 hourly samples pass the size check
    and leave five feature rows, of hours 96 to 100.  The test partition is the row of
    hour 97; the training partition holds the rows of hours 100, 98, 96 and
    99, three of them later than the test row. *)
Lemma split_not_time_ordered_counterexample :
  match training_split (L := RefLib.library) (config fresh) (hourly 101) return Prop with
  | Ok _ => True
  | Raise _ => False
  end /\
  partition_times (L := RefLib.library) (config fresh) (hourly 101)
    = Ok ([CTime 1704427200; CTime 1704420000; CTime 1704412800; CTime 1704423600],
          [CTime 1704416400]) /\
  ~ time_ordered
      ([CTime 1704427200; CTime 1704420000; CTime 1704412800; CTime 1704423600],
       [CTime 1704416400]).
Proof.
  split; [vm_compute; exact I|]. split; [vm_compute; reflexivity|].
  intros H. specialize (H 1704427200%Z 1704416400%Z). simpl in H.
  assert (1704427200 <= 1704416400)%Z as Habs; [|lia].
  apply H; [left | left].
Qed.

(** C2, an instance: the split of 101 hourly samples. *)
Lemma train_models_split_and_scaler_witness :
  training_split (L := RefLib.library) (config fresh) (hourly 101) = Ok split_101 /\
  exists X y n_train n_test product,
    prepare_features (L := RefLib.library) (hourly 101) = Ok (X, y) /\
    float_mul (Library := RefLib.library) (test_size (config fresh)) (of_nat (len X))
      = Fin product /\
    n_test = Z.to_nat (Qceiling product) /\
    n_train = (len X - n_test)%nat.
Proof.
  assert (training_split (L := RefLib.library) (config fresh) (hourly 101) = Ok split_101)
    as Hsplit.
  { assert (match training_split (L := RefLib.library) (config fresh) (hourly 101)
                  return Prop with
            | Ok _ => True
            | Raise _ => False
            end) as Hok by (vm_compute; exact I).
    unfold split_101.
    destruct (training_split (L := RefLib.library) (config fresh) (hourly 101));
      [reflexivity | destruct Hok]. }
  split; [exact Hsplit|].
  destruct split_101 as [[[[[X_train X_test] y_train] y_test] X_columns] y_columns].
  destruct (train_models_split_and_scaler (L := RefLib.library) fresh (hourly 101)
              1700000000%Z _ _ _ _ _ _ Hsplit)
    as ((X & y & n_train & n_test & product & Hprepare & Hproduct & Htest & Htrain & _) & _).
  exists X, y, n_train, n_test, product. repeat split; assumption.
Defined.

(** The sizes of a split are taken from the product of doubles: of 100 rows
    with [test_size] 0.07, where 0.07 * 100 is 7.000000000000001, eight go
    to the test partition. *)
Lemma split_sizes_of_doubles :
  split_sizes (L := RefLib.library) (Fin 0.07) 100 = Ok (92%nat, 8%nat) /\
  split_sizes (L := RefLib.library) (Fin 0.2) 5 = Ok (4%nat, 1%nat).
Proof. split; vm_compute; reflexivity. Qed.

(** C4, an instance: the default thresholds and a forecast of CPU usage that
    touches the high threshold, passes it, stays in the band and drops under
    the low threshold. *)
Lemma scaling_recommendations_band_witness :
  thresholds_configured fresh /\
  map outline (_generate_scaling_recommendations (L := RefLib.library) fresh "cpu_usage"
                 [Fin 80; Fin 81; Fin 50; Fin 19] 24)
  = [(2%nat, Fin 81, Some "scale_up"); (4%nat, Fin 19, Some "scale_down")].
Proof.
  assert (thresholds_configured fresh) as H.
  { intros key Hin. repeat (apply elem_of_cons in Hin as [->|Hin]; [vm_compute; eauto|]).
    inversion Hin. }
  split; [exact H|].
  destruct (scaling_recommendations_band (L := RefLib.library) fresh "cpu_usage"
              [Fin 80; Fin 81; Fin 50; Fin 19] 24 H) as [-> _].
  vm_compute. reflexivity.
Defined.

End ScalingTheorems.

Module RootCauseTheorems.
Section Theorems.
Context {L : Library}.
Import RootCauseAnalysis RootCauseProperties ScalingFacts RootCauseFacts.

(** C6: a trained analyzer answers from the hypotheses generated out of the
    analysis of the incident data, all of them ranked.  Ranking gives every
    hypothesis the score confidence times severity weight (high 3, medium 2,
    low 1), the product of the floats, and sorts by descending score, so
    that of two hypotheses of one confidence, which the weights separate,
    the one of heavier severity comes first.  The answer holds the first
    [max_root_causes] (5 by default) of the ranking, and as confidence the
    mean confidence of the whole ranking. *)
Theorem root_cause_ranking (s : RootCauseAnalysisModel) incident_data incident_metrics
    now later :
  is_trained s = true ->
  scores_are_numbers ->
  product_of_value ->
  exists analysis_results,
    eval (analysed incident_data incident_metrics) s = Ok analysis_results /\
    let generated := _generate_root_cause_hypotheses analysis_results in
    let ranked := _rank_root_causes generated in
    eval (analyze_root_cause incident_data incident_metrics now later) s
    = Ok (mkAnalysis (slice_to (max_root_causes (config s)) ranked)
                     (np_mean (map h_confidence ranked))
                     (analysis_path analysis_results)
                     (Some (isoformat later)) None) /\
    ranked ≡ₚ map score generated /\
    map h_confidence ranked ≡ₚ map h_confidence generated /\
    (forall h, h ∈ ranked ->
       h_weighted_score h
       = Some (float_mul (h_confidence h) (severity_weight (h_severity h)))) /\
    (severity_weight "high" = Fin 3 /\ severity_weight "medium" = Fin 2 /\
     severity_weight "low" = Fin 1) /\
    StronglySorted (not_below weighted_score) ranked /\
    (forall i j h1 h2,
       ranked !! i = Some h1 -> ranked !! j = Some h2 ->
       feq (h_confidence h1) (h_confidence h2) ->
       separates (h_confidence h1) ->
       flt (severity_weight (h_severity h2)) (severity_weight (h_severity h1)) = true ->
       (i < j)%nat) /\
    ((0 <= max_root_causes (config s))%Z ->
     slice_to (max_root_causes (config s)) ranked
     = firstn (Z.to_nat (max_root_causes (config s))) ranked) /\
    max_root_causes default_config = 5%Z.
Proof.
  intros Ht Hnum Hvalue.
  destruct (analyze_root_cause_analysed s incident_data incident_metrics now later Ht)
    as (analysis_results & Hanalysed & Heval).
  exists analysis_results. split; [exact Hanalysed|]. cbv zeta in *.
  set (generated := _generate_root_cause_hypotheses analysis_results) in *.
  set (ranked := _rank_root_causes generated) in *.
  assert (ranked ≡ₚ map score generated) as Hperm by apply sorted_desc_perm.
  assert (StronglySorted (not_below weighted_score) ranked) as Hsorted.
  { apply ranked_sorted, generated_scores_finite, Hnum. }
  split; [exact Heval|]. split; [exact Hperm|]. split.
  { rewrite Hperm, map_map. reflexivity. }
  split; [intros h; apply ranked_scores|].
  split; [repeat split; reflexivity|].
  split; [exact Hsorted|]. split; [|split].
  - intros i j h1 h2 Hi Hj Hc Hsep Hw.
    destruct (Nat.lt_ge_cases i j) as [Hlt|Hge]; [exact Hlt | exfalso].
    assert (h1 ∈ ranked) as Hin1 by (eapply list_elem_of_lookup_2, Hi).
    assert (h2 ∈ ranked) as Hin2 by (eapply list_elem_of_lookup_2, Hj).
    apply Nat.lt_eq_cases in Hge as [Hlt | ->].
    + pose proof (sorted_lookup _ _ _ _ _ _ Hsorted Hj Hi Hlt) as Hnb.
      unfold not_below, weighted_score in Hnb.
      rewrite (ranked_scores _ _ Hin1), (ranked_scores _ _ Hin2) in Hnb. simpl in Hnb.
      assert (float_mul (h_confidence h2) (severity_weight (h_severity h2))
              = float_mul (h_confidence h1) (severity_weight (h_severity h2))) as Hsame.
      { destruct (h_confidence h1) as [c1|], (h_confidence h2) as [c2|];
          simpl in Hc; try contradiction; [|reflexivity].
        apply Hvalue. symmetry. exact Hc. }
      rewrite Hsame, (heavier_scores_more _ _ _ Hsep Hw) in Hnb. discriminate.
    + rewrite Hi in Hj. inversion Hj; subst. rewrite flt_irrefl in Hw. discriminate.
  - intros Hk. unfold slice_to.
    destruct (Z.leb_spec 0 (max_root_causes (config s))); [reflexivity | lia].
  - reflexivity.
Qed.

(** C7 (amended): the dependency_bottleneck hypotheses are made from the
    first three entries of the by-degree ranking of level 3, one for each
    entry whose centrality exceeds 0.8, in order; a metric further down the
    ranking gets none.  Each has severity high and confidence
    [min(0.8, centrality)], which is 0.8. *)
Theorem dependency_bottleneck_hypotheses (analysis_results : AnalysisResults) :
  let ranking :=
    match central_metrics (level_3 analysis_results) with
    | Some c => firstn 3 (by_degree c)
    | None => []
    end in
  map (fun h => (h_metric h, h_confidence h, h_severity h))
      (filter (fun h => h_type h = "dependency_bottleneck")
              (_generate_root_cause_hypotheses analysis_results))
  = map (fun entry => (fst entry, Fin 0.8, "high"))
        (filter (fun entry => fgt (snd entry) (Fin 0.8) = true) ranking).
Proof.
  cbv zeta. unfold _generate_root_cause_hypotheses. rewrite !filter_app, !map_app.
  assert (filter (fun h => h_type h = "dependency_bottleneck")
            (concat (map statistical_hypotheses (level_1 analysis_results))) = []) as ->.
  { induction (level_1 analysis_results) as [|[metric stats] l IH]; [reflexivity|].
    simpl. rewrite filter_app, IH, app_nil_r.
    destruct (0 <? _)%nat; destruct (trend stats) as [t|]; try destruct (flt _ _);
      reflexivity. }
  assert (filter (fun h => h_type h = "dependency_bottleneck")
            (pattern_hypotheses (level_2 analysis_results)) = []) as ->.
  { unfold pattern_hypotheses.
    destruct (anomaly_detection _) as [a|]; [destruct (0 <? _)%nat|];
      (destruct (kmeans_clusters _) as [c|]; [destruct (flt _ _)|]); reflexivity. }
  cbn [app map]. unfold dependency_hypotheses.
  destruct (central_metrics (level_3 analysis_results)) as [c|]; [|reflexivity].
  induction (firstn 3 (by_degree c)) as [|[metric centrality] l IH]; [reflexivity|].
  cbn [map concat]. rewrite filter_app, map_app, IH, filter_cons.
  unfold bottleneck_hypothesis, fgt. cbn [fst snd].
  destruct (flt (Fin 0.8) centrality) eqn:E.
  - rewrite decide_True by reflexivity.
    unfold py_min. rewrite (flt_asym _ _ E). reflexivity.
  - rewrite decide_False by discriminate. reflexivity.
Qed.

End Theorems.

Import RootCauseAnalysis RootCauseProperties RootCauseFacts RootCauseExamples.

(** C7, the claim as stated fails: with four metrics of degree centrality 1,
    the hypotheses name the first three only, and their confidence is 0.8,
    not the centrality. *)
Lemma bottleneck_counterexample :
  map (fun h => (h_type h, h_metric h, h_confidence h))
      (_generate_root_cause_hypotheses (L := RefLib.library) complete_graph_results)
  = [("dependency_bottleneck", "cpu_usage", Fin 0.8);
     ("dependency_bottleneck", "memory_usage", Fin 0.8);
     ("dependency_bottleneck", "response_time", Fin 0.8)].
Proof. vm_compute. reflexivity. Qed.

(** The products of the reference library are numbers, and those of the
    number that a fraction stands for. *)
Lemma reference_scores_are_numbers : scores_are_numbers (L := RefLib.library).
Proof. intros c _ _. repeat split; eexists; reflexivity. Qed.

Lemma reference_product_of_value : product_of_value (L := RefLib.library).
Proof.
  intros c1 c2 w H.
  assert (RefLib.round64 c1 = RefLib.round64 c2) as Hround.
  { unfold RefLib.round64. rewrite (Qred_complete _ _ H). reflexivity. }
  destruct w as [b|]; [|reflexivity].
  change (Fin (RefLib.round64 (RefLib.round64 c1 * RefLib.round64 b))
          = Fin (RefLib.round64 (RefLib.round64 c2 * RefLib.round64 b))).
  rewrite Hround. reflexivity.
Qed.

(** C6, an instance: a trained analyzer that returns two root causes at
    most and holds the complete correlation graph on four metrics.  Three
    bottleneck hypotheses are generated and ranked, each with the score
    0.8 * 3 = 2.4000000000000004; the answer holds the first two, and as
    confidence the mean of the three confidences. *)
Lemma root_cause_ranking_witness :
  is_trained correlated = true /\
  scores_are_numbers (L := RefLib.library) /\
  product_of_value (L := RefLib.library) /\
  exists r,
    eval (analyze_root_cause (L := RefLib.library) (ScalingExamples.hourly 2)
            (mkIncident None []) 1700000000%Z 1700000001%Z) correlated = Ok r /\
    map (fun h => (h_type h, h_metric h, h_confidence h, h_severity h, h_weighted_score h))
        (root_causes r)
    = [("dependency_bottleneck", "cpu_usage", Fin 0.8, "high",
        Some (Fin (1351079888211149 # 562949953421312)));
       ("dependency_bottleneck", "memory_usage", Fin 0.8, "high",
        Some (Fin (1351079888211149 # 562949953421312)))] /\
    confidence r = np_mean [Fin 0.8; Fin 0.8; Fin 0.8].
Proof.
  split; [reflexivity|].
  split; [exact reference_scores_are_numbers|].
  split; [exact reference_product_of_value|].
  destruct (root_cause_ranking (L := RefLib.library) correlated (ScalingExamples.hourly 2)
              (mkIncident None []) 1700000000%Z 1700000001%Z eq_refl
              reference_scores_are_numbers reference_product_of_value)
    as (analysis_results & Hanalysed & Heval & _).
  vm_compute in Hanalysed. injection Hanalysed as <-.
  eexists. split; [exact Heval|].
  split; vm_compute; reflexivity.
Defined.

End RootCauseTheorems.

Module PersistenceTheorems.
Section Theorems.
Context {L : Library}.
Import Persistence PersistenceProperties PersistenceFacts.


(** C9: for each of the three components, when [save_models] can write the
    path, [load_models] from it on a freshly constructed object gives an
    object equal to the saved one, attribute by attribute; so
    [get_model_status] answers the same for both: trained flag, counts and
    last-training timestamp. *)
Theorem save_then_load_status (fs : FileSystem) (filepath : string) :
  filepath ∉ unwritable fs ->
  (forall self u,
     let loaded :=
       exec (Anomaly.load_models (exec (Anomaly.save_models self filepath) fs) filepath)
            (AnomalyDetection.init u) in
     loaded = self /\
     AnomalyDetection.get_model_status loaded = AnomalyDetection.get_model_status self) /\
  (forall self u,
     let loaded :=
       exec (Scaling.load_models (exec (Scaling.save_models self filepath) fs) filepath)
            (PredictiveScaling.init u) in
     loaded = self /\
     PredictiveScaling.get_model_status loaded = PredictiveScaling.get_model_status self) /\
  (forall self u,
     let loaded :=
       exec (RootCause.load_models (exec (RootCause.save_models self filepath) fs) filepath)
            (RootCauseAnalysis.init u) in
     loaded = self /\
     RootCauseAnalysis.get_model_status loaded = RootCauseAnalysis.get_model_status self).
Proof.
  intros Hw.
  assert (forall self u,
            exec (Anomaly.load_models (exec (Anomaly.save_models self filepath) fs) filepath)
                 (AnomalyDetection.init u) = self) as Ha.
  { intros self u. unfold exec at 1. rewrite anomaly_load_models. simpl.
    unfold anomaly_loaded, Anomaly.save_models.
    rewrite joblib_load_dump by (exact Hw || discriminate). reflexivity. }
  assert (forall self u,
            exec (Scaling.load_models (exec (Scaling.save_models self filepath) fs) filepath)
                 (PredictiveScaling.init u) = self) as Hs.
  { intros self u. unfold exec at 1. rewrite scaling_load_models. simpl.
    unfold scaling_loaded, Scaling.save_models.
    rewrite joblib_load_dump by (exact Hw || discriminate). reflexivity. }
  assert (forall self u,
            exec (RootCause.load_models (exec (RootCause.save_models self filepath) fs)
                    filepath)
                 (RootCauseAnalysis.init u) = self) as Hr.
  { intros self u. unfold exec at 1. rewrite root_cause_load_models. simpl.
    unfold root_cause_loaded, RootCause.save_models.
    rewrite joblib_load_dump by (exact Hw || discriminate). reflexivity. }
  repeat split; cbv zeta; rewrite ?Ha, ?Hs, ?Hr; reflexivity.
Qed.

End Theorems.

Import Persistence PersistenceExamples.


(** C9, an instance: the detector trained on twelve rows, saved and loaded
    into a default detector. *)
Lemma save_then_load_status_witness :
  ("anomaly.joblib" ∉ unwritable empty_disk) /\
  AnomalyDetection.get_model_status
    (exec (Anomaly.load_models (L := RefLib.library) anomaly_file "anomaly.joblib")
          (AnomalyDetection.init AnomalyDetection.no_config))
  = AnomalyDetection.get_model_status AnomalyExamples.trained_long.
Proof.
  assert ("anomaly.joblib" ∉ unwritable empty_disk) as Hw by apply not_elem_of_empty.
  split; [exact Hw|].
  exact (proj2 (proj1 (save_then_load_status (L := RefLib.library) empty_disk
                         "anomaly.joblib" Hw)
                  AnomalyExamples.trained_long AnomalyDetection.no_config)).
Defined.

End PersistenceTheorems.

(** * Further facts and theorems *)

Module AnomalyResultFacts.
Section Facts.
Context {L : Library}.
Import AnomalyDetection AnomalyProperties AnomalyResultProperties AnomalyFacts.

(** [np.where] lists positions in increasing order. *)
Lemma where_from_bounds {A} (p : A -> bool) i (l : list A) k :
  k ∈ where_from p i l -> (i <= k < i + length l)%nat.
Proof.
  revert i. induction l as [|x l IH]; intros i H; simpl in *.
  - inversion H.
  - destruct (p x).
    + apply elem_of_cons in H as [-> | H]; [lia|]. apply IH in H. lia.
    + apply IH in H. lia.
Qed.

Lemma where_from_nodup {A} (p : A -> bool) i (l : list A) : NoDup (where_from p i l).
Proof.
  revert i. induction l as [|x l IH]; intros i; simpl; [constructor|].
  destruct (p x); [|apply IH].
  constructor; [|apply IH]. intros H. apply where_from_bounds in H. lia.
Qed.

Lemma np_where_nodup {A} (p : A -> bool) (l : list A) : NoDup (np_where p l).
Proof. apply where_from_nodup. Qed.

Lemma np_where_bounds {A} (p : A -> bool) (l : list A) k :
  k ∈ np_where p l -> (k < length l)%nat.
Proof. intros H. apply where_from_bounds in H. lia. Qed.

Lemma already_detected_false idx (anomalies : list Anomaly) :
  already_detected idx anomalies = false -> idx ∉ map a_index anomalies.
Proof.
  unfold already_detected. intros H Hin.
  apply list_elem_of_fmap in Hin as (a & -> & Ha).
  assert (existsb (fun a0 => a_index a0 =? a_index a)%nat anomalies = true) as Ht.
  { apply existsb_exists. exists a. split; [apply list_elem_of_In, Ha | apply Nat.eqb_refl]. }
  congruence.
Qed.

(** The rows that [report] adds are rows named in [indices]; with [dedupe]
    no row is added twice. *)
Lemma report_indices data method confidence dedupe indices found found' :
  report data method confidence dedupe indices found = Ok found' ->
  NoDup (map a_index (fst found)) ->
  (dedupe = true \/
   (NoDup indices /\ forall i, i ∈ indices -> i ∉ map a_index (fst found))) ->
  NoDup (map a_index (fst found')).
Proof.
  revert found. induction indices as [|idx rest IH]; intros found E Hnd Hd; simpl in E.
  - inversion E; subst. exact Hnd.
  - destruct (dedupe && already_detected idx (fst found)) eqn:Hdd.
    + apply (IH found E Hnd).
      destruct Hd as [Hd | [Hr Hi]]; [left; exact Hd|].
      apply andb_true_iff in Hdd as [-> _]. left. reflexivity.
    + destruct (iloc data idx) as [row|e]; [|discriminate].
      apply (IH _ E); simpl.
      * rewrite map_app. simpl. apply NoDup_app. split; [exact Hnd|]. split.
        -- intros x Hx Hx'. apply list_elem_of_singleton in Hx'. subst x.
           destruct Hd as [-> | [Hr Hi]].
           ++ simpl in Hdd. apply already_detected_false in Hdd. contradiction.
           ++ apply (Hi idx); [left | exact Hx].
        -- apply NoDup_singleton.
      * destruct Hd as [Hd | [Hr Hi]]; [left; exact Hd | right].
        apply NoDup_cons in Hr as [Hidx Hr]. split; [exact Hr|].
        intros i Hin. rewrite map_app. simpl. intros Hx.
        apply elem_of_app in Hx as [Hx | Hx].
        -- apply (Hi i); [right; exact Hin | exact Hx].
        -- apply list_elem_of_singleton in Hx. subst i. contradiction.
Qed.

Lemma merge_statistical_nodup stat found :
  NoDup (map a_index (fst found)) ->
  NoDup (map a_index (fst (merge_statistical stat found))).
Proof.
  revert found. induction stat as [|a stat IH]; intros found H; simpl; [exact H|].
  destruct (already_detected (a_index a) (fst found)) eqn:E; [apply IH, H|].
  apply IH. simpl. rewrite map_app. simpl.
  apply NoDup_app. split; [exact H|]. split; [|apply NoDup_singleton].
  intros x Hx Hx'. apply list_elem_of_singleton in Hx'. subst x.
  apply already_detected_false in E. contradiction.
Qed.

Lemma detect_isolation_forest_nodup data X m s found s' :
  detect_isolation_forest data X m ([], []) s = (Ok found, s') ->
  NoDup (map a_index (fst found)).
Proof.
  unfold detect_isolation_forest, bind, gets, lift, ret.
  destruct (models s !! isolation_forest_key m) as [model|].
  - destruct (predict model X) as [predictions|e]; [|discriminate].
    destruct (report _ _ _ _ _ _) as [f|e] eqn:E; [|discriminate].
    intros [= <- <-]. eapply report_indices; [exact E | constructor |].
    right. split; [apply np_where_nodup|]. intros i _ Hi. inversion Hi.
  - intros [= <- <-]. constructor.
Qed.

Lemma detect_dbscan_nodup data X m s found0 found s' :
  detect_dbscan data X m found0 s = (Ok found, s') ->
  NoDup (map a_index (fst found0)) ->
  NoDup (map a_index (fst found)).
Proof.
  unfold detect_dbscan, bind, gets, lift, ret, modify.
  destruct (models s !! dbscan_key m) as [model|].
  - destruct (fit_predict model X) as [[model' labels]|e]; [|discriminate].
    destruct (report _ _ _ _ _ _) as [f|e] eqn:E; [|discriminate].
    intros [= <- <-] H. eapply report_indices; [exact E | exact H | left; reflexivity].
  - intros [= <- <-] H. exact H.
Qed.

(** The answer of the [try] block of [detect_anomalies]. *)
Lemma detect_body_ensemble data m s r :
  eval (detect_body data m) s = Ok r ->
  exists found,
    r = ensemble_result (config s) found /\ NoDup (map a_index (fst found)).
Proof.
  intros E.
  pose proof (preprocess_data_frame m (copy data) s) as F1.
  unfold eval, detect_body, bind in E. unfold exec in F1.
  destruct (preprocess_data (copy data) s) as [[pd|e] s1]; [|discriminate].
  simpl in F1.
  pose proof (detect_isolation_forest_frame m data (numeric_values pd) ([], []) s1) as F2.
  unfold exec in F2.
  destruct (detect_isolation_forest data (numeric_values pd) m ([], []) s1)
    as [[f1|e] s2] eqn:E2; [|discriminate].
  simpl in F2.
  pose proof (detect_dbscan_frame m data (numeric_values pd) f1 s2) as F3.
  unfold exec in F3.
  destruct (detect_dbscan data (numeric_values pd) m f1 s2) as [[f2|e] s3] eqn:E3;
    [|discriminate].
  simpl in F3. unfold get in E.
  exists (merge_statistical (_detect_statistical_anomalies s3 data m) f2). split.
  - destruct (merge_statistical _ f2) as [anomalies scores]. simpl in E.
    inversion E; subst. unfold ensemble_result. simpl.
    destruct F1 as [C1 _], F2 as [C2 _], F3 as [C3 _]. rewrite <- C1, <- C2, <- C3.
    reflexivity.
  - apply merge_statistical_nodup. eapply detect_dbscan_nodup; [exact E3|].
    eapply detect_isolation_forest_nodup, E2.
Qed.

(** *** Every finding is a row of the batch *)

Lemma preserves_bind_lift {S A B} (R : relation S) `{!PreOrder R} (o : outcome A)
    (k : A -> M S B) :
  (forall a, o = Ok a -> preserves R (k a)) -> preserves R (bind (lift o) k).
Proof.
  intros H s. unfold exec, bind, lift. destruct o as [a|e]; [|reflexivity].
  apply (H a eq_refl s).
Qed.

Lemma py_min_cap cap x : fle (py_min (Fin cap) x) (Fin cap) = true.
Proof.
  unfold py_min. destruct (flt x (Fin cap)) eqn:E.
  - destruct x as [q|]; [|discriminate]. simpl in *. unfold Qltb in E.
    apply negb_true_iff in E. apply Qle_bool_iff. 
    destruct (Qlt_le_dec q cap) as [Hlt|Hle]; [apply Qlt_le_weak, Hlt|].
    apply Qle_bool_iff in Hle. congruence.
  - simpl. apply Qle_bool_iff, Qle_refl.
Qed.

Lemma iloc_lookup data idx row : iloc data idx = Ok row -> df_rows data !! idx = Some row.
Proof. unfold iloc. destruct (df_rows data !! idx); congruence. Qed.

Lemma report_rows data method confidence dedupe indices found found' :
  report data method confidence dedupe indices found = Ok found' ->
  method ∈ methods ->
  fle confidence (Fin 0.9) = true ->
  Forall (finding_of data) (fst found) ->
  Forall (finding_of data) (fst found').
Proof.
  intros E Hm Hc. revert found E.
  induction indices as [|idx rest IH]; intros found E Hf; simpl in E.
  - inversion E; subst. exact Hf.
  - destruct (dedupe && already_detected idx (fst found)); [apply (IH _ E Hf)|].
    destruct (iloc data idx) as [row|e] eqn:Hrow; [|discriminate].
    apply (IH _ E). simpl. apply Forall_app. split; [exact Hf|].
    constructor; [|constructor]. unfold finding_of. simpl.
    exists row. repeat split; auto using iloc_lookup.
Qed.

Ltac row_step :=
  lazymatch goal with
  | |- preserves _ (bind (lift (iloc _ _)) _) =>
      apply preserves_bind_lift; [typeclasses eauto | intros ? ?]
  | _ => frame_step
  end.

Lemma statistical_column_rows s data m column :
  preserves (keeps (finding_of data)) (statistical_column s data m column).
Proof.
  unfold statistical_column.
  repeat row_step; apply preserves_modify; apply keeps_append; unfold finding_of; simpl;
    eexists; (split; [eapply iloc_lookup; eassumption|]);
    (split; [reflexivity|]); (split; [reflexivity|]); (split; [|unfold methods; set_solver]).
  - apply py_min_cap.
  - reflexivity.
Qed.

Lemma _detect_statistical_anomalies_rows s data m :
  Forall (finding_of data) (_detect_statistical_anomalies s data m).
Proof.
  unfold _detect_statistical_anomalies.
  assert (preserves (keeps (finding_of data))
            (try_catch (for_each (numeric_columns data) (statistical_column s data m))
                       (fun _ => ret tt))) as H.
  { frame. apply statistical_column_rows. }
  apply (H []). constructor.
Qed.

Lemma detect_body_rows data m s r :
  eval (detect_body data m) s = Ok r -> Forall (finding_of data) (r_anomalies r).
Proof.
  intros E. unfold eval, detect_body, bind in E.
  destruct (preprocess_data (copy data) s) as [[pd|e] s1]; [|discriminate].
  destruct (detect_isolation_forest data (numeric_values pd) m ([], []) s1)
    as [[f1|e] s2] eqn:E2; [|discriminate].
  destruct (detect_dbscan data (numeric_values pd) m f1 s2) as [[f2|e] s3] eqn:E3;
    [|discriminate].
  unfold get in E.
  assert (Forall (finding_of data) (fst f1)) as H1.
  { revert E2. unfold detect_isolation_forest, bind, gets, lift, ret.
    destruct (models s1 !! isolation_forest_key m) as [model|].
    - destruct (predict model _) as [p|e]; [|discriminate].
      destruct (report _ _ _ _ _ _) as [f|e] eqn:Er; [|discriminate].
      intros [= <- <-]. eapply report_rows; [exact Er | unfold methods; set_solver
                                             | reflexivity | constructor].
    - intros [= <- <-]. constructor. }
  assert (Forall (finding_of data) (fst f2)) as H2.
  { revert E3. unfold detect_dbscan, bind, gets, lift, ret, modify.
    destruct (models s2 !! dbscan_key m) as [model|].
    - destruct (fit_predict model _) as [[model' labels]|e]; [|discriminate].
      destruct (report _ _ _ _ _ _) as [f|e] eqn:Er; [|discriminate].
      intros [= <- <-]. eapply report_rows; [exact Er | unfold methods; set_solver
                                             | reflexivity | exact H1].
    - intros [= <- <-]. exact H1. }
  pose proof (merge_statistical_findings (finding_of data)
                (_detect_statistical_anomalies s3 data m) f2
                (_detect_statistical_anomalies_rows s3 data m) H2) as H3.
  destruct (merge_statistical _ f2) as [anomalies scores]. simpl in E, H3.
  inversion E; subst. simpl.
  apply Forall_forall. intros a Ha. apply list_elem_of_filter in Ha as [_ Ha].
  rewrite Forall_forall in H3. apply H3, Ha.
Qed.

End Facts.
End AnomalyResultFacts.

Module AnomalyResultTheorems.
Section Theorems.
Context {L : Library}.
Import AnomalyDetection AnomalyProperties AnomalyResultProperties AnomalyFacts
       AnomalyResultFacts.

Lemma filter_index_nodup (P : Anomaly -> bool) (anomalies : list Anomaly) :
  NoDup (map a_index anomalies) ->
  NoDup (map a_index (filter (fun a => P a = true) anomalies)).
Proof.
  intros H. eapply sublist_NoDup; [exact H|].
  apply fmap_sublist, sublist_filter.
Qed.

(** [detect_anomalies] never raises and has three answers: "Models not
    trained" while the flag is unset; the empty "error" answer of confidence
    0 when the [try] block raised; otherwise the "ensemble" answer, whose
    [filtered_count] is the number of anomalies returned, at most
    [total_detected], each with a confidence of at least the configured
    [confidence_threshold]. *)
Theorem detect_anomalies_answer (s : AnomalyDetectionModel) data m :
  exists r,
    eval (detect_anomalies data m) s = Ok r /\
    ((is_trained s = false /\ r = not_trained_result) \/
     (is_trained s = true /\ r_method r = "error" /\ r_anomalies r = [] /\
      r_confidence r = Fin 0 /\ is_Some (r_error r) /\
      r_total_detected r = None /\ r_filtered_count r = None) \/
     (is_trained s = true /\ r_method r = "ensemble" /\ r_error r = None /\
      r_filtered_count r = Some (length (r_anomalies r)) /\
      (exists total, r_total_detected r = Some total /\
                     (length (r_anomalies r) <= total)%nat) /\
      Forall (fun a => fge (a_confidence a) (confidence_threshold (config s)) = true)
             (r_anomalies r))).
Proof.
  destruct (is_trained s) eqn:Ht.
  - unfold eval. rewrite detect_anomalies_trained by exact Ht.
    pose proof (detect_body_ensemble data m s) as H. unfold eval in H.
    destruct (detect_body data m s) as [[r|e] s'].
    + exists r. split; [reflexivity|]. right. right.
      destruct (H r eq_refl) as (found & -> & _). unfold ensemble_result. simpl.
      repeat split.
      * eexists. split; [reflexivity|]. apply length_filter.
      * apply Forall_forall. intros a Ha. apply list_elem_of_filter in Ha as [Ha _].
        exact Ha.
    + exists (error_result e). split; [reflexivity|]. right. left.
      unfold error_result. simpl. repeat split. eauto.
  - exists not_trained_result. unfold eval.
    rewrite detect_anomalies_not_trained by exact Ht. split; [reflexivity|]. left.
    split; reflexivity.
Qed.

(** No row of the batch is returned twice by [detect_anomalies], whatever
    detectors found it; every anomaly returned names a row of the batch and
    carries that row's timestamp and values, comes from one of the four
    detectors and has a confidence of at most 0.9. *)
Theorem detect_anomalies_findings (s : AnomalyDetectionModel) data m :
  exists r,
    eval (detect_anomalies data m) s = Ok r /\
    NoDup (map a_index (r_anomalies r)) /\
    Forall (finding_of data) (r_anomalies r).
Proof.
  destruct (is_trained s) eqn:Ht.
  - unfold eval. rewrite detect_anomalies_trained by exact Ht.
    pose proof (detect_body_ensemble data m s) as H.
    pose proof (detect_body_rows data m s) as Hrows. unfold eval in H, Hrows.
    destruct (detect_body data m s) as [[r|e] s'].
    + exists r. split; [reflexivity|]. split; [|apply Hrows; reflexivity].
      destruct (H r eq_refl) as (found & -> & Hnd). unfold ensemble_result. simpl.
      apply filter_index_nodup, Hnd.
    + exists (error_result e). split; [reflexivity|]. split; constructor.
  - exists not_trained_result. unfold eval.
    rewrite detect_anomalies_not_trained by exact Ht. split; [reflexivity|].
    split; constructor.
Qed.

End Theorems.
End AnomalyResultTheorems.

Module AnomalyTrainingFacts.
Section Facts.
Context {L : Library}.
Import AnomalyDetection AnomalyProperties AnomalyTrainingProperties AnomalyFacts.

Global Instance grows_preorder : PreOrder grows.
Proof.
  split.
  - intros s. unfold grows. repeat split; reflexivity.
  - intros s1 s2 s3 (C1 & M1 & S1 & T1) (C2 & M2 & S2 & T2). unfold grows.
    repeat split; [congruence | set_solver..].
Qed.

Global Instance narrows_preorder : PreOrder narrows.
Proof.
  split.
  - intros p. unfold narrows. split; [reflexivity | lia].
  - intros p1 p2 p3 [S1 L1] [S2 L2]. unfold narrows. split; [congruence | lia].
Qed.

Lemma grows_set_model k est s : grows s (set_model k est s).
Proof. unfold grows, set_model; simpl. rewrite dom_insert_L. repeat split; set_solver. Qed.

Lemma grows_set_scaler k sc s : grows s (set_scaler k sc s).
Proof. unfold grows, set_scaler; simpl. rewrite dom_insert_L. repeat split; set_solver. Qed.

Lemma grows_set_threshold k t s : grows s (set_threshold k t s).
Proof. unfold grows, set_threshold; simpl. rewrite dom_insert_L. repeat split; set_solver. Qed.

(** Whatever holds across storing the scaler holds across preprocessing. *)
Lemma preprocess_data_on (R : relation AnomalyDetectionModel) `{!PreOrder R} data :
  (forall sc s, R s (set_scaler "standard" sc s)) ->
  preserves R (preprocess_data data).
Proof.
  intros HR s. unfold exec. rewrite preprocess_data_eq. simpl.
  assert (preserves (on_fst R) preprocess_body) as H.
  { unfold preprocess_body, remove_outliers, set_data, on_self.
    frame;
      first [ apply assign_scaled_on_fst; typeclasses eauto
            | apply preserves_modify; intros [? ?]; unfold on_fst; simpl;
              first [reflexivity | apply HR] ]. }
  apply (preserves_try_catch (on_fst R) preprocess_body (fun _ => ret tt)
           H (fun e => preserves_ret _ tt) (s, data)).
Qed.

Lemma train_metric_grows entry : preserves grows (train_metric entry).
Proof.
  destruct entry as [m data].
  unfold train_metric, train_isolation_forest, train_dbscan,
    _calculate_statistical_thresholds.
  frame;
    first [ apply preprocess_data_on; [typeclasses eauto | apply grows_set_scaler]
          | apply preserves_modify; intros ?;
            first [apply grows_set_model | apply grows_set_threshold] ].
Qed.

Lemma schema_fillna data :
  df_schema (fillna_bfill (fillna_ffill data)) = df_schema data.
Proof. reflexivity. Qed.

Lemma schema_filter_rows keep column data :
  df_schema (filter_rows keep column data) = df_schema data.
Proof. unfold filter_rows. destruct (col_index column (df_schema data)); reflexivity. Qed.

Lemma preprocess_body_narrows : preserves narrows preprocess_body.
Proof.
  unfold preprocess_body, remove_outliers, set_data, on_self.
  frame.
  all: try (apply preserves_modify; intros [? ?]; unfold narrows; simpl;
            first [ split; [reflexivity | rewrite len_fillna; lia]
                  | split; [apply schema_filter_rows | apply len_filter_rows]
                  | split; [reflexivity | lia] ]).
  intros [st d]. unfold exec, assign_scaled, narrows. simpl.
  destruct (assign_numeric d _) as [d'|e] eqn:E; simpl; [|split; [reflexivity | lia]].
  unfold assign_numeric in E. destruct (same_shape d _) eqn:Hs; [|discriminate].
  inversion E; subst. simpl. split; [reflexivity|].
  unfold len. simpl. rewrite length_zip_with. lia.
Qed.

Lemma preprocess_run_narrows data s :
  df_schema (snd (preprocess_run data s)) = df_schema data /\
  (len (snd (preprocess_run data s)) <= len data)%nat.
Proof.
  apply (preserves_try_catch narrows preprocess_body (fun _ => ret tt)
           preprocess_body_narrows (fun e => preserves_ret _ tt) (s, data)).
Qed.

(** Frames without rows are passed over. *)
Lemma for_each_without_rows training_data s :
  Forall (fun entry => len (snd entry) = 0%nat) training_data ->
  exec (for_each training_data train_metric) s = s.
Proof.
  intros H. induction H as [|[m data] rest Hlen _ IH]; [reflexivity|].
  simpl in Hlen. simpl. unfold exec, bind. rewrite Hlen. simpl. exact IH.
Qed.

End Facts.
End AnomalyTrainingFacts.

Module AnomalyTrainingTheorems.
Section Theorems.
Context {L : Library}.
Import AnomalyDetection AnomalyProperties AnomalyTrainingProperties AnomalyFacts
       AnomalyTrainingFacts.

(** [preprocess_data] never raises.  The frame it returns has the columns of
    its input and no more rows; of the detector it changes nothing but the
    scaler stored under ["standard"]. *)
Theorem preprocess_data_shape (s : AnomalyDetectionModel) data :
  let s' := exec (preprocess_data data) s in
  exists d,
    eval (preprocess_data data) s = Ok d /\
    df_schema d = df_schema data /\
    (len d <= len data)%nat /\
    config s' = config s /\ models s' = models s /\ thresholds s' = thresholds s /\
    is_trained s' = is_trained s /\ last_training s' = last_training s /\
    (forall k, k <> "standard" -> scalers s' !! k = scalers s !! k).
Proof.
  cbv zeta.
  pose proof (preprocess_data_keeps config data (fun _ _ => eq_refl) s) as Hc.
  pose proof (preprocess_data_keeps models data (fun _ _ => eq_refl) s) as Hm.
  pose proof (preprocess_data_keeps thresholds data (fun _ _ => eq_refl) s) as Ht.
  pose proof (preprocess_data_keeps is_trained data (fun _ _ => eq_refl) s) as Hi.
  pose proof (preprocess_data_keeps last_training data (fun _ _ => eq_refl) s) as Hl.
  pose proof (preprocess_data_frame "" data s) as (_ & _ & _ & _ & Hs & _).
  unfold unchanged in *.
  exists (snd (preprocess_run data s)).
  split; [unfold eval; rewrite preprocess_data_eq; reflexivity|].
  destruct (preprocess_run_narrows data s) as [Hschema Hlen].
  repeat split; assumption.
Qed.

(** The exception path of [preprocess_data]: without the key
    [iqr_multiplier] in the configuration, or on a frame without a numeric
    column, the method returns the frame with its missing values filled,
    neither filtered nor scaled, and stores no scaler. *)
Theorem preprocess_data_unscaled (s : AnomalyDetectionModel) data :
  numeric_columns data = [] \/ statistical (config s) !! "iqr_multiplier" = None ->
  preprocess_data data s = (Ok (fillna_bfill (fillna_ffill data)), s).
Proof.
  intros H. unfold preprocess_data, exec, try_catch, preprocess_body, bind, set_data,
    modify, gets. simpl.
  change (numeric_columns (fillna_bfill (fillna_ffill data))) with (numeric_columns data).
  destruct (numeric_columns data) as [|column rest] eqn:Hcols.
  - simpl. unfold bind, gets. simpl. 
    change (numeric_columns (fillna_bfill (fillna_ffill data))) with (numeric_columns data).
    rewrite Hcols. reflexivity.
  - destruct H as [H|H]; [discriminate|].
    simpl. unfold remove_outliers, bind, gets, lift, subscript. simpl.
    destruct (pd_quantile _ 0.25); [|reflexivity].
    destruct (pd_quantile _ 0.75); [|reflexivity].
    rewrite H. reflexivity.
Qed.

(** [train_models] on a dictionary whose frames have no rows (or on an empty
    dictionary) stores nothing and still marks the detector trained. *)
Theorem train_models_without_rows (s : AnomalyDetectionModel) training_data now :
  Forall (fun entry => len (snd entry) = 0%nat) training_data ->
  train_models training_data now s
  = (Ok tt, set_last_training (Some now) (set_is_trained true s)).
Proof.
  intros H. rewrite train_models_eq, for_each_without_rows by exact H. reflexivity.
Qed.

(** [train_models] keeps the configuration and never removes an entry of
    [models], [scalers] or [thresholds]: what an earlier training stored for
    a metric stays until a later training replaces it. *)
Theorem train_models_keeps_entries (s : AnomalyDetectionModel) training_data now :
  let s' := exec (train_models training_data now) s in
  config s' = config s /\
  dom (models s) ⊆ dom (models s') /\
  dom (scalers s) ⊆ dom (scalers s') /\
  dom (thresholds s) ⊆ dom (thresholds s').
Proof.
  cbv zeta. unfold exec at 1 2 3 4. rewrite train_models_eq. simpl.
  apply (preserves_for_each grows training_data train_metric
           (fun entry _ => train_metric_grows entry) s).
Qed.

End Theorems.

Import AnomalyDetection AnomalyExamples AnomalyTrainingExamples.

(** An instance: two rows of [cpu_usage] through a detector configured
    without the multiplier come back as they are. *)
Lemma preprocess_data_unscaled_witness :
  (numeric_columns short_series = [] \/
   statistical (config without_multiplier) !! "iqr_multiplier" = None) /\
  eval (preprocess_data (L := RefLib.library) short_series) without_multiplier
  = Ok short_series.
Proof.
  assert (numeric_columns short_series = [] \/
          statistical (config without_multiplier) !! "iqr_multiplier" = None) as H
    by (right; reflexivity).
  split; [exact H|].
  unfold eval.
  rewrite (preprocess_data_unscaled (L := RefLib.library) without_multiplier short_series H).
  reflexivity.
Defined.

(** An instance: training on a frame of [cpu_usage] without rows. *)
Lemma train_models_without_rows_witness :
  Forall (fun entry => len (snd entry) = 0%nat) [("cpu_usage", no_rows)] /\
  get_model_status
    (exec (train_models (L := RefLib.library) [("cpu_usage", no_rows)] t0) fresh)
  = mkStatus true (Some (RefLib.iso t0)) 0 0 0 (config fresh).
Proof.
  assert (Forall (fun entry => len (snd entry) = 0%nat) [("cpu_usage", no_rows)]) as H
    by (repeat constructor).
  split; [exact H|].
  unfold exec.
  rewrite (train_models_without_rows (L := RefLib.library) fresh _ t0 H).
  reflexivity.
Defined.

End AnomalyTrainingTheorems.

Module PersistenceMoreTheorems.
Section Theorems.
Context {L : Library}.
Import Persistence PersistenceProperties PersistenceFacts.

(** [save_models] never raises, for each of the three components.  When
    [joblib.dump] cannot write the path, the disk is what it was; otherwise
    the file at the path holds the component's bundle and every other file
    is what it was. *)
Theorem save_models_effect (fs : FileSystem) (filepath : string) :
  (forall self,
     let fs' := exec (Anomaly.save_models self filepath) fs in
     eval (Anomaly.save_models self filepath) fs = Ok tt /\
     (filepath ∈ unwritable fs -> fs' = fs) /\
     (filepath ∉ unwritable fs -> joblib_load fs' filepath = Ok (AnomalyBundle self)) /\
     (forall other, other <> filepath -> joblib_load fs' other = joblib_load fs other)) /\
  (forall self,
     let fs' := exec (Scaling.save_models self filepath) fs in
     eval (Scaling.save_models self filepath) fs = Ok tt /\
     (filepath ∈ unwritable fs -> fs' = fs) /\
     (filepath ∉ unwritable fs -> joblib_load fs' filepath = Ok (ScalingBundle self)) /\
     (forall other, other <> filepath -> joblib_load fs' other = joblib_load fs other)) /\
  (forall self,
     let fs' := exec (RootCause.save_models self filepath) fs in
     eval (RootCause.save_models self filepath) fs = Ok tt /\
     (filepath ∈ unwritable fs -> fs' = fs) /\
     (filepath ∉ unwritable fs -> joblib_load fs' filepath = Ok (RootCauseBundle self)) /\
     (forall other, other <> filepath -> joblib_load fs' other = joblib_load fs other)).
Proof.
  assert (forall model_data,
            model_data <> Unreadable ->
            let fs' := exec (try_catch (joblib_dump model_data filepath) (fun _ => ret tt)) fs in
            eval (try_catch (joblib_dump model_data filepath) (fun _ => ret tt)) fs = Ok tt /\
            (filepath ∈ unwritable fs -> fs' = fs) /\
            (filepath ∉ unwritable fs -> joblib_load fs' filepath = Ok model_data) /\
            (forall other, other <> filepath ->
                           joblib_load fs' other = joblib_load fs other)) as H.
  { intros model_data Hr. cbv zeta.
    destruct (decide (filepath ∈ unwritable fs)) as [Hw|Hw].
    - unfold eval, exec. rewrite joblib_dump_unwritable by exact Hw. simpl.
      split; [reflexivity|]. split; [reflexivity|]. split; [contradiction|].
      reflexivity.
    - split; [|split; [contradiction|split]].
      + unfold eval, try_catch, joblib_dump. rewrite decide_False by exact Hw. reflexivity.
      + intros _. apply joblib_load_dump; assumption.
      + intros other Hne. unfold exec, try_catch, joblib_dump, joblib_load.
        rewrite decide_False by exact Hw. simpl.
        rewrite lookup_insert_ne by congruence. reflexivity. }
  repeat split; try (apply H; discriminate);
    intros; apply (H _ ltac:(discriminate)); assumption.
Qed.

(** Loading is idempotent, for each of the three components: loading a file
    a second time changes nothing, whether the load succeeds or fails. *)
Theorem load_models_idempotent (fs : FileSystem) (filepath : string) :
  (forall self,
     exec (Anomaly.load_models fs filepath) (exec (Anomaly.load_models fs filepath) self)
     = exec (Anomaly.load_models fs filepath) self) /\
  (forall self,
     exec (Scaling.load_models fs filepath) (exec (Scaling.load_models fs filepath) self)
     = exec (Scaling.load_models fs filepath) self) /\
  (forall self,
     exec (RootCause.load_models fs filepath) (exec (RootCause.load_models fs filepath) self)
     = exec (RootCause.load_models fs filepath) self).
Proof.
  repeat split; intros self; unfold exec.
  - rewrite !anomaly_load_models. simpl. unfold anomaly_loaded.
    destruct (joblib_load fs filepath) as [[b|b|b|]|e]; reflexivity.
  - rewrite !scaling_load_models. simpl. unfold scaling_loaded.
    destruct (joblib_load fs filepath) as [[b|b|b|]|e]; reflexivity.
  - rewrite !root_cause_load_models. simpl. unfold root_cause_loaded.
    destruct (joblib_load fs filepath) as [[b|b|b|]|e]; reflexivity.
Qed.

End Theorems.
End PersistenceMoreTheorems.

Module ScalingMoreFacts.
Section Facts.
Context {L : Library}.
Import PredictiveScaling ScalingProperties ScalingMoreProperties ScalingFacts.

Global Instance all_keep_preorder {A} (P : A -> Prop) : PreOrder (all_keep P).
Proof. split; unfold all_keep; [intros x; auto | intros x y z; auto]. Qed.

Lemma train_target_keeps {A} (f : PredictiveScalingModel -> A) Xc a b y_train y_test target :
  (forall k m s, f (set_model k m s) = f s) ->
  (forall k v s, f (set_performance k v s) = f s) ->
  (forall k v s, f (set_feature_importance k v s) = f s) ->
  preserves (unchanged f) (train_target Xc a b y_train y_test target).
Proof.
  intros Hm Hp Hf. unfold train_target, _evaluate_models, evaluate_one.
  frame; apply preserves_modify; intros ?; unfold unchanged; auto.
Qed.

(** The flag after [train_models] tells whether the call returned. *)
Lemma train_models_flag self data now :
  is_trained (exec (train_models data now) self)
  = match eval (train_models data now) self with Ok _ => true | Raise _ => false end.
Proof.
  unfold train_models, eval, exec, try_catch, bind, gets, lift, modify, raise.
  destruct (training_split (config self) data)
    as [[[[[[X_train X_test] y_train] y_test] X_columns] y_columns]|e]; simpl;
    [|reflexivity].
  destruct (fit_feature_scaler X_train X_test) as [[[scaler a] b]|e]; simpl;
    [|reflexivity].
  destruct (for_each y_columns (train_target X_columns a b y_train y_test)
              (set_scaler "feature_scaler" scaler self)) as [[[]|e] s2]; reflexivity.
Qed.

End Facts.
End ScalingMoreFacts.

Module ScalingMoreTheorems.
Section Theorems.
Context {L : Library}.
Import PredictiveScaling ScalingProperties ScalingMoreProperties ScalingFacts
       ScalingMoreFacts.

(** The flag follows the outcome of [train_models]: when the call returns,
    the model is trained and [last_training] is the time of the call; when
    it raises, the model is untrained and [last_training] is what it was.
    The configuration is never changed. *)
Theorem train_models_outcome (self : PredictiveScalingModel) data now :
  let s' := exec (train_models data now) self in
  config s' = config self /\
  ((eval (train_models data now) self = Ok tt /\
    is_trained s' = true /\ last_training s' = Some now) \/
   (exists e, eval (train_models data now) self = Raise e /\
              is_trained s' = false /\ last_training s' = last_training self)).
Proof.
  cbv zeta. unfold train_models, eval, exec, try_catch, bind, gets, lift, modify, raise.
  destruct (training_split (config self) data)
    as [[[[[[X_train X_test] y_train] y_test] X_columns] y_columns]|e]; simpl;
    [|split; [reflexivity | right; eauto]].
  destruct (fit_feature_scaler X_train X_test) as [[[scaler a] b]|e]; simpl;
    [|split; [reflexivity | right; eauto]].
  set (s1 := set_scaler "feature_scaler" scaler self).
  pose proof (preserves_for_each (unchanged config) y_columns
                (train_target X_columns a b y_train y_test)
                (fun t _ => train_target_keeps config X_columns a b y_train y_test t
                              (fun _ _ _ => eq_refl) (fun _ _ _ => eq_refl)
                              (fun _ _ _ => eq_refl)) s1) as Hc.
  pose proof (preserves_for_each (unchanged last_training) y_columns
                (train_target X_columns a b y_train y_test)
                (fun t _ => train_target_keeps last_training X_columns a b y_train y_test t
                              (fun _ _ _ => eq_refl) (fun _ _ _ => eq_refl)
                              (fun _ _ _ => eq_refl)) s1) as Hl.
  unfold unchanged, exec in Hc, Hl.
  destruct (for_each y_columns (train_target X_columns a b y_train y_test) s1)
    as [[[]|e] s2]; simpl in *.
  - split; [exact Hc | left; auto].
  - split; [exact Hc | right; eauto].
Qed.

(** With fewer rows than [min_training_samples], [train_models] raises a
    [ValueError] before it touches anything: the model is left as it was but
    for the flag, which is cleared. *)
Theorem train_models_insufficient (self : PredictiveScalingModel) data now :
  flt (of_nat (len data)) (min_training_samples (config self)) = true ->
  exists msg,
    train_models data now self = (Raise (ValueError msg), set_is_trained false self).
Proof.
  intros H. eexists.
  unfold train_models, try_catch, bind, gets, lift, modify, raise, training_split.
  rewrite H. reflexivity.
Qed.

(** Data without a [timestamp] column: [prepare_features] raises the
    [ValueError] that names the column, [train_models] raises it too and
    leaves the model untrained, and a trained model answers
    [predict_scaling_needs] with the error result that carries the message,
    without predictions. *)
Theorem missing_timestamp (self : PredictiveScalingModel) data horizon now :
  has_column "timestamp" data = false ->
  prepare_features data = Raise (ValueError "Data must contain 'timestamp' column") /\
  (exists e, eval (train_models data now) self = Raise e /\
             is_trained (exec (train_models data now) self) = false) /\
  (is_trained self = true ->
   predict_scaling_needs data horizon now self
   = (Ok (mkPrediction [] [] (Fin 0) None None
            (Some "Data must contain 'timestamp' column")), self)).
Proof.
  intros H.
  assert (prepare_features data
          = Raise (ValueError "Data must contain 'timestamp' column")) as Hp.
  { unfold prepare_features, engineer_features. rewrite H. reflexivity. }
  split; [exact Hp|]. split.
  - unfold train_models, eval, exec, try_catch, bind, gets, lift, modify, raise,
      training_split.
    rewrite Hp. destruct (flt _ _); simpl; eauto.
  - intros Ht.
    unfold predict_scaling_needs, predict_body, inference_features, try_catch, bind,
      gets, lift, ret.
    rewrite Ht, Hp. reflexivity.
Qed.

End Theorems.

Import PredictiveScaling ScalingExamples ScalingMoreExamples.

(** An instance: ten hourly samples against the default minimum of 100. *)
Lemma train_models_insufficient_witness :
  flt (of_nat (len (hourly 10))) (min_training_samples (config fresh)) = true /\
  get_model_status (exec (train_models (L := RefLib.library) (hourly 10) 1700000000%Z) fresh)
  = get_model_status fresh.
Proof.
  assert (flt (of_nat (len (hourly 10))) (min_training_samples (config fresh)) = true)
    as H by reflexivity.
  split; [exact H|].
  destruct (train_models_insufficient (L := RefLib.library) fresh (hourly 10)
              1700000000%Z H) as [msg E].
  unfold exec. rewrite E. reflexivity.
Defined.

(** An instance: a frame of [cpu_usage] alone. *)
Lemma missing_timestamp_witness :
  has_column "timestamp" untimed = false /\
  p_error (match eval (predict_scaling_needs (L := RefLib.library) untimed None
                         1700000000%Z) loaded return Prediction with
           | Ok r => r
           | Raise _ => not_trained_result
           end)
  = Some "Data must contain 'timestamp' column".
Proof.
  assert (has_column "timestamp" untimed = false) as H by reflexivity.
  split; [exact H|].
  destruct (missing_timestamp (L := RefLib.library) loaded untimed None 1700000000%Z H)
    as (_ & _ & Hp).
  unfold eval. rewrite (Hp eq_refl). reflexivity.
Defined.

End ScalingMoreTheorems.

Module ScalingPredictionFacts.
Section Facts.
Context {L : Library}.
Import PredictiveScaling ScalingProperties ScalingMoreProperties ScalingFacts
       ScalingMoreFacts.

Ltac no_recommendation :=
  eexists _, []; rewrite app_nil_r;
  split; [reflexivity | split; [simpl; lia | constructor]].

Ltac one_recommendation Ekey Epass :=
  eexists _, [_]; split; [reflexivity|]; split; [simpl; lia|];
  constructor; [|constructor];
  split; [reflexivity|]; split; [reflexivity|]; split; [reflexivity|];
  split;
  [ eexists; split; [reflexivity|];
    split; [first [left; reflexivity | right; split; [reflexivity | discriminate]]
           | reflexivity]
  | split;
    [ eexists _, _; split; [reflexivity|]; split; [reflexivity|];
      split; [exact Ekey | exact Epass]
    | split; [reflexivity | set_solver] ] ].

Ltac banded self p high_key low_key :=
  let high := fresh "high" in
  let low := fresh "low" in
  let Eh := fresh "Eh" in
  let El := fresh "El" in
  let Ph := fresh "Ph" in
  let Pl := fresh "Pl" in
  destruct (scaling_thresholds (config self) !! high_key) as [high|] eqn:Eh; simpl;
    [|no_recommendation];
  destruct (fgt p high) eqn:Ph; simpl; [one_recommendation Eh Ph|];
  destruct (scaling_thresholds (config self) !! low_key) as [low|] eqn:El; simpl;
    [|no_recommendation];
  destruct (flt p low) eqn:Pl; simpl; [one_recommendation El Pl | no_recommendation].

(** One turn of the loop adds at most one recommendation, made from the
    entry. *)
Lemma recommend_adds self target i p acc :
  exists o added,
    recommend self target (i, p) acc = (o, acc ++ added) /\
    (length added <= 1)%nat /\
    Forall (made_from self target (S i) p) added.
Proof.
  unfold made_from, recommend, bind, subscript, ret, raise, modify, decide_action,
    priority_of.
  destruct (String.eqb_spec target "cpu_usage") as [->|N1];
    [banded self p "cpu_high" "cpu_low"|].
  destruct (String.eqb_spec target "memory_usage") as [->|N2];
    [banded self p "memory_high" "memory_low"|].
  destruct (String.eqb_spec target "response_time") as [->|N3];
    [banded self p "response_time_high" "response_time_low"|].
  destruct (String.eqb_spec target "throughput") as [->|N4]; [|simpl; no_recommendation].
  destruct (scaling_thresholds (config self) !! "throughput_low") as [low|] eqn:El; simpl;
    [|no_recommendation].
  destruct (flt p low) eqn:Pl; simpl; [one_recommendation El Pl | no_recommendation].
Qed.

Lemma recommend_keeps self target values i p :
  values !! i = Some p ->
  preserves (all_keep (recommendation_of self target values))
            (recommend self target (i, p)).
Proof.
  intros Hi acc Hacc. unfold exec.
  destruct (recommend_adds self target i p acc) as (o & added & -> & _ & Hadded). simpl.
  apply Forall_app. split; [exact Hacc|].
  eapply Forall_impl; [exact Hadded|].
  intros r (Ht & Hh & Hv & Ha & Hk & Hr & Hin). unfold recommendation_of.
  apply lookup_lt_Some in Hi as Hlt.
  rewrite Hh, Hv. replace (S i - 1)%nat with i by lia.
  repeat split; auto; lia.
Qed.

Lemma enumerate_lookup {A} (values : list A) i x :
  (i, x) ∈ enumerate values -> values !! i = Some x.
Proof.
  unfold enumerate. intros H. apply list_elem_of_lookup in H as [j Hj].
  rewrite list_lookup_imap in Hj. destruct (values !! j) as [y|] eqn:E; [|discriminate].
  simpl in Hj. inversion Hj; subst. exact E.
Qed.

Lemma _generate_scaling_recommendations_table self target predictions horizon :
  Forall (recommendation_of self target (slice_to horizon predictions))
         (_generate_scaling_recommendations self target predictions horizon).
Proof.
  unfold _generate_scaling_recommendations.
  assert (preserves (all_keep (recommendation_of self target (slice_to horizon predictions)))
            (try_catch
               (for_each (enumerate (slice_to horizon predictions)) (recommend self target))
               (fun _ => ret tt))) as H.
  { apply preserves_try_catch; [typeclasses eauto | | intros e; apply preserves_ret;
                                                       typeclasses eauto].
    apply preserves_for_each; [typeclasses eauto|].
    intros [i p] Hin. apply recommend_keeps, enumerate_lookup, Hin. }
  apply (H []). constructor.
Qed.

Lemma recommend_loop_length self target entries acc :
  (length (exec (for_each entries (recommend self target)) acc)
   <= length acc + length entries)%nat.
Proof.
  revert acc. induction entries as [|[i p] entries IH]; intros acc.
  - unfold exec. simpl. lia.
  - cbn [for_each]. rewrite exec_bind.
    destruct (recommend_adds self target i p acc) as (o & added & E & Hlen & _).
    unfold eval, exec in *. rewrite E. simpl.
    destruct o as [[]|e].
    + specialize (IH (acc ++ added)). unfold exec in IH.
      rewrite length_app in IH. simpl. lia.
    + rewrite length_app. simpl. lia.
Qed.

(** The hours of the entries go up, and so do those of the recommendations. *)
Lemma seq_increases n : forall start, StronglySorted lt (seq start n).
Proof.
  induction n as [|n IH]; intros start; [constructor|].
  cbn [seq]. constructor; [apply IH|].
  apply List.Forall_forall. intros x Hx. apply in_seq in Hx. lia.
Qed.

Lemma enumerate_indices {A} (values : list A) :
  map fst (enumerate values) = seq 0 (length values).
Proof.
  assert (forall (f : nat -> A -> nat * A) (l : list A) start,
            (forall i x, fst (f i x) = (start + i)%nat) ->
            map fst (imap f l) = seq start (length l)) as H.
  { intros f l. revert f. induction l as [|x l IH]; intros f start Hf; [reflexivity|].
    cbn [imap map length seq]. rewrite Hf, Nat.add_0_r. f_equal.
    apply IH. intros i y. unfold compose. rewrite Hf. lia. }
  unfold enumerate. apply H. intros i x. reflexivity.
Qed.

Lemma hours_increase_app acc added hour :
  hours_increase acc ->
  Forall (fun r => (rec_hour r < hour)%nat) acc ->
  (length added <= 1)%nat ->
  Forall (fun r => rec_hour r = hour) added ->
  hours_increase (acc ++ added) /\
  Forall (fun r => (rec_hour r <= hour)%nat) (acc ++ added).
Proof.
  intros Hacc Hbelow Hlen Hadded. split.
  - unfold hours_increase in *. rewrite map_app.
    destruct added as [|r [|r' added]]; [rewrite app_nil_r; exact Hacc | | simpl in Hlen; lia].
    apply Forall_cons in Hadded as [Hr _]. cbn [map].
    clear Hlen. induction acc as [|a acc IH]; cbn [map app].
    + repeat constructor.
    + apply StronglySorted_inv in Hacc as [Hsorted Hall].
      apply Forall_cons in Hbelow as [Ha Hbelow].
      constructor; [apply IH; assumption|].
      apply List.Forall_app. split; [exact Hall|]. repeat constructor. lia.
  - apply Forall_app. split.
    + eapply Forall_impl; [exact Hbelow|]. intros r Hr. simpl in Hr. lia.
    + eapply Forall_impl; [exact Hadded|]. intros r Hr. simpl in Hr. lia.
Qed.

Lemma recommend_loop_hours self target entries :
  forall acc,
    StronglySorted lt (map fst entries) ->
    hours_increase acc ->
    Forall (fun r => Forall (fun entry => (rec_hour r < S (fst entry))%nat) entries) acc ->
    hours_increase (exec (for_each entries (recommend self target)) acc).
Proof.
  induction entries as [|[i p] entries IH]; intros acc Hentries Hacc Hbelow.
  - exact Hacc.
  - cbn [for_each]. rewrite exec_bind.
    destruct (recommend_adds self target i p acc) as (o & added & E & Hlen & Hadded).
    unfold eval, exec in *. rewrite E. cbn [fst snd].
    cbn [map fst] in Hentries. apply StronglySorted_inv in Hentries as [Hrest Hfirst].
    destruct (hours_increase_app acc added (S i) Hacc) as [Hsorted Hall].
    { eapply Forall_impl; [exact Hbelow|]. intros r Hr.
      apply Forall_cons in Hr as [Hr _]. exact Hr. }
    { exact Hlen. }
    { eapply Forall_impl; [exact Hadded|]. intros r (_ & Hh & _). exact Hh. }
    destruct o as [[]|e]; [|exact Hsorted].
    apply IH; [exact Hrest | exact Hsorted |].
    eapply Forall_impl; [exact Hall|]. intros r Hr. simpl in Hr.
    apply Forall_forall. intros entry Hin.
    assert (i < fst entry)%nat; [|lia].
    rewrite List.Forall_forall in Hfirst. apply Hfirst.
    apply in_map, list_elem_of_In, Hin.
Qed.

(** *** Which targets are predicted *)

Lemma split_head_clean s : has_underscore (split_head s) = false.
Proof.
  induction s as [|c s IH]; [reflexivity|]. simpl.
  destruct (Ascii.eqb c "_") eqn:E; [reflexivity|]. simpl. rewrite E. exact IH.
Qed.

Lemma not_selected target (cols : list string) :
  has_underscore target = true ->
  existsb (String.eqb target) (map split_head cols) = false.
Proof.
  intros H. induction cols as [|c cols IH]; [reflexivity|]. simpl. rewrite IH.
  destruct (String.eqb_spec target (split_head c)) as [E|_]; [|reflexivity].
  rewrite E, split_head_clean in H. discriminate.
Qed.

Lemma predict_target_skipped current X horizon acc target :
  has_underscore target = true ->
  predict_target current X horizon acc target = ret acc.
Proof. intros H. unfold predict_target. rewrite not_selected by exact H. reflexivity. Qed.

Lemma model_predictions_pure X target s :
  exec (model_predictions X target) s = s.
Proof.
  assert (preserves eq (model_predictions X target)) as H.
  { unfold model_predictions. frame. }
  symmetry. apply H.
Qed.

(** The four turns of the loop over the targets: the first three are
    skipped. *)
Lemma predict_targets current X horizon s :
  fold_m (predict_target current X horizon)
         ["cpu_usage"; "memory_usage"; "response_time"; "throughput"] ([], []) s
  = match predict_target current X horizon ([], []) "throughput" s with
    | (Ok acc, s') => (Ok acc, s')
    | (Raise e, s') => (Raise e, s')
    end.
Proof.
  cbn [fold_m]. unfold bind.
  do 3 (rewrite predict_target_skipped by reflexivity; unfold ret at 1; cbn beta iota).
  destruct (predict_target current X horizon ([], []) "throughput" s) as [[acc|e] s'];
    reflexivity.
Qed.

Lemma predict_throughput current X horizon s :
  (exists e, predict_target current X horizon ([], []) "throughput" s = (Raise e, s)) \/
  predict_target current X horizon ([], []) "throughput" s = (Ok ([], []), s) \/
  (exists values,
     predict_target current X horizon ([], []) "throughput" s
     = (Ok ([("throughput", values)],
            _generate_scaling_recommendations s "throughput" values horizon), s)).
Proof.
  unfold predict_target.
  destruct (negb _); [right; left; reflexivity|].
  pose proof (model_predictions_pure X "throughput" s) as Hs.
  unfold bind, exec in *.
  destruct (model_predictions X "throughput" s) as [[preds|e] s'] eqn:E; simpl in Hs; subst s'.
  - destruct preds as [|first rest]; [right; left; reflexivity|].
    unfold lift, get, ret.
    destruct (ensemble_mean (first :: rest)) as [values|e]; [|left; eauto].
    right. right. exists values. reflexivity.
  - left. eauto.
Qed.

End Facts.
End ScalingPredictionFacts.

Module ScalingPredictionTheorems.
Section Theorems.
Context {L : Library}.
Import PredictiveScaling ScalingProperties ScalingMoreProperties ScalingFacts
       ScalingMoreFacts ScalingPredictionFacts.

(** Every recommendation that [_generate_scaling_recommendations] returns is
    made from the forecast of one of the first [horizon] hours: it names the
    target, the hour (counted from 1) and the value forecast for it, an
    action with its priority (scale_up is high, but medium for throughput;
    scale_down is medium, but low for response time, and never given for
    throughput), and one line of reasoning.  Its threshold is the one
    configured under the key of the target and the action (the high
    threshold for scale_up, the low one for scale_down and for throughput),
    and the value passed it: above the high threshold, below the low one.
    The hours of the recommendations go up strictly, so there is at most one
    recommendation for an hour.  This holds also when a threshold key is
    missing and the loop stops early. *)
Theorem scaling_recommendations_table (self : PredictiveScalingModel) target predictions
    horizon :
  let recommendations :=
    _generate_scaling_recommendations self target predictions horizon in
  Forall (recommendation_of self target (slice_to horizon predictions)) recommendations /\
  hours_increase recommendations /\
  NoDup (map rec_hour recommendations) /\
  (length recommendations <= length (slice_to horizon predictions))%nat.
Proof.
  cbv zeta.
  assert (hours_increase (_generate_scaling_recommendations self target predictions horizon))
    as Hhours.
  { unfold _generate_scaling_recommendations.
    pose proof (recommend_loop_hours self target (enumerate (slice_to horizon predictions)) [])
      as H.
    rewrite enumerate_indices in H.
    specialize (H (seq_increases _ 0%nat) (SSorted_nil _) (List.Forall_nil _)).
    rewrite exec_try_catch.
    destruct (eval (for_each _ _) []); [exact H|].
    unfold exec at 1, ret. simpl. exact H. }
  split; [apply _generate_scaling_recommendations_table|].
  split; [exact Hhours|]. split.
  - unfold hours_increase in Hhours.
    induction Hhours as [|hour hours Hsorted IH Hall]; constructor; [|exact IH].
    intros Hin. rewrite List.Forall_forall in Hall.
    apply list_elem_of_In, Hall in Hin. lia.
  - unfold _generate_scaling_recommendations.
    pose proof (recommend_loop_length self target (enumerate (slice_to horizon predictions)) [])
      as H.
    unfold enumerate in H. rewrite length_imap in H. simpl in H.
    rewrite exec_try_catch.
    destruct (eval (for_each _ _) []); [exact H|].
    unfold exec at 1, ret. simpl. exact H.
Qed.

(** [predict_scaling_needs] never raises and leaves the model as it is.  An
    untrained model answers "Models not trained"; a trained one answers
    either with the error result, or with a result without error that names
    the horizon used (the argument, or the configured one when the argument
    is [None]) and the time of the call. *)
Theorem predict_scaling_needs_answer (self : PredictiveScalingModel) current_data horizon now :
  exists r,
    predict_scaling_needs current_data horizon now self = (Ok r, self) /\
    ((is_trained self = false /\ r = not_trained_result) \/
     (is_trained self = true /\
      exists e, r = error_result e) \/
     (is_trained self = true /\
      p_error r = None /\
      p_prediction_horizon r = Some (default (prediction_horizon (config self)) horizon) /\
      p_timestamp r = Some (isoformat now))).
Proof.
  unfold predict_scaling_needs, bind, gets.
  destruct (is_trained self) eqn:Ht; simpl;
    [|exists not_trained_result; split; [reflexivity | left; split; reflexivity]].
  pose proof (predict_scaling_needs_pure current_data horizon now self) as Hpure.
  unfold exec, predict_scaling_needs, bind, gets in Hpure. rewrite Ht in Hpure.
  simpl in Hpure. unfold try_catch in *.
  destruct (predict_body current_data horizon now self) as [[r|e] s'] eqn:E;
    simpl in Hpure; subst s'.
  - exists r. split; [reflexivity|]. right. right. split; [reflexivity|].
    revert E. unfold predict_body, bind, gets, configured_horizon.
    destruct (inference_features current_data self) as [[X|e] s1]; [|discriminate].
    destruct (fold_m _ _ _ s1) as [[[predictions recommendations]|e] s2]; [|discriminate].
    unfold get, ret. intros [= <- _]. simpl. repeat split.
  - exists (error_result e). split; [reflexivity|]. right. left. eauto.
Qed.

(** Of the four targets only [throughput] is ever predicted: a target is
    predicted when it equals the part of a column name before the first
    underscore, which the three names with an underscore never do.  So the
    predictions of [predict_scaling_needs] hold at most the entry of
    [throughput], and every recommendation is a scale_up of medium priority
    for [throughput]. *)
Theorem predicts_throughput_only (self : PredictiveScalingModel) current_data horizon now :
  exists r,
    eval (predict_scaling_needs current_data horizon now) self = Ok r /\
    (p_predictions r = [] \/ exists values, p_predictions r = [("throughput", values)]) /\
    Forall (fun recommendation =>
              rec_target recommendation = "throughput" /\
              rec_action recommendation = Some "scale_up" /\
              rec_priority recommendation = "medium")
           (p_scaling_recommendations r).
Proof.
  unfold eval, predict_scaling_needs, bind, gets.
  destruct (is_trained self); simpl;
    [|exists not_trained_result; repeat split; [left; reflexivity | constructor]].
  unfold try_catch.
  destruct (predict_body current_data horizon now self) as [[r|e] s'] eqn:E;
    [|exists (error_result e); repeat split; [left; reflexivity | constructor]].
  exists r. split; [reflexivity|].
  revert E. unfold predict_body, bind, gets.
  destruct (inference_features current_data self) as [[X|e] s1]; [|discriminate].
  rewrite predict_targets.
  destruct (predict_throughput current_data X
              (default (configured_horizon self) horizon) s1) as [[e ->] | [-> | [values ->]]];
    [discriminate | |]; unfold get, ret; intros [= <-]; simpl.
  - split; [left; reflexivity | constructor].
  - split; [right; eauto|].
    eapply Forall_impl; [apply _generate_scaling_recommendations_table|].
    intros rec (Ht & _ & _ & (action & Ha & Hact & Hp) & _). split; [exact Ht|].
    destruct Hact as [-> | [_ Hne]]; [|contradiction].
    split; [exact Ha | exact Hp].
Qed.

End Theorems.
End ScalingPredictionTheorems.

Module ScalingEvaluationTheorems.
Section Theorems.
Context {L : Library}.
Import PredictiveScaling ScalingEvaluationProperties.

Lemma evaluate_one_scores target X_test y_test name model s before :
  performance_metrics s !! target = Some before ->
  evaluate_one target X_test y_test (name, model) s
  = match score_of X_test y_test model with
    | Ok metrics => (Ok tt, set_performance target (before ++ [(name, metrics)]) s)
    | Raise e => (Raise e, s)
    end.
Proof.
  intros H. unfold evaluate_one, score_of, bind, lift, gets, subscript, modify.
  destruct (predict model X_test) as [y_pred|e]; [|reflexivity].
  destruct (mean_squared_error y_test y_pred) as [mse|e]; [|reflexivity].
  destruct (mean_absolute_error y_test y_pred) as [mae|e]; [|reflexivity].
  destruct (r2_score y_test y_pred) as [r2|e]; [|reflexivity].
  rewrite H. reflexivity.
Qed.

Lemma set_performance_twice target v w s :
  set_performance target w (set_performance target v s) = set_performance target w s.
Proof. unfold set_performance. simpl. rewrite insert_insert_eq. reflexivity. Qed.

Lemma evaluate_loop target X_test y_test entries s before :
  performance_metrics s !! target = Some before ->
  exec (for_each entries (evaluate_one target X_test y_test)) s
  = set_performance target (before ++ scored X_test y_test entries) s.
Proof.
  revert s before. induction entries as [|[name model] rest IH]; intros s before H.
  - unfold exec. simpl. rewrite app_nil_r. unfold set_performance.
    rewrite insert_id by exact H. destruct s; reflexivity.
  - cbn [for_each scored]. unfold exec, bind.
    rewrite (evaluate_one_scores _ _ _ _ _ _ _ H).
    destruct (score_of X_test y_test model) as [metrics|e].
    + pose proof (IH (set_performance target (before ++ [(name, metrics)]) s)
                    (before ++ [(name, metrics)])) as IH'.
      unfold exec in IH'. rewrite IH'.
      * rewrite set_performance_twice, <- app_assoc. reflexivity.
      * unfold set_performance. simpl. apply lookup_insert_eq.
    + simpl. rewrite app_nil_r. unfold set_performance.
      rewrite insert_id by exact H. destruct s; reflexivity.
Qed.

Lemma scored_rmse X_test y_test entries :
  Forall (fun entry => rmse (snd entry) = np_sqrt (mse (snd entry)))
         (scored X_test y_test entries).
Proof.
  induction entries as [|[name model] rest IH]; simpl; [constructor|].
  destruct (score_of X_test y_test model) as [metrics|e] eqn:E; [|constructor].
  constructor; [|exact IH]. simpl. revert E. unfold score_of.
  destruct (predict model X_test); [|discriminate].
  destruct (mean_squared_error _ _); [|discriminate].
  destruct (mean_absolute_error _ _); [|discriminate].
  destruct (r2_score _ _); [|discriminate].
  intros [= <-]. reflexivity.
Qed.

(** [_evaluate_models] never raises and changes nothing but the metrics of
    its target, which it replaces by the scores of the random forest, the
    gradient boosting and the linear regression, in this order, up to the
    first model that cannot be scored: a failure discards what was stored
    for the target before and keeps the scores made so far.  Each entry's
    [rmse] is the square root of its [mse]. *)
Theorem evaluate_models_metrics (self : PredictiveScalingModel) target X_test y_test
    rf_model gb_model lr_model :
  let s' := exec (_evaluate_models target X_test y_test rf_model gb_model lr_model) self in
  let metrics :=
    scored X_test y_test
      [("random_forest", rf_model); ("gradient_boosting", gb_model);
       ("linear_regression", lr_model)] in
  eval (_evaluate_models target X_test y_test rf_model gb_model lr_model) self = Ok tt /\
  s' = set_performance target metrics self /\
  map fst metrics `prefix_of` ["random_forest"; "gradient_boosting"; "linear_regression"] /\
  Forall (fun entry => rmse (snd entry) = np_sqrt (mse (snd entry))) metrics.
Proof.
  cbv zeta.
  set (entries := [("random_forest", rf_model); ("gradient_boosting", gb_model);
                   ("linear_regression", lr_model)]).
  assert (_evaluate_models target X_test y_test rf_model gb_model lr_model self
          = (Ok tt, set_performance target (scored X_test y_test entries) self)) as E.
  { unfold _evaluate_models, try_catch, bind, modify. cbn beta iota.
    fold entries.
    pose proof (evaluate_loop target X_test y_test entries
                  (set_performance target [] self) []) as H.
    unfold exec in H. rewrite set_performance_twice in H.
    specialize (H ltac:(unfold set_performance; simpl; apply lookup_insert_eq)).
    change ([] ++ scored X_test y_test entries) with (scored X_test y_test entries) in H.
    destruct (for_each entries (evaluate_one target X_test y_test)
                (set_performance target [] self)) as [[[]|e] s1];
      cbn [snd] in H; subst s1; reflexivity. }
  unfold eval, exec. rewrite E. simpl.
  split; [reflexivity|]. split; [reflexivity|]. split.
  - unfold entries. simpl.
    destruct (score_of X_test y_test rf_model); [|apply prefix_nil].
    destruct (score_of X_test y_test gb_model); [|simpl; exists ["gradient_boosting"; "linear_regression"]; reflexivity].
    destruct (score_of X_test y_test lr_model); simpl.
    + exists []. reflexivity.
    + exists ["linear_regression"]. reflexivity.
  - exact (scored_rmse X_test y_test entries).
Qed.

End Theorems.
End ScalingEvaluationTheorems.

Module RootCauseMoreFacts.
Section Facts.
Context {L : Library}.
Import RootCauseAnalysis RootCauseProperties RootCauseMoreProperties RootCauseFacts.

Lemma incident_preprocess_run_keeps {A} (f : RootCauseAnalysisModel -> A) data s :
  (forall k e s, f (set_encoder k e s) = f s) ->
  f (fst (preprocess_run data s)) = f s.
Proof.
  intros Hf.
  assert (preserves (on_fst (unchanged f)) preprocess_body) as H.
  { unfold preprocess_body, encode_column, add_temporal, set_data, on_self.
    frame; apply preserves_modify; intros [? ?]; unfold on_fst, unchanged; simpl;
      first [reflexivity | apply Hf]. }
  apply (preserves_try_catch (on_fst (unchanged f)) preprocess_body
           (fun _ => ret tt) H (fun e => preserves_ret _ tt) (s, data)).
Qed.

Lemma pattern_run_keeps {A} (f : RootCauseAnalysisModel -> A) data s :
  (forall k m s, f (set_model k m s) = f s) ->
  f (fst (pattern_run data s)) = f s.
Proof.
  intros Hf.
  assert (preserves (on_fst (unchanged f)) (pattern_body data)) as H.
  { unfold pattern_body.
    frame; apply preserves_modify; intros [? ?]; unfold on_fst, unchanged; simpl;
      first [reflexivity | apply Hf]. }
  apply (preserves_try_catch (on_fst (unchanged f)) (pattern_body data)
           (fun _ => ret tt) H (fun e => preserves_ret _ tt)
           (s, mkLevel2 None None None)).
Qed.

(** *** Sorting a sorted list *)

Lemma insert_desc_descending {A} (key : A -> float) x (items : list A) :
  descending key items -> descending key (insert_desc key x items).
Proof.
  induction items as [|y rest IH]; intros H; simpl; [auto|].
  destruct (flt (key x) (key y)) eqn:E.
  - destruct H as [Hy Hrest]. split; [|apply IH, Hrest].
    destruct rest as [|z rest']; simpl.
    + destruct (key x) as [a|], (key y) as [b|]; simpl in *; try discriminate.
      unfold Qltb in *. apply negb_true_iff in E. apply negb_false_iff.
      apply Qle_bool_iff. apply Qnot_lt_le. intros Hlt.
      apply Qlt_not_le in Hlt. apply Hlt. 
      destruct (Qlt_le_dec b a) as [Hba|Hab]; [|exact Hab].
      exfalso. apply Qlt_le_weak in Hba. apply Qle_bool_iff in Hba. congruence.
    + destruct (flt (key x) (key z)); [exact Hy|].
      destruct (key x) as [a|], (key y) as [b|]; simpl in *; try discriminate.
      unfold Qltb in *. apply negb_true_iff in E. apply negb_false_iff.
      apply Qle_bool_iff.
      destruct (Qlt_le_dec b a) as [Hba|Hab]; [|exact Hab].
      exfalso. apply Qlt_le_weak in Hba. apply Qle_bool_iff in Hba. congruence.
  - split; [exact E | exact H].
Qed.

Lemma sorted_desc_descending {A} (key : A -> float) (items : list A) :
  descending key (sorted_desc key items).
Proof.
  induction items as [|x items IH]; simpl; [exact I|].
  apply insert_desc_descending, IH.
Qed.

Lemma sorted_desc_fixed {A} (key : A -> float) (items : list A) :
  descending key items -> sorted_desc key items = items.
Proof.
  induction items as [|x rest IH]; intros H; [reflexivity|].
  destruct H as [Hx Hrest]. unfold sorted_desc in *. simpl. rewrite (IH Hrest).
  destruct rest as [|y rest']; [reflexivity|]. simpl. rewrite Hx. reflexivity.
Qed.

Lemma score_twice cause : score (score cause) = score cause.
Proof. reflexivity. Qed.

Lemma insert_desc_scored x (items : list RootCauseHypothesis) :
  map score items = items ->
  map score (insert_desc weighted_score (score x) items)
  = insert_desc weighted_score (score x) items.
Proof.
  induction items as [|y rest IH]; intros H; [reflexivity|].
  simpl in *. inversion H as [[Hy Hrest]]. rewrite !Hy, !Hrest.
  destruct (flt _ _); simpl.
  - rewrite Hy, IH by exact Hrest. reflexivity.
  - rewrite Hy, Hrest. reflexivity.
Qed.

Lemma ranked_scored (causes : list RootCauseHypothesis) :
  map score (_rank_root_causes causes) = _rank_root_causes causes.
Proof.
  unfold _rank_root_causes, sorted_desc.
  induction causes as [|x causes IH]; [reflexivity|]. simpl.
  apply insert_desc_scored, IH.
Qed.

End Facts.
End RootCauseMoreFacts.

Module RootCauseMoreTheorems.
Section Theorems.
Context {L : Library}.
Import RootCauseAnalysis RootCauseProperties RootCauseMoreProperties RootCauseFacts
       RootCauseMoreFacts.

(** [analyze_root_cause] never raises.  An untrained analyzer answers
    "Models not trained" and stays as it was.  A trained analyzer never
    answers with the error result, since every step catches its own
    exceptions: its answer has the three levels on its path and the time of
    the second clock reading, and the call appends one record to
    [analysis_history], which holds the whole ranking, of which the answer
    returns the first [max_root_causes].  The configuration, the flag, the
    training time, the scalers and the graph are unchanged. *)
Theorem analyze_root_cause_answer (s : RootCauseAnalysisModel) incident_data
    incident_metrics now later :
  let s' := exec (analyze_root_cause incident_data incident_metrics now later) s in
  exists r,
    eval (analyze_root_cause incident_data incident_metrics now later) s = Ok r /\
    ((is_trained s = false /\ r = not_trained_result /\ s' = s) \/
     (is_trained s = true /\
      result_error r = None /\ result_path r = levels /\
      result_timestamp r = Some (isoformat later) /\
      (exists ranked,
         analysis_history s'
         = analysis_history s ++ [mkRecord (isoformat now) incident_metrics ranked levels] /\
         root_causes r = slice_to (max_root_causes (config s)) ranked /\
         confidence r = np_mean (map h_confidence ranked)) /\
      config s' = config s /\ is_trained s' = true /\
      last_training s' = last_training s /\ scalers s' = scalers s /\
      correlation_graph s' = correlation_graph s)).
Proof.
  cbv zeta. unfold analyze_root_cause, eval, exec, bind, gets.
  destruct (is_trained s) eqn:Ht; simpl;
    [|exists not_trained_result; split; [reflexivity | left; repeat split]].
  set (s1 := fst (preprocess_run incident_data s)).
  set (processed := snd (preprocess_run incident_data s)).
  set (s2 := fst (pattern_run processed s1)).
  assert (forall {A} (f : RootCauseAnalysisModel -> A),
            (forall k e s, f (set_encoder k e s) = f s) ->
            (forall k m s, f (set_model k m s) = f s) ->
            f s2 = f s) as Hkeep.
  { intros A f He Hm. unfold s2.
    rewrite (pattern_run_keeps f processed s1 Hm).
    apply (incident_preprocess_run_keeps f incident_data s He). }
  unfold try_catch, analyze_body, bind, copy.
  rewrite preprocess_incident_data_eq. fold s1 processed.
  unfold _perform_multi_level_analysis, bind.
  rewrite _pattern_recognition_eq. fold s2.
  unfold get, ret, modify, gets. simpl.
  eexists. split; [reflexivity|]. right. simpl.
  split; [reflexivity|]. split; [reflexivity|]. split; [reflexivity|]. split; [reflexivity|].
  split.
  { eexists. split; [|split; [|reflexivity]].
    - rewrite (Hkeep _ analysis_history (fun _ _ _ => eq_refl) (fun _ _ _ => eq_refl)).
      reflexivity.
    - rewrite (Hkeep _ config (fun _ _ _ => eq_refl) (fun _ _ _ => eq_refl)).
      reflexivity. }
  rewrite (Hkeep _ config (fun _ _ _ => eq_refl) (fun _ _ _ => eq_refl)).
  rewrite (Hkeep _ is_trained (fun _ _ _ => eq_refl) (fun _ _ _ => eq_refl)).
  rewrite (Hkeep _ last_training (fun _ _ _ => eq_refl) (fun _ _ _ => eq_refl)).
  rewrite (Hkeep _ scalers (fun _ _ _ => eq_refl) (fun _ _ _ => eq_refl)).
  rewrite (Hkeep _ correlation_graph (fun _ _ _ => eq_refl) (fun _ _ _ => eq_refl)).
  repeat split. exact Ht.
Qed.

(** Every hypothesis that [_generate_root_cause_hypotheses] makes is of one
    of five kinds, and its type fixes its severity and bounds its
    confidence: statistical_outlier is medium with at most 0.8,
    trend_anomaly low with at most 0.7, ai_anomaly high with at most 0.9,
    pattern_instability medium with 0.6, dependency_bottleneck high with
    0.8.  None carries a weighted score before the ranking. *)
Theorem generated_hypothesis_kinds (analysis_results : AnalysisResults) :
  Forall hypothesis_kind (_generate_root_cause_hypotheses analysis_results).
Proof.
  unfold _generate_root_cause_hypotheses. rewrite !Forall_app. repeat split.
  - apply Forall_concat, Forall_fmap, Forall_true. intros [metric stats].
    unfold compose, statistical_hypotheses. cbn beta iota. apply Forall_app. split.
    + destruct (0 <? _)%nat; [|constructor]. constructor; [|constructor].
      split; [reflexivity|]. left. simpl.
      repeat split. apply (AnomalyResultFacts.py_min_cap 0.8).
    + destruct (trend stats) as [t|]; [|constructor].
      destruct (flt _ _); [|constructor]. constructor; [|constructor].
      split; [reflexivity|]. right. left. simpl.
      repeat split. apply (AnomalyResultFacts.py_min_cap 0.7).
  - unfold pattern_hypotheses. apply Forall_app. split.
    + destruct (anomaly_detection _) as [a|]; [|constructor].
      destruct (0 <? _)%nat; [|constructor]. constructor; [|constructor].
      split; [reflexivity|]. right. right. left. simpl.
      repeat split. apply (AnomalyResultFacts.py_min_cap 0.9).
    + destruct (kmeans_clusters _) as [c|]; [|constructor].
      destruct (flt _ _); [|constructor]. constructor; [|constructor].
      split; [reflexivity|]. right. right. right. left. simpl.
      repeat split.
  - unfold dependency_hypotheses. destruct (central_metrics _) as [c|]; [|constructor].
    apply Forall_concat, Forall_fmap, Forall_true. intros [metric centrality].
    unfold compose, bottleneck_hypothesis. cbn beta iota.
    destruct (fgt centrality _) eqn:E; [|constructor]. constructor; [|constructor].
    split; [reflexivity|]. right. right. right. right. simpl.
    split; [reflexivity|]. split; [reflexivity|].
    unfold py_min, fgt in *. rewrite (ScalingFacts.flt_asym _ _ E). reflexivity.
Qed.


(** Ranking a ranking changes nothing: on hypotheses whose scores are
    numbers [_rank_root_causes] is idempotent, and it returns as many
    hypotheses as it was given. *)
Theorem rank_root_causes_idempotent (causes : list RootCauseHypothesis) :
  Forall (fun cause => finite (weighted_score (score cause))) causes ->
  _rank_root_causes (_rank_root_causes causes) = _rank_root_causes causes /\
  length (_rank_root_causes causes) = length causes.
Proof.
  intros _. split.
  - unfold _rank_root_causes at 1. rewrite ranked_scored.
    apply sorted_desc_fixed. unfold _rank_root_causes. apply sorted_desc_descending.
  - unfold _rank_root_causes. rewrite sorted_desc_perm, length_map. reflexivity.
Qed.

End Theorems.
Import RootCauseAnalysis RootCauseProperties RootCauseExamples.

(** An instance: the anomalies of confidence 0.2 and severity high, with the
    score 0.2 * 3 = 0.6000000000000001, are ranked before the outlier of
    confidence 0.3 and severity medium, with the score 0.3 * 2 = 0.6, and
    the trend of score 0.5 comes last; ranking the ranking again changes
    nothing. *)
Lemma rank_root_causes_idempotent_witness :
  Forall (fun cause => finite (weighted_score (score (L := RefLib.library) cause)))
         unranked /\
  map (fun h => (h_type h, h_weighted_score h))
      (_rank_root_causes (L := RefLib.library) unranked)
  = [("ai_anomaly", Some (Fin (1351079888211149 # 2251799813685248)));
     ("statistical_outlier", Some (Fin (5404319552844595 # 9007199254740992)));
     ("trend_anomaly", Some (Fin (1 # 2)))] /\
  _rank_root_causes (L := RefLib.library) (_rank_root_causes (L := RefLib.library) unranked)
  = _rank_root_causes (L := RefLib.library) unranked.
Proof.
  assert (Forall (fun cause => finite (weighted_score (score (L := RefLib.library) cause)))
                 unranked) as Hnumbers.
  { repeat constructor; eexists; reflexivity. }
  split; [exact Hnumbers|]. split; [vm_compute; reflexivity|].
  apply (rank_root_causes_idempotent (L := RefLib.library) unranked Hnumbers).
Defined.


End RootCauseMoreTheorems.

Module FeatureFacts.
Section Facts.
Context {L : Library}.
Import PredictiveScaling FeatureProperties.

Ltac assigned_steps :=
  repeat first [apply assigned_refl | apply assigned_step; [|reflexivity]].

(** *** Columns and their positions *)

Lemma col_index_lt name schema j :
  col_index name schema = Some j -> (j < length schema)%nat.
Proof.
  revert j. induction schema as [|[n d] rest IH]; intros j; simpl; [discriminate|].
  destruct (String.eqb n name).
  - intros [= <-]. lia.
  - destruct (col_index name rest) as [j'|]; [|discriminate].
    intros [= <-]. specialize (IH j' eq_refl). lia.
Qed.

Lemma col_index_name name schema j :
  col_index name schema = Some j -> fst <$> schema !! j = Some name.
Proof.
  revert j. induction schema as [|[n d] rest IH]; intros j; simpl; [discriminate|].
  destruct (String.eqb_spec n name) as [->|_].
  - intros [= <-]. reflexivity.
  - destruct (col_index name rest) as [j'|]; [|discriminate].
    intros [= <-]. exact (IH j' eq_refl).
Qed.

Lemma col_index_inj name name' schema j :
  col_index name schema = Some j -> col_index name' schema = Some j -> name = name'.
Proof.
  intros H H'. apply col_index_name in H, H'. congruence.
Qed.

Lemma col_index_insert name name' dtype schema j' :
  col_index name' schema = Some j' ->
  col_index name (<[j' := (name', dtype)]> schema) = col_index name schema.
Proof.
  revert j'. induction schema as [|[n d] rest IH]; intros j'; simpl; [discriminate|].
  destruct (String.eqb n name') eqn:E.
  - intros [= <-]. simpl. apply String.eqb_eq in E. subst n. reflexivity.
  - destruct (col_index name' rest) as [i|] eqn:Ei; [|discriminate].
    intros [= <-]. simpl. rewrite (IH i eq_refl). reflexivity.
Qed.

Lemma col_index_app_Some name schema extra j :
  col_index name schema = Some j -> col_index name (schema ++ extra) = Some j.
Proof.
  revert j. induction schema as [|[n d] rest IH]; intros j; simpl; [discriminate|].
  destruct (String.eqb n name); [auto|].
  destruct (col_index name rest) as [i|]; [|discriminate].
  intros [= <-]. rewrite (IH i eq_refl). reflexivity.
Qed.

Lemma col_index_snoc name name' dtype schema :
  name <> name' ->
  col_index name (schema ++ [(name', dtype)]) = col_index name schema.
Proof.
  intros Hne. induction schema as [|[n d] rest IH]; simpl.
  - destruct (String.eqb_spec name' name); [congruence | reflexivity].
  - destruct (String.eqb n name); [reflexivity|]. rewrite IH. reflexivity.
Qed.

Lemma col_index_snoc_new name dtype schema :
  col_index name schema = None ->
  col_index name (schema ++ [(name, dtype)]) = Some (length schema).
Proof.
  induction schema as [|[n d] rest IH]; simpl.
  - rewrite String.eqb_refl. reflexivity.
  - destruct (String.eqb n name); [discriminate|].
    destruct (col_index name rest); [discriminate|].
    intros _. rewrite IH by reflexivity. reflexivity.
Qed.

Lemma has_column_col_index name data :
  has_column name data = true <-> is_Some (col_index name (df_schema data)).
Proof.
  unfold has_column, columns. induction (df_schema data) as [|[n d] rest IH]; simpl.
  - split; [discriminate | intros [? ?]; discriminate].
  - rewrite String.eqb_sym. destruct (String.eqb n name); simpl.
    + split; eauto.
    + rewrite IH. destruct (col_index name rest); simpl; split; eauto.
      all: intros [? ?]; discriminate.
Qed.

Lemma listed_differ name name' names :
  existsb (String.eqb name) names = false ->
  existsb (String.eqb name') names = true ->
  name <> name'.
Proof. intros Hf Ht ->. congruence. Qed.

(** *** One assignment *)

Lemma set_column_col_index name name' dtype values data :
  name <> name' ->
  col_index name (df_schema (set_column name' dtype values data))
  = col_index name (df_schema data).
Proof.
  intros Hne. unfold set_column.
  destruct (col_index name' (df_schema data)) as [j'|] eqn:E; simpl.
  - apply col_index_insert. exact E.
  - apply col_index_snoc. exact Hne.
Qed.

Lemma set_column_len name dtype values data :
  (len (set_column name dtype values data) <= len data)%nat.
Proof.
  unfold set_column, len.
  destruct (col_index name (df_schema data)); simpl; rewrite length_zip_with; lia.
Qed.

Lemma set_column_rectangular name dtype values data :
  rectangular data -> rectangular (set_column name dtype values data).
Proof.
  unfold rectangular, set_column. intros H.
  destruct (col_index name (df_schema data)) as [j|]; simpl;
    apply Forall_lookup; intros i row Hi;
    apply lookup_zip_with_Some in Hi as (r & v & -> & Hr & _);
    pose proof (Forall_lookup_1 _ _ _ _ H Hr) as Hlen; simpl in Hlen.
  - rewrite !length_insert. exact Hlen.
  - rewrite !length_app, Hlen. reflexivity.
Qed.

Lemma set_column_nan_until k name name' dtype values data :
  name <> name' ->
  nan_until k name data -> nan_until k name (set_column name' dtype values data).
Proof.
  intros Hne (j & Hj & Hrows). exists j. split.
  - rewrite set_column_col_index by exact Hne. exact Hj.
  - intros i row Hi Hrow. unfold set_column in Hrow.
    destruct (col_index name' (df_schema data)) as [j'|] eqn:E; simpl in Hrow;
      apply lookup_zip_with_Some in Hrow as (r & v & -> & Hr & _);
      specialize (Hrows i r Hi Hr).
    + rewrite list_lookup_insert_ne; [exact Hrows|].
      intros <-. apply Hne. exact (col_index_inj _ _ _ _ Hj E).
    + apply lookup_app_l_Some. exact Hrows.
Qed.

(** The column that an assignment writes holds the values assigned. *)
Lemma set_column_cells name dtype values data :
  rectangular data ->
  exists j,
    col_index name (df_schema (set_column name dtype values data)) = Some j /\
    forall i row,
      df_rows (set_column name dtype values data) !! i = Some row ->
      exists v, values !! i = Some v /\ row !! j = Some v.
Proof.
  intros Hrect. unfold set_column.
  destruct (col_index name (df_schema data)) as [j|] eqn:E; simpl.
  - exists j. split.
    + rewrite col_index_insert by exact E. exact E.
    + intros i row Hrow.
      apply lookup_zip_with_Some in Hrow as (r & v & -> & Hr & Hv).
      exists v. split; [exact Hv|].
      apply list_lookup_insert_eq.
      rewrite (Forall_lookup_1 _ _ _ _ Hrect Hr). apply (col_index_lt name). exact E.
  - exists (length (df_schema data)). split.
    + apply col_index_snoc_new. exact E.
    + intros i row Hrow.
      apply lookup_zip_with_Some in Hrow as (r & v & -> & Hr & Hv).
      exists v. split; [exact Hv|].
      apply list_lookup_middle. symmetry. exact (Forall_lookup_1 _ _ _ _ Hrect Hr).
Qed.

(** *** Chains of assignments *)

Lemma assigned_trans names a b c :
  assigned names a b -> assigned names b c -> assigned names a c.
Proof. intros Hab Hbc. induction Hbc; [exact Hab | constructor; assumption]. Qed.

Lemma assigned_foldl names (step : DataFrame -> string -> DataFrame) features :
  (forall data feature, In feature features -> assigned names data (step data feature)) ->
  forall data, assigned names data (foldl step data features).
Proof.
  induction features as [|f rest IH]; intros Hstep data; simpl; [constructor|].
  eapply assigned_trans; [apply Hstep; left; reflexivity|].
  apply IH. intros d g Hg. apply Hstep. right. exact Hg.
Qed.

Lemma assigned_len names data data' :
  assigned names data data' -> (len data' <= len data)%nat.
Proof.
  induction 1 as [|data' name dtype values _ IH _]; [lia|].
  pose proof (set_column_len name dtype values data'). lia.
Qed.

Lemma assigned_rectangular names data data' :
  assigned names data data' -> rectangular data -> rectangular data'.
Proof. induction 1; auto using set_column_rectangular. Qed.

Lemma assigned_col_index names name data data' :
  existsb (String.eqb name) names = false ->
  assigned names data data' ->
  col_index name (df_schema data') = col_index name (df_schema data).
Proof.
  intros Hf. induction 1 as [|data' name' dtype values _ IH Ht]; [reflexivity|].
  rewrite set_column_col_index by exact (listed_differ _ _ _ Hf Ht). exact IH.
Qed.

Lemma assigned_nan_until names k name data data' :
  existsb (String.eqb name) names = false ->
  assigned names data data' ->
  nan_until k name data -> nan_until k name data'.
Proof.
  intros Hf. induction 1 as [|data' name' dtype values _ IH Ht]; [auto|].
  intros H. apply set_column_nan_until; [exact (listed_differ _ _ _ Hf Ht) | auto].
Qed.

(** *** The steps of [prepare_features] *)

Lemma add_time_features_assigned data :
  assigned engineered_names data (add_time_features data).
Proof. unfold add_time_features, set_numeric. cbv zeta. assigned_steps. Qed.

Lemma add_lags_assigned data feature :
  In feature lag_features -> assigned engineered_names data (add_lags data feature).
Proof.
  intros Hin. unfold add_lags. destruct (has_column feature data); [|constructor].
  cbn [foldl fst snd]. unfold set_numeric.
  unfold lag_features in Hin. simpl in Hin.
  destruct Hin as [<-|[<-|[<-|[<-|[]]]]]; assigned_steps.
Qed.

Lemma add_rolling_assigned data feature :
  In feature lag_features -> assigned engineered_names data (add_rolling data feature).
Proof.
  intros Hin. unfold add_rolling. destruct (has_column feature data); [|constructor].
  cbv zeta. unfold set_numeric.
  unfold lag_features in Hin. simpl in Hin.
  destruct Hin as [<-|[<-|[<-|[<-|[]]]]]; assigned_steps.
Qed.

Lemma add_trends_assigned data feature :
  In feature lag_features -> assigned engineered_names data (add_trends data feature).
Proof.
  intros Hin. unfold add_trends. destruct (has_column feature data); [|constructor].
  cbv zeta. unfold set_numeric.
  unfold lag_features in Hin. simpl in Hin.
  destruct Hin as [<-|[<-|[<-|[<-|[]]]]]; assigned_steps.
Qed.

Lemma add_cyclical_assigned data : assigned cyclical_names data (add_cyclical data).
Proof. unfold add_cyclical, set_numeric. cbv zeta. assigned_steps. Qed.

Lemma add_cyclical_engineered data : assigned engineered_names data (add_cyclical data).
Proof. unfold add_cyclical, set_numeric. cbv zeta. assigned_steps. Qed.

(** *** Sorting *)

Lemma insert_row_Forall (P : list Cell -> Prop) j r sorted :
  P r -> Forall P sorted -> Forall P (insert_row j r sorted).
Proof.
  intros Hr H. induction H as [|r' rest Hr' Hrest IH]; simpl; [repeat constructor; exact Hr|].
  destruct (time_le _ _); repeat constructor; assumption.
Qed.

Lemma length_insert_row j r sorted : length (insert_row j r sorted) = S (length sorted).
Proof.
  induction sorted as [|r' rest IH]; simpl; [reflexivity|].
  destruct (time_le _ _); simpl; [reflexivity | rewrite IH; reflexivity].
Qed.

Lemma sort_values_schema column data :
  df_schema (sort_values column data) = df_schema data.
Proof. unfold sort_values. destruct (col_index _ _); reflexivity. Qed.

Lemma sort_values_len column data : len (sort_values column data) = len data.
Proof.
  unfold sort_values, len. destruct (col_index _ _) as [j|]; [|reflexivity]. simpl.
  induction (df_rows data) as [|r rest IH]; simpl; [reflexivity|].
  rewrite length_insert_row, IH. reflexivity.
Qed.

Lemma sort_values_rectangular column data :
  rectangular data -> rectangular (sort_values column data).
Proof.
  unfold rectangular, sort_values. intros H.
  destruct (col_index _ _) as [j|]; [|exact H]. simpl.
  induction H as [|r rest Hr _ IH]; simpl; [constructor|].
  apply insert_row_Forall; assumption.
Qed.

(** *** Shifted columns and [dropna] *)

Lemma lookup_repeat_app {A} (x : A) k l i y :
  (i < k)%nat -> (repeat x k ++ l) !! i = Some y -> y = x.
Proof.
  revert i. induction k as [|k IH]; intros i Hi; [lia|].
  destruct i as [|i]; simpl; [congruence|]. apply IH. lia.
Qed.

Lemma lookup_firstn_Some {A} n (l : list A) i y :
  firstn n l !! i = Some y -> l !! i = Some y.
Proof.
  revert l i. induction n as [|n IH]; intros [|x l] [|i]; simpl; try discriminate; auto.
Qed.

Lemma trend_nan k values i v :
  (i < k)%nat -> zip_with fsub values (shift k values) !! i = Some v -> v = NaN.
Proof.
  intros Hi H. apply lookup_zip_with_Some in H as (x & y & -> & _ & Hy).
  unfold shift in Hy. apply lookup_firstn_Some in Hy.
  apply lookup_repeat_app in Hy; [|exact Hi]. subst y. destruct x; reflexivity.
Qed.

Lemma forallb_isna row j c :
  row !! j = Some c -> isna c = true -> forallb (fun c => negb (isna c)) row = false.
Proof.
  revert j. induction row as [|c' rest IH]; intros [|j]; simpl; try discriminate.
  - intros [= ->] ->. reflexivity.
  - intros Hj Hc. rewrite (IH j Hj Hc). apply andb_false_r.
Qed.

Lemma length_filter_prefix {A} (P : A -> Prop) `{forall x, Decision (P x)} k (l : list A) :
  (forall i x, (i < k)%nat -> l !! i = Some x -> ~ P x) ->
  (length (filter P l) <= length l - k)%nat.
Proof.
  revert k. induction l as [|x rest IH]; intros k Hk; simpl; [lia|].
  destruct k as [|k].
  - pose proof (length_filter P (x :: rest)) as Hlen. simpl in Hlen. lia.
  - rewrite filter_cons_False by (apply (Hk 0%nat); [lia | reflexivity]).
    apply IH. intros i y Hi Hy. apply (Hk (S i)); [lia | exact Hy].
Qed.

Lemma dropna_schema data : df_schema (dropna data) = df_schema data.
Proof. reflexivity. Qed.

Lemma dropna_nan_until k name data :
  nan_until k name data -> (len (dropna data) <= len data - k)%nat.
Proof.
  intros (j & _ & Hrows). unfold dropna, len. simpl.
  apply length_filter_prefix. intros i row Hi Hrow.
  rewrite (forallb_isna row j (CNum NaN) (Hrows i row Hi Hrow) eq_refl). discriminate.
Qed.

(** *** Selections *)

Lemma select_indices_columns names schema js :
  select_indices names schema = Ok js ->
  Forall (fun name => is_Some (col_index name schema)) names.
Proof.
  revert js. induction names as [|n rest IH]; intros js; simpl; [constructor|].
  destruct (col_index n schema) as [j|] eqn:E; [|discriminate].
  destruct (select_indices rest schema) as [js'|e]; [|discriminate].
  intros _. constructor; [eauto | eapply IH; reflexivity].
Qed.

Lemma select_len names data selected :
  select names data = Ok selected -> len selected = len data.
Proof.
  unfold select. destruct (select_indices _ _); [|discriminate].
  intros [= <-]. unfold len. simpl. apply length_map.
Qed.

(** *** The engineered frame *)

Lemma Ok_inj {A} (a b : A) : Ok a = Ok b -> a = b.
Proof. intros [= ->]. reflexivity. Qed.

Lemma engineer_features_eq data engineered :
  engineer_features data = Ok engineered ->
  has_column "timestamp" data = true /\
  exists ts, engineered = dropna (engineered_from ts data).
Proof.
  unfold engineer_features. destruct (has_column "timestamp" data); [|discriminate].
  simpl negb. cbv iota.
  destruct (traverse to_datetime _) as [ts|e]; [|discriminate].
  intros E. split; [reflexivity|]. exists ts.
  cbv zeta in E. apply Ok_inj in E. subst engineered. unfold engineered_from. reflexivity.
Qed.

Lemma engineer_features_columns data engineered name :
  engineer_features data = Ok engineered ->
  existsb (String.eqb name) ("timestamp" :: engineered_names) = false ->
  col_index name (df_schema engineered) = col_index name (df_schema data).
Proof.
  intros E Hname. apply engineer_features_eq in E as (_ & ts & ->).
  rewrite dropna_schema. unfold engineered_from.
  change (String.eqb name "timestamp" || existsb (String.eqb name) engineered_names = false)
    in Hname.
  apply orb_false_elim in Hname as [Hts Hname].
  rewrite (assigned_col_index engineered_names name
             (sort_values "timestamp" (set_column "timestamp" DDatetime ts data))).
  - rewrite sort_values_schema. apply set_column_col_index.
    intros ->. rewrite String.eqb_refl in Hts. discriminate.
  - exact Hname.
  - eapply assigned_trans; [|apply add_cyclical_engineered].
    eapply assigned_trans; [|apply assigned_foldl, add_trends_assigned].
    eapply assigned_trans; [|apply assigned_foldl, add_rolling_assigned].
    eapply assigned_trans; [|apply assigned_foldl, add_lags_assigned].
    apply add_time_features_assigned.
Qed.

Lemma foldl_lag_features (step : DataFrame -> string -> DataFrame) data :
  foldl step data lag_features
  = step (step (step (step data "cpu_usage") "memory_usage") "response_time") "throughput".
Proof. reflexivity. Qed.

(** The 24-hour trend of a column has no value in the first 96 rows. *)
Lemma add_trends_nan_until data :
  rectangular data ->
  has_column "throughput" data = true ->
  nan_until 96 "throughput_trend_24h" (add_trends data "throughput") /\
  (len (add_trends data "throughput") <= len data)%nat.
Proof.
  intros Hrect Hcol. unfold add_trends. rewrite Hcol. cbv zeta.
  set (six := set_numeric ("throughput" +:+ "_trend_6h") _ data).
  assert (rectangular six) as Hsix by apply set_column_rectangular, Hrect.
  assert (len six <= len data)%nat as Hls by apply set_column_len.
  set (values := zip_with fsub (column_values "throughput" six)
                   (shift 96 (column_values "throughput" six))).
  split.
  - unfold set_numeric.
    destruct (set_column_cells "throughput_trend_24h" DNumber (map CNum values) six Hsix)
      as (j & Hj & Hcells).
    exists j. split; [exact Hj|]. intros i row Hi Hrow.
    destruct (Hcells i row Hrow) as (v & Hv & Hrj). rewrite Hrj. f_equal.
    rewrite list_lookup_fmap in Hv.
    destruct (values !! i) as [x|] eqn:Ex; [|discriminate].
    injection Hv as <-. f_equal. exact (trend_nan 96 _ i x Hi Ex).
  - pose proof (set_column_len ("throughput" +:+ "_trend_24h") DNumber (map CNum values) six)
      as Hl24.
    unfold set_numeric. lia.
Qed.

Lemma trended_len rolled :
  rectangular rolled ->
  has_column "throughput" rolled = true ->
  (len (dropna (add_cyclical (foldl add_trends rolled lag_features))) <= len rolled - 96)%nat.
Proof.
  intros Hrect Hcol. rewrite foldl_lag_features.
  pose (before := add_trends (add_trends (add_trends rolled "cpu_usage") "memory_usage")
                    "response_time").
  assert (assigned engineered_names rolled before) as Hbefore.
  { unfold before.
    eapply assigned_trans; [|apply add_trends_assigned; unfold lag_features; simpl; tauto].
    eapply assigned_trans; [|apply add_trends_assigned; unfold lag_features; simpl; tauto].
    apply add_trends_assigned; unfold lag_features; simpl; tauto. }
  assert (has_column "throughput" before = true) as Hcb.
  { apply has_column_col_index.
    rewrite (assigned_col_index engineered_names "throughput" rolled before eq_refl Hbefore).
    apply has_column_col_index. exact Hcol. }
  destruct (add_trends_nan_until before (assigned_rectangular _ _ _ Hbefore Hrect) Hcb)
    as [Hnan Hlt].
  pose proof (assigned_len _ _ _ Hbefore) as Hlb.
  pose proof (assigned_nan_until cyclical_names 96 "throughput_trend_24h" _ _ eq_refl
                (add_cyclical_assigned (add_trends before "throughput")) Hnan) as Hfinal.
  pose proof (dropna_nan_until _ _ _ Hfinal) as Hdrop.
  pose proof (assigned_len _ _ _ (add_cyclical_assigned (add_trends before "throughput")))
    as Hlc.
  fold before. lia.
Qed.

Lemma engineer_features_len data engineered :
  rectangular data ->
  has_column "throughput" data = true ->
  engineer_features data = Ok engineered ->
  (len engineered <= len data - 96)%nat.
Proof.
  intros Hrect Hthr E. apply engineer_features_eq in E as (_ & ts & ->).
  unfold engineered_from.
  pose (sorted := sort_values "timestamp" (set_column "timestamp" DDatetime ts data)).
  pose (rolled := foldl add_rolling (foldl add_lags (add_time_features sorted) lag_features)
                    lag_features).
  assert (assigned engineered_names sorted rolled) as Hrolled.
  { unfold rolled.
    eapply assigned_trans; [|apply assigned_foldl, add_rolling_assigned].
    eapply assigned_trans; [|apply assigned_foldl, add_lags_assigned].
    apply add_time_features_assigned. }
  assert (rectangular sorted) as Hsorted
    by (apply sort_values_rectangular, set_column_rectangular, Hrect).
  assert (len sorted <= len data)%nat as Hlen.
  { unfold sorted. rewrite sort_values_len. apply set_column_len. }
  assert (has_column "throughput" rolled = true) as Hcol.
  { apply has_column_col_index.
    rewrite (assigned_col_index engineered_names "throughput" sorted rolled eq_refl Hrolled).
    unfold sorted. rewrite sort_values_schema.
    rewrite set_column_col_index by discriminate.
    apply has_column_col_index. exact Hthr. }
  pose proof (trended_len rolled (assigned_rectangular _ _ _ Hrolled Hsorted) Hcol) as Ht.
  pose proof (assigned_len _ _ _ Hrolled) as Hlr.
  fold sorted. fold rolled. lia.
Qed.

End Facts.
End FeatureFacts.

Module FeatureTheorems.
Section Theorems.
Context {L : Library}.
Import PredictiveScaling FeatureProperties FeatureFacts.

(** What [prepare_features] returns for a frame it accepts.  The frame has
    the [timestamp] column and all four metric columns, [X] and [y] have the
    same number of rows, and these are at most the rows of the frame less
    96: the rows that the 24-hour trend leaves without a value are dropped,
    so a frame of up to 96 rows gives no row at all. *)
Theorem prepare_features_rows (data X y : DataFrame) :
  rectangular data ->
  prepare_features data = Ok (X, y) ->
  Forall (fun name => has_column name data = true) ("timestamp" :: lag_features) /\
  len X = len y /\
  (len X <= len data - 96)%nat.
Proof.
  intros Hrect. unfold prepare_features.
  destruct (engineer_features data) as [engineered|e] eqn:E; [|discriminate].
  destruct (select (feature_columns engineered) engineered) as [X'|e] eqn:EX;
    [|discriminate].
  destruct (select lag_features engineered) as [y'|e] eqn:Ey; [|discriminate].
  intros [= <- <-].
  assert (Forall (fun name => has_column name data = true) lag_features) as Hcols.
  { unfold select in Ey.
    destruct (select_indices lag_features (df_schema engineered)) as [js|e] eqn:Ejs;
      [|discriminate].
    pose proof (select_indices_columns _ _ _ Ejs) as Hjs.
    unfold lag_features in *.
    repeat match goal with
           | H : Forall _ (_ :: _) |- _ => apply Forall_cons in H as [? H]
           end.
    assert (forall name,
              existsb (String.eqb name) ("timestamp" :: engineered_names) = false ->
              is_Some (col_index name (df_schema engineered)) ->
              has_column name data = true) as Hback.
    { intros name Hn Hs. apply has_column_col_index.
      rewrite <- (engineer_features_columns data engineered name E Hn). exact Hs. }
    repeat (constructor; [apply Hback; [reflexivity | assumption]|]).
    constructor. }
  split; [|split].
  - constructor; [|exact Hcols]. exact (proj1 (engineer_features_eq _ _ E)).
  - rewrite (select_len _ _ _ EX), (select_len _ _ _ Ey). reflexivity.
  - rewrite (select_len _ _ _ EX). apply engineer_features_len; [exact Hrect| |exact E].
    unfold lag_features in Hcols.
    apply Forall_cons in Hcols as [_ Hcols]. apply Forall_cons in Hcols as [_ Hcols].
    apply Forall_cons in Hcols as [_ Hcols]. apply Forall_cons in Hcols as [Ht _].
    exact Ht.
Qed.

End Theorems.

Import PredictiveScaling ScalingExamples FeatureProperties.

(** An instance: two hourly samples give no row of features. *)
Lemma prepare_features_rows_witness :
  rectangular (hourly 2) /\
  match prepare_features (L := RefLib.library) (hourly 2) return Prop with
  | Ok (X, y) => len X = 0%nat /\ len y = 0%nat
  | Raise _ => False
  end.
Proof.
  assert (rectangular (hourly 2)) as Hrect by (unfold rectangular; simpl; repeat constructor).
  split; [exact Hrect|].
  assert (match prepare_features (L := RefLib.library) (hourly 2) return Prop with
          | Ok _ => True
          | Raise _ => False
          end) as Hok by (vm_compute; exact I).
  destruct (prepare_features (L := RefLib.library) (hourly 2)) as [[X y]|e] eqn:E;
    [|exact Hok].
  destruct (prepare_features_rows (hourly 2) X y Hrect E) as (_ & Hxy & Hx).
  simpl in Hx. lia.
Defined.

End FeatureTheorems.

Module EngineFacts.
Section Facts.
Context {L : Library}.
Import Persistence PersistenceProperties PersistenceFacts Engine EngineProperties.

Lemma path_join_inj a b b' :
  starts_with_slash b = false -> starts_with_slash b' = false ->
  path_join a b = path_join a b' -> b = b'.
Proof.
  unfold path_join. intros -> ->.
  destruct (String.eqb a "" || ends_with_slash a); intros E.
  - exact (String.app_inj a _ _ E).
  - apply (String.app_inj a) in E. exact (String.app_inj "/" _ _ E).
Qed.

Lemma model_paths_differ storage :
  model_path storage "anomaly_detection" <> model_path storage "predictive_scaling" /\
  model_path storage "anomaly_detection" <> model_path storage "root_cause_analysis" /\
  model_path storage "predictive_scaling" <> model_path storage "root_cause_analysis".
Proof.
  unfold model_path.
  repeat split; intros E; apply path_join_inj in E; try reflexivity; discriminate E.
Qed.

Lemma on_anomaly_detection_load fs path models :
  on_anomaly_detection (Anomaly.load_models fs path) models
  = (Ok tt, mkModels (anomaly_loaded fs path (anomaly_detection models))
                     (predictive_scaling models) (root_cause_analysis models)).
Proof. unfold on_anomaly_detection. rewrite anomaly_load_models. reflexivity. Qed.

Lemma on_predictive_scaling_load fs path models :
  on_predictive_scaling (Scaling.load_models fs path) models
  = (Ok tt, mkModels (anomaly_detection models)
                     (scaling_loaded fs path (predictive_scaling models))
                     (root_cause_analysis models)).
Proof. unfold on_predictive_scaling. rewrite scaling_load_models. reflexivity. Qed.

Lemma on_root_cause_analysis_load fs path models :
  on_root_cause_analysis (RootCause.load_models fs path) models
  = (Ok tt, mkModels (anomaly_detection models) (predictive_scaling models)
                     (root_cause_loaded fs path (root_cause_analysis models))).
Proof. unfold on_root_cause_analysis. rewrite root_cause_load_models. reflexivity. Qed.

Lemma load_pretrained_eq storage fs models :
  load_pretrained storage fs models = (Ok tt, loaded_from storage fs models).
Proof.
  unfold load_pretrained, loaded_from, saved, try_catch, bind, ret.
  destruct models as [a p r]. cbn [anomaly_detection predictive_scaling root_cause_analysis].
  destruct (path_exists fs (model_path storage "anomaly_detection"));
    rewrite ?on_anomaly_detection_load;
    cbn [anomaly_detection predictive_scaling root_cause_analysis];
    destruct (path_exists fs (model_path storage "predictive_scaling"));
    rewrite ?on_predictive_scaling_load;
    cbn [anomaly_detection predictive_scaling root_cause_analysis];
    destruct (path_exists fs (model_path storage "root_cause_analysis"));
    rewrite ?on_root_cause_analysis_load; reflexivity.
Qed.

Lemma reload_one_anomaly fs storage lists models :
  reload_one fs storage "anomaly_detection"
    (fun path => on_anomaly_detection (Anomaly.load_models fs path)) lists models
  = (Ok (if saved storage fs "anomaly_detection"
         then (fst lists ++ ["anomaly_detection"], snd lists)
         else (fst lists, snd lists ++ ["anomaly_detection: No saved model found"])),
     mkModels
       (if saved storage fs "anomaly_detection" then
          anomaly_loaded fs (model_path storage "anomaly_detection")
            (anomaly_detection models)
        else anomaly_detection models)
       (predictive_scaling models) (root_cause_analysis models)).
Proof.
  unfold reload_one, saved, try_catch, bind, ret.
  destruct (path_exists fs (model_path storage "anomaly_detection")).
  - rewrite on_anomaly_detection_load. reflexivity.
  - destruct models; reflexivity.
Qed.

Lemma reload_one_scaling fs storage lists models :
  reload_one fs storage "predictive_scaling"
    (fun path => on_predictive_scaling (Scaling.load_models fs path)) lists models
  = (Ok (if saved storage fs "predictive_scaling"
         then (fst lists ++ ["predictive_scaling"], snd lists)
         else (fst lists, snd lists ++ ["predictive_scaling: No saved model found"])),
     mkModels
       (anomaly_detection models)
       (if saved storage fs "predictive_scaling" then
          scaling_loaded fs (model_path storage "predictive_scaling")
            (predictive_scaling models)
        else predictive_scaling models)
       (root_cause_analysis models)).
Proof.
  unfold reload_one, saved, try_catch, bind, ret.
  destruct (path_exists fs (model_path storage "predictive_scaling")).
  - rewrite on_predictive_scaling_load. reflexivity.
  - destruct models; reflexivity.
Qed.

Lemma reload_one_root_cause fs storage lists models :
  reload_one fs storage "root_cause_analysis"
    (fun path => on_root_cause_analysis (RootCause.load_models fs path)) lists models
  = (Ok (if saved storage fs "root_cause_analysis"
         then (fst lists ++ ["root_cause_analysis"], snd lists)
         else (fst lists, snd lists ++ ["root_cause_analysis: No saved model found"])),
     mkModels
       (anomaly_detection models) (predictive_scaling models)
       (if saved storage fs "root_cause_analysis" then
          root_cause_loaded fs (model_path storage "root_cause_analysis")
            (root_cause_analysis models)
        else root_cause_analysis models)).
Proof.
  unfold reload_one, saved, try_catch, bind, ret.
  destruct (path_exists fs (model_path storage "root_cause_analysis")).
  - rewrite on_root_cause_analysis_load. reflexivity.
  - destruct models; reflexivity.
Qed.

Lemma reload_models_state storage fs utcnow models :
  snd (reload_models storage fs utcnow models) = loaded_from storage fs models.
Proof.
  unfold reload_models, bind, ret.
  rewrite reload_one_anomaly. cbn beta iota.
  rewrite reload_one_scaling. cbn beta iota.
  rewrite reload_one_root_cause. reflexivity.
Qed.

Lemma reload_models_body storage fs utcnow models :
  exists lists,
    fst (reload_models storage fs utcnow models)
    = Respond (mkReloaded (fst lists) (snd lists) (isoformat utcnow)) /\
    (saved storage fs "anomaly_detection" = true -> "anomaly_detection" ∈ fst lists) /\
    Forall (fun line => exists model_name, line = model_name +:+ ": No saved model found")
           (snd lists).
Proof.
  unfold reload_models, bind, ret.
  rewrite reload_one_anomaly. cbn beta iota.
  rewrite reload_one_scaling. cbn beta iota.
  rewrite reload_one_root_cause. cbn beta iota.
  eexists. split; [reflexivity|].
  destruct (saved storage fs "anomaly_detection"),
           (saved storage fs "predictive_scaling"),
           (saved storage fs "root_cause_analysis"); cbn [fst snd app];
    (split; [first [discriminate | intros _; constructor]|]);
    repeat (constructor;
            [first [exists "anomaly_detection"; reflexivity
                   | exists "predictive_scaling"; reflexivity
                   | exists "root_cause_analysis"; reflexivity]|]);
    constructor.
Qed.

(** One turn of the loop of [shutdown]. *)
Lemma save_if_trained (trained : bool) model_data path fs :
  (if trained then try_catch (joblib_dump model_data path) (fun _ => ret tt) else ret tt) fs
  = (Ok tt,
     mkFS (if trained && bool_decide (path ∉ unwritable fs)
           then <[path := model_data]> (files fs) else files fs)
          (unwritable fs)).
Proof.
  destruct fs as [f u]. destruct trained; [|reflexivity].
  unfold try_catch, joblib_dump, ret. cbn [unwritable files andb].
  destruct (decide (path ∈ u)) as [Hin|Hin].
  - rewrite bool_decide_eq_false_2 by (intros Hn; contradiction). reflexivity.
  - rewrite bool_decide_eq_true_2 by exact Hin. reflexivity.
Qed.

(** What a file of the storage directory holds after [shutdown]. *)
Lemma shutdown_eq storage models fs :
  exists fs',
    shutdown storage models fs = (Ok tt, fs') /\
    unwritable fs' = unwritable fs /\
    files fs' !! model_path storage "anomaly_detection"
    = (if AnomalyDetection.is_trained (anomaly_detection models)
          && bool_decide (model_path storage "anomaly_detection" ∉ unwritable fs)
       then Some (AnomalyBundle (anomaly_detection models))
       else files fs !! model_path storage "anomaly_detection") /\
    files fs' !! model_path storage "predictive_scaling"
    = (if PredictiveScaling.is_trained (predictive_scaling models)
          && bool_decide (model_path storage "predictive_scaling" ∉ unwritable fs)
       then Some (ScalingBundle (predictive_scaling models))
       else files fs !! model_path storage "predictive_scaling") /\
    files fs' !! model_path storage "root_cause_analysis"
    = (if RootCauseAnalysis.is_trained (root_cause_analysis models)
          && bool_decide (model_path storage "root_cause_analysis" ∉ unwritable fs)
       then Some (RootCauseBundle (root_cause_analysis models))
       else files fs !! model_path storage "root_cause_analysis").
Proof.
  destruct (model_paths_differ storage) as (Hap & Har & Hpr).
  unfold shutdown, Anomaly.save_models, Scaling.save_models, RootCause.save_models.
  unfold try_catch at 1. unfold bind.
  rewrite save_if_trained. cbn beta iota.
  rewrite save_if_trained. cbn beta iota.
  rewrite save_if_trained. cbn beta iota. cbn [unwritable files].
  eexists. split; [reflexivity|]. cbn [unwritable files].
  split; [reflexivity|].
  destruct (AnomalyDetection.is_trained (anomaly_detection models)
            && bool_decide (model_path storage "anomaly_detection" ∉ unwritable fs)),
           (PredictiveScaling.is_trained (predictive_scaling models)
            && bool_decide (model_path storage "predictive_scaling" ∉ unwritable fs)),
           (RootCauseAnalysis.is_trained (root_cause_analysis models)
            && bool_decide (model_path storage "root_cause_analysis" ∉ unwritable fs));
    repeat split;
    repeat (first [rewrite lookup_insert_eq | rewrite lookup_insert_ne by congruence]);
    reflexivity.
Qed.

End Facts.
End EngineFacts.

Module EngineTheorems.
Section Theorems.
Context {L : Library}.
Import Persistence PersistenceProperties PersistenceFacts Engine EngineProperties EngineFacts.

(** [reload_models] always answers, never with the status 500.  [reloaded]
    lists the components whose file exists, [failed] has the line
    [No saved model found] for each of the others, both in the order of the
    loop; each component whose file exists is left as [load_models] leaves
    it, the others are not touched. *)
Theorem reload_models_answer (storage : string) (fs : FileSystem) utcnow models :
  reload_models storage fs utcnow models
  = (Respond
       (mkReloaded
          (List.filter (saved storage fs) model_names)
          (map (fun model_name => model_name +:+ ": No saved model found")
               (List.filter (fun model_name => negb (saved storage fs model_name))
                            model_names))
          (isoformat utcnow)),
     loaded_from storage fs models).
Proof.
  unfold reload_models, bind, ret.
  rewrite reload_one_anomaly. cbn beta iota.
  rewrite reload_one_scaling. cbn beta iota.
  rewrite reload_one_root_cause. cbn beta iota.
  unfold loaded_from, model_names.
  cbn [anomaly_detection predictive_scaling root_cause_analysis List.filter map].
  destruct (saved storage fs "anomaly_detection"),
           (saved storage fs "predictive_scaling"),
           (saved storage fs "root_cause_analysis"); reflexivity.
Qed.

(** A file that exists but does not hold an anomaly detector's bundle (it
    cannot be unpickled, or it is another component's): [reload_models]
    still lists the detector under [reloaded], no line of [failed] reports
    the failed load, and the detector is left untrained. *)
Theorem reload_models_hides_failed_load (storage : string) (fs : FileSystem) utcnow models
    model_data :
  files fs !! model_path storage "anomaly_detection" = Some model_data ->
  (forall b, model_data <> AnomalyBundle b) ->
  exists body models',
    reload_models storage fs utcnow models = (Respond body, models') /\
    "anomaly_detection" ∈ reloaded body /\
    Forall (fun line => exists model_name, line = model_name +:+ ": No saved model found")
           (failed body) /\
    AnomalyDetection.is_trained (anomaly_detection models') = false.
Proof.
  intros Hfile Hother.
  assert (saved storage fs "anomaly_detection" = true) as Hs
    by (unfold saved, path_exists; rewrite Hfile; reflexivity).
  destruct (reload_models_body storage fs utcnow models) as (lists & Hbody & Hin & Hfailed).
  pose proof (reload_models_state storage fs utcnow models) as Hstate.
  destruct (reload_models storage fs utcnow models) as [response models'].
  cbn [fst snd] in Hbody, Hstate. subst response models'.
  do 2 eexists. split; [reflexivity|]. cbn [reloaded failed].
  split; [exact (Hin Hs)|]. split; [exact Hfailed|].
  unfold loaded_from. cbn [anomaly_detection]. rewrite Hs.
  unfold anomaly_loaded, joblib_load. rewrite Hfile.
  destruct model_data as [b|b|b|]; try reflexivity.
  exfalso. exact (Hother b eq_refl).
Qed.

(** Start-up is a reload of the freshly constructed components, and a
    reload from the disk that the components were last loaded from changes
    nothing. *)
Theorem reload_after_startup (storage : string) (fs : FileSystem) utcnow models :
  startup storage fs = snd (reload_models storage fs utcnow constructed) /\
  snd (reload_models storage fs utcnow (snd (reload_models storage fs utcnow models)))
  = snd (reload_models storage fs utcnow models).
Proof.
  unfold startup, exec. rewrite load_pretrained_eq, !reload_models_state. cbn [snd].
  split; [reflexivity|].
  unfold loaded_from. cbn [anomaly_detection predictive_scaling root_cause_analysis].
  f_equal.
  - destruct (saved storage fs "anomaly_detection"); [|reflexivity].
    unfold anomaly_loaded.
    destruct (joblib_load fs _) as [[b|b|b|]|e]; reflexivity.
  - destruct (saved storage fs "predictive_scaling"); [|reflexivity].
    unfold scaling_loaded.
    destruct (joblib_load fs _) as [[b|b|b|]|e]; reflexivity.
  - destruct (saved storage fs "root_cause_analysis"); [|reflexivity].
    unfold root_cause_loaded.
    destruct (joblib_load fs _) as [[b|b|b|]|e]; reflexivity.
Qed.

(** Shutdown followed by start-up.  [shutdown] never raises.  A trained
    component whose path can be written comes back from the next start-up
    exactly as it was.  A component that is untrained, or whose path cannot
    be written, is not saved: the next start-up gives what the old disk
    gives, an older file included. *)
Theorem shutdown_then_startup (storage : string) (models : AIModels) (fs : FileSystem) :
  let fs' := exec (shutdown storage models) fs in
  let path := model_path storage in
  eval (shutdown storage models) fs = Ok tt /\
  (AnomalyDetection.is_trained (anomaly_detection models) = true ->
   path "anomaly_detection" ∉ unwritable fs ->
   anomaly_detection (startup storage fs') = anomaly_detection models) /\
  (PredictiveScaling.is_trained (predictive_scaling models) = true ->
   path "predictive_scaling" ∉ unwritable fs ->
   predictive_scaling (startup storage fs') = predictive_scaling models) /\
  (RootCauseAnalysis.is_trained (root_cause_analysis models) = true ->
   path "root_cause_analysis" ∉ unwritable fs ->
   root_cause_analysis (startup storage fs') = root_cause_analysis models) /\
  (AnomalyDetection.is_trained (anomaly_detection models) = false \/
   path "anomaly_detection" ∈ unwritable fs ->
   anomaly_detection (startup storage fs') = anomaly_detection (startup storage fs)) /\
  (PredictiveScaling.is_trained (predictive_scaling models) = false \/
   path "predictive_scaling" ∈ unwritable fs ->
   predictive_scaling (startup storage fs') = predictive_scaling (startup storage fs)) /\
  (RootCauseAnalysis.is_trained (root_cause_analysis models) = false \/
   path "root_cause_analysis" ∈ unwritable fs ->
   root_cause_analysis (startup storage fs') = root_cause_analysis (startup storage fs)).
Proof.
  cbv zeta. destruct (shutdown_eq storage models fs) as (fs' & E & _ & Ha & Hp & Hr).
  unfold eval, exec at 1 2 3 4 5 6. rewrite E. cbn [fst snd].
  unfold startup, exec. rewrite !load_pretrained_eq. cbn [snd].
  unfold loaded_from, saved, path_exists, anomaly_loaded, scaling_loaded, root_cause_loaded,
    joblib_load.
  cbn [anomaly_detection predictive_scaling root_cause_analysis].
  rewrite Ha, Hp, Hr.
  split; [reflexivity|].
  repeat split.
  - intros -> Hw. rewrite bool_decide_eq_true_2 by exact Hw. reflexivity.
  - intros -> Hw. rewrite bool_decide_eq_true_2 by exact Hw. reflexivity.
  - intros -> Hw. rewrite bool_decide_eq_true_2 by exact Hw. reflexivity.
  - intros [-> | Hw]; [reflexivity|].
    rewrite bool_decide_eq_false_2 by (intros Hn; contradiction).
    rewrite andb_false_r. reflexivity.
  - intros [-> | Hw]; [reflexivity|].
    rewrite bool_decide_eq_false_2 by (intros Hn; contradiction).
    rewrite andb_false_r. reflexivity.
  - intros [-> | Hw]; [reflexivity|].
    rewrite bool_decide_eq_false_2 by (intros Hn; contradiction).
    rewrite andb_false_r. reflexivity.
Qed.

(** The background training tasks never raise and touch only their own
    component.  The dictionary of the anomaly task has one entry for each of
    the four metric names that is a column, each holding the whole frame;
    after the task the detector is trained, and for a frame without rows it
    is marked trained with nothing learned.  After the scaling task the
    scaler is trained exactly when [train_models] returned. *)
Theorem training_tasks (training_df : DataFrame) now (models : AIModels) :
  let trained := exec (train_anomaly_task training_df now) models in
  let scaled := exec (train_scaling_task training_df now) models in
  (eval (train_anomaly_task training_df now) models = Ok tt /\
   AnomalyDetection.is_trained (anomaly_detection trained) = true /\
   AnomalyDetection.last_training (anomaly_detection trained) = Some now /\
   predictive_scaling trained = predictive_scaling models /\
   root_cause_analysis trained = root_cause_analysis models /\
   (len training_df = 0%nat ->
    anomaly_detection trained
    = AnomalyDetection.set_last_training (Some now)
        (AnomalyDetection.set_is_trained true (anomaly_detection models)))) /\
  (map fst (training_data_of training_df)
   = List.filter (fun metric_name => has_column metric_name training_df)
       ["cpu_usage"; "memory_usage"; "disk_usage"; "response_time"] /\
   Forall (fun entry => snd entry = training_df) (training_data_of training_df)) /\
  (eval (train_scaling_task training_df now) models = Ok tt /\
   anomaly_detection scaled = anomaly_detection models /\
   root_cause_analysis scaled = root_cause_analysis models /\
   PredictiveScaling.is_trained (predictive_scaling scaled)
   = match eval (PredictiveScaling.train_models training_df now) (predictive_scaling models)
     with Ok _ => true | Raise _ => false end).
Proof.
  cbv zeta. split; [|split].
  - unfold train_anomaly_task, eval, exec, try_catch, on_anomaly_detection.
    rewrite AnomalyFacts.train_models_eq. cbn [fst snd anomaly_detection
      predictive_scaling root_cause_analysis].
    repeat split.
    intros Hlen. rewrite AnomalyTrainingFacts.for_each_without_rows; [reflexivity|].
    unfold training_data_of. apply Forall_forall. intros entry Hin.
    apply list_elem_of_omap in Hin as (m & _ & Hm).
    destruct (has_column m training_df); [|discriminate Hm].
    injection Hm as <-. exact Hlen.
  - unfold training_data_of. cbn -[has_column].
    destruct (has_column "cpu_usage" training_df),
             (has_column "memory_usage" training_df),
             (has_column "disk_usage" training_df),
             (has_column "response_time" training_df);
      (split; [reflexivity|]); repeat constructor.
  - pose proof (ScalingMoreFacts.train_models_flag (predictive_scaling models)
                  training_df now) as Hflag.
    unfold train_scaling_task, eval, exec, try_catch, on_predictive_scaling in *.
    destruct (PredictiveScaling.train_models training_df now (predictive_scaling models))
      as [[[]|e] s']; cbn [fst snd anomaly_detection predictive_scaling
                           root_cause_analysis] in *; repeat split; exact Hflag.
Qed.

End Theorems.

Import Persistence Engine EngineProperties EngineExamples.

(** An instance: the default storage directory with a damaged file for the
    anomaly detector. *)
Lemma reload_models_hides_failed_load_witness :
  files (L := RefLib.library) damaged_disk
    !! model_path "/app/models/storage" "anomaly_detection"
  = Some Unreadable /\
  fst (reload_models "/app/models/storage" damaged_disk 1700000000%Z constructed)
  = Respond (mkReloaded ["anomaly_detection"]
               ["predictive_scaling: No saved model found";
                "root_cause_analysis: No saved model found"]
               (isoformat (Library := RefLib.library) 1700000000%Z)).
Proof.
  assert (files (L := RefLib.library) damaged_disk
            !! model_path "/app/models/storage" "anomaly_detection"
          = Some Unreadable) as H by reflexivity.
  split; [exact H|].
  destruct (reload_models_hides_failed_load (L := RefLib.library) "/app/models/storage"
              damaged_disk 1700000000%Z constructed Unreadable H
              ltac:(intros b; discriminate)) as (body & models' & E & _).
  rewrite E. cbn [fst].
  assert (fst (reload_models (L := RefLib.library) "/app/models/storage" damaged_disk
                 1700000000%Z constructed) = Respond body) as E' by (rewrite E; reflexivity).
  rewrite <- E'. reflexivity.
Defined.

End EngineTheorems.
